(** * ProductCatalogService: the domain core and the write plan

    A shallow embedding of the Go sources
      - [internal/domain/money.go]                (Money),
      - [internal/app/product/domain/discount.go] (Discount),
      - [internal/domain/change_tracker.go]       (ChangeTracker),
      - package [domain]: the product statuses, the sentinel errors, the
        domain events and the Product aggregate,
      - [internal/committer/plan.go]              (Plan, Committer.Apply),
      - package [domain]: the pricing calculator,
      - the gRPC handler's mapping of errors to status codes,
      - package [usecase]: the validation of requests and the use cases,
      - [internal/repository/product_repo.go]     (the mutations of the
        product table and the conversion between rows and products),
    followed by the properties of the specification that concern them
    and by further properties of the code.

    Conventions of the embedding.
      - A Go pointer [*T] is an [option T]; [None] is [nil].
      - [int64] arguments are integers [Z]; where a statement depends on
        the range it says so with [int64_range].
      - [*big.Rat] values are rationals [Q] kept in lowest terms, which
        is what [math/big] maintains after every operation.
      - [time.Time] is an instant on one time line, an integer [Z];
        [Before] and [After] are the strict orders on it.
      - A method with a pointer receiver that mutates the aggregate is a
        computation in the state-and-error monad [Product.M]: the state
        is the aggregate, an error is the returned Go [error].
      - A Go run-time panic is the outcome [Panics].
      - [float64] is left abstract: the repository and the use cases
        are defined over any type with the conversions they use.
      - An interface of package [contract] is a set of section
        variables, one for each method; a use case returns, with its
        result, the transactions it ran. *)

From Stdlib Require Import ZArith QArith Ascii String List Lia.
From stdpp Require Import base option list gmap strings.

Local Open Scope Z_scope.

(** ** Outcomes of calls that may panic *)

Inductive outcome (A : Type) : Type :=
| Returns (a : A)
| Panics.
Arguments Returns {A} a.
Arguments Panics {A}.

Definition int64_range (x : Z) : Prop := - 2 ^ 63 <= x < 2 ^ 63.

(** [x == nil] on a pointer. *)
Definition isNil {A : Type} (x : option A) : bool :=
  match x with
  | None => true
  | Some _ => false
  end.

(** ** [math/big]: the part of [big.Rat] the domain uses *)

Module Rat.

(** A rational in lowest terms with a positive denominator. *)
Definition t : Type := Q.

(** [big.NewRat(a, b)]: panics on a zero denominator, moves the sign
    to the numerator and normalises. *)
Definition NewRat (a b : Z) : outcome t :=
  if b =? 0 then Panics
  else if b <? 0 then Returns (Qred (Qmake (- a) (Z.to_pos (- b))))
  else Returns (Qred (Qmake a (Z.to_pos b))).

(** The two constants the sources build with [big.NewRat]. *)
Definition zero : t := Qmake 0 1.
Definition hundred : t := Qmake 100 1.

(** [new(big.Rat).Set(x)]: a copy. *)
Definition Set_ (x : t) : t := x.

(** [x.Cmp(y)]: -1, 0 or +1. *)
Definition Cmp (x y : t) : Z :=
  match Qcompare x y with
  | Lt => -1
  | Eq => 0
  | Gt => 1
  end.

(** [x.Sign()]. *)
Definition Sign (x : t) : Z := Z.sgn (Qnum x).

Definition Add (x y : t) : t := Qred (Qplus x y).
Definition Sub (x y : t) : t := Qred (Qminus x y).
Definition Mul (x y : t) : t := Qred (Qmult x y).

(** [Quo(x, y)] panics when [y] is zero. *)
Definition Quo (x y : t) : outcome t :=
  if Qnum y =? 0 then Panics else Returns (Qred (Qdiv x y)).

(** [x.Num()] and [x.Denom()], the latter always positive. *)
Definition Num (x : t) : Z := Qnum x.
Definition Denom (x : t) : Z := Z.pos (Qden x).

(** [Int64()] of a [big.Int]: the integer itself when an int64 holds it;
    otherwise Go leaves the result undefined, and the implementation
    returns the low 64 bits. *)
Definition Int64 (x : Z) : Z := (x + 2 ^ 63) mod 2 ^ 64 - 2 ^ 63.

End Rat.

(** ** money.go *)

Module Money.

(** [type Money struct { amount *big.Rat }] *)
Record t : Type := mk { amount : option Rat.t }.

(** [NewMoney]: a zero denominator is replaced by 1 before the
    rational is built. *)
Definition NewMoney (numerator denominator : Z) : outcome (option t) :=
  let denominator := if denominator =? 0 then 1 else denominator in
  match Rat.NewRat numerator denominator with
  | Returns r => Returns (Some (mk (Some r)))
  | Panics => Panics
  end.

Definition NewMoneyFromRat (rat : option Rat.t) : option t :=
  match rat with
  | None => Some (mk (Some Rat.zero))
  | Some r => Some (mk (Some (Rat.Set_ r)))
  end.

Definition Zero : option t := Some (mk (Some Rat.zero)).

(** [Amount]: zero for a nil receiver or a nil amount. *)
Definition Amount (m : option t) : Rat.t :=
  match m with
  | None => Rat.zero
  | Some m' =>
      match amount m' with
      | None => Rat.zero
      | Some a => Rat.Set_ a
      end
  end.

Definition Add (m other : option t) : option t :=
  match other with
  | None => NewMoneyFromRat (Some (Amount m))
  | Some _ => NewMoneyFromRat (Some (Rat.Add (Amount m) (Amount other)))
  end.

Definition Sub (m other : option t) : option t :=
  match other with
  | None => NewMoneyFromRat (Some (Amount m))
  | Some _ => NewMoneyFromRat (Some (Rat.Sub (Amount m) (Amount other)))
  end.

Definition Multiply (m : option t) (factor : option Rat.t) : option t :=
  match factor with
  | None => NewMoneyFromRat (Some (Amount m))
  | Some f => NewMoneyFromRat (Some (Rat.Mul (Amount m) f))
  end.

Definition CalculatePercentage (m : option t) (percentage : option Rat.t)
  : outcome (option t) :=
  match percentage with
  | None => Returns Zero
  | Some p =>
      match Rat.Quo p Rat.hundred with
      | Returns factor => Returns (Multiply m (Some factor))
      | Panics => Panics
      end
  end.

Definition ApplyDiscount (m : option t) (percentage : option Rat.t)
  : outcome (option t) :=
  match percentage with
  | None => Returns (NewMoneyFromRat (Some (Amount m)))
  | Some _ =>
      match CalculatePercentage m percentage with
      | Returns discountAmount => Returns (Sub m discountAmount)
      | Panics => Panics
      end
  end.

Definition IsZero (m : option t) : bool :=
  match m with
  | None => true
  | Some m' =>
      match amount m' with
      | None => true
      | Some a => Rat.Sign a =? 0
      end
  end.

Definition IsPositive (m : option t) : bool :=
  match m with
  | None => false
  | Some m' =>
      match amount m' with
      | None => false
      | Some a => Rat.Sign a >? 0
      end
  end.

Definition IsNegative (m : option t) : bool :=
  match m with
  | None => false
  | Some m' =>
      match amount m' with
      | None => false
      | Some a => Rat.Sign a <? 0
      end
  end.

Definition Equals (m other : option t) : bool :=
  match m, other with
  | None, None => true
  | None, Some _ => false
  | Some _, None => false
  | Some _, Some _ => Rat.Cmp (Amount m) (Amount other) =? 0
  end.

Definition GreaterThan (m other : option t) : bool :=
  match m, other with
  | Some _, Some _ => Rat.Cmp (Amount m) (Amount other) >? 0
  | _, _ => false
  end.

Definition LessThan (m other : option t) : bool :=
  match m, other with
  | Some _, Some _ => Rat.Cmp (Amount m) (Amount other) <? 0
  | _, _ => false
  end.

Definition Numerator (m : option t) : Z :=
  match m with
  | None => 0
  | Some m' =>
      match amount m' with
      | None => 0
      | Some a => Rat.Int64 (Rat.Num a)
      end
  end.

Definition Denominator (m : option t) : Z :=
  match m with
  | None => 1
  | Some m' =>
      match amount m' with
      | None => 1
      | Some a => Rat.Int64 (Rat.Denom a)
      end
  end.

End Money.

(** ** Package [domain]: the sentinel errors *)

Inductive Error : Type :=
| ErrProductNotFound
| ErrProductNotActive
| ErrProductArchived
| ErrProductAlreadyActive
| ErrProductAlreadyInactive
| ErrInvalidProductName
| ErrInvalidProductCategory
| ErrInvalidBasePrice
| ErrInvalidDiscountPercentage
| ErrInvalidDiscountPeriod
| ErrDiscountNotActive
| ErrDiscountAlreadyExists
| ErrNoDiscountToRemove
| ErrInvalidID.

(** A Go result [(T, error)] or [error]: either the value with a nil
    error, or the error. *)
Inductive result (A : Type) : Type :=
| Ok (a : A)
| Err (e : Error).
Arguments Ok {A} a.
Arguments Err {A} e.

(** ** [time.Time] *)

Module Time.

Definition t : Type := Z.

(** The zero [time.Time{}]. *)
Definition zero : t := 0.

Definition Before (x u : t) : bool := x <? u.
Definition After (x u : t) : bool := u <? x.
Definition Equal (x u : t) : bool := x =? u.

End Time.

(** ** Package [domain]: [ProductStatus], a string type *)

Definition ProductStatus : Type := string.

Definition ProductStatusDraft : ProductStatus := "draft".
Definition ProductStatusActive : ProductStatus := "active".
Definition ProductStatusInactive : ProductStatus := "inactive".
Definition ProductStatusArchived : ProductStatus := "archived".

Definition IsValid (s : ProductStatus) : bool :=
  String.eqb s ProductStatusDraft || String.eqb s ProductStatusActive
  || String.eqb s ProductStatusInactive || String.eqb s ProductStatusArchived.

Definition CanActivate (s : ProductStatus) : bool :=
  String.eqb s ProductStatusDraft || String.eqb s ProductStatusInactive.

Definition CanDeactivate (s : ProductStatus) : bool :=
  String.eqb s ProductStatusActive.

Definition CanArchive (s : ProductStatus) : bool :=
  negb (String.eqb s ProductStatusArchived).

Definition CanUpdate (s : ProductStatus) : bool :=
  negb (String.eqb s ProductStatusArchived).

Definition CanApplyDiscount (s : ProductStatus) : bool :=
  String.eqb s ProductStatusActive.

(** ** discount.go *)

Module Discount.

Record t : Type := mk {
  percentage : option Rat.t;
  startDate : Time.t;
  endDate : Time.t
}.

Definition NewDiscount (percentage : option Rat.t) (startDate endDate : Time.t)
  : result t :=
  match percentage with
  | None => Err ErrInvalidDiscountPercentage
  | Some pct =>
      if Rat.Cmp pct Rat.zero <=? 0 then Err ErrInvalidDiscountPercentage
      else if Rat.Cmp pct Rat.hundred >? 0 then Err ErrInvalidDiscountPercentage
      else if negb (Time.After endDate startDate) then Err ErrInvalidDiscountPeriod
      else Ok (mk (Some (Rat.Set_ pct)) startDate endDate)
  end.

Definition Percentage (d : option t) : Rat.t :=
  match d with
  | None => Rat.zero
  | Some d' =>
      match percentage d' with
      | None => Rat.zero
      | Some pct => Rat.Set_ pct
      end
  end.

Definition StartDate (d : option t) : Time.t :=
  match d with
  | None => Time.zero
  | Some d' => startDate d'
  end.

Definition EndDate (d : option t) : Time.t :=
  match d with
  | None => Time.zero
  | Some d' => endDate d'
  end.

(** Inclusive of the start, exclusive of the end. *)
Definition IsValidAt (d : option t) (x : Time.t) : bool :=
  match d with
  | None => false
  | Some d' => negb (Time.Before x (startDate d')) && Time.Before x (endDate d')
  end.

Definition IsActive (d : option t) (x : Time.t) : bool := IsValidAt d x.

Definition IsExpired (d : option t) (x : Time.t) : bool :=
  match d with
  | None => true
  | Some d' => negb (Time.Before x (endDate d'))
  end.

Definition HasStarted (d : option t) (x : Time.t) : bool :=
  match d with
  | None => false
  | Some d' => negb (Time.Before x (startDate d'))
  end.

(** [ApplyTo]: the price itself when either side is nil. *)
Definition ApplyTo (d : option t) (price : option Money.t)
  : outcome (option Money.t) :=
  match d, price with
  | Some d', Some _ => Money.ApplyDiscount price (percentage d')
  | _, _ => Returns price
  end.

End Discount.

(** ** change_tracker.go *)

Definition FieldName : string := "name".
Definition FieldDescription : string := "description".
Definition FieldCategory : string := "category".
Definition FieldBasePrice : string := "base_price".
Definition FieldDiscount : string := "discount".
Definition FieldStatus : string := "status".

Module ChangeTracker.

(** [dirtyFields] is a Go map, which may itself be nil. *)
Record t : Type := mk { dirtyFields : option (gmap string bool) }.

Definition NewChangeTracker : option t := Some (mk (Some ∅)).

Definition MarkDirty (ct : option t) (field : string) : option t :=
  match ct with
  | None => None
  | Some c =>
      let m := match dirtyFields c with
               | None => ∅
               | Some m => m
               end in
      Some (mk (Some (<[field := true]> m)))
  end.

(** A key that is absent reads as [false]. *)
Definition Dirty (ct : option t) (field : string) : bool :=
  match ct with
  | None => false
  | Some c =>
      match dirtyFields c with
      | None => false
      | Some m => default false (m !! field)
      end
  end.

(** The dirty field names; Go leaves their order unspecified, so the
    result is a finite set. *)
Definition DirtyFields (ct : option t) : gset string :=
  match ct with
  | None => ∅
  | Some c =>
      match dirtyFields c with
      | None => ∅
      | Some m => dom (filter (λ kv, kv.2 = true) m)
      end
  end.

Definition HasChanges (ct : option t) : bool :=
  match ct with
  | None => false
  | Some c =>
      match dirtyFields c with
      | None => false
      | Some m => existsb (λ kv, kv.2) (map_to_list m)
      end
  end.

Definition Reset (ct : option t) : option t :=
  match ct with
  | None => None
  | Some _ => Some (mk (Some ∅))
  end.

Definition Clear (ct : option t) (field : string) : option t :=
  match ct with
  | None => None
  | Some c =>
      match dirtyFields c with
      | None => ct
      | Some m => Some (mk (Some (delete field m)))
      end
  end.

Definition MarkAllDirty (ct : option t) (fields : list string) : option t :=
  fold_left MarkDirty fields ct.

End ChangeTracker.

(** ** Package [domain]: the domain events *)

Record BaseEvent : Type := mkBaseEvent {
  aggregateID : string;
  occurredAt : Time.t
}.

Inductive DomainEvent : Type :=
| ProductCreatedEvent (base : BaseEvent)
    (Name Description Category : string) (BasePrice : option Money.t)
| ProductUpdatedEvent (base : BaseEvent) (Name Description Category : string)
| ProductActivatedEvent (base : BaseEvent)
| ProductDeactivatedEvent (base : BaseEvent)
| ProductArchivedEvent (base : BaseEvent)
| DiscountAppliedEvent (base : BaseEvent)
    (DiscountPercentage : option Rat.t) (StartDate EndDate : Time.t)
| DiscountRemovedEvent (base : BaseEvent).

Definition eventBase (e : DomainEvent) : BaseEvent :=
  match e with
  | ProductCreatedEvent b _ _ _ _ => b
  | ProductUpdatedEvent b _ _ _ => b
  | ProductActivatedEvent b => b
  | ProductDeactivatedEvent b => b
  | ProductArchivedEvent b => b
  | DiscountAppliedEvent b _ _ _ => b
  | DiscountRemovedEvent b => b
  end.

Definition EventType (e : DomainEvent) : string :=
  match e with
  | ProductCreatedEvent _ _ _ _ _ => "product.created"
  | ProductUpdatedEvent _ _ _ _ => "product.updated"
  | ProductActivatedEvent _ => "product.activated"
  | ProductDeactivatedEvent _ => "product.deactivated"
  | ProductArchivedEvent _ => "product.archived"
  | DiscountAppliedEvent _ _ _ _ => "product.discount_applied"
  | DiscountRemovedEvent _ => "product.discount_removed"
  end.

Definition AggregateID (e : DomainEvent) : string := aggregateID (eventBase e).
Definition OccurredAt (e : DomainEvent) : Time.t := occurredAt (eventBase e).

Definition NewProductCreatedEvent (productID name description category : string)
    (basePrice : option Money.t) (occurredAt : Time.t) : DomainEvent :=
  ProductCreatedEvent (mkBaseEvent productID occurredAt)
    name description category basePrice.

Definition NewProductUpdatedEvent (productID name description category : string)
    (occurredAt : Time.t) : DomainEvent :=
  ProductUpdatedEvent (mkBaseEvent productID occurredAt) name description category.

Definition NewProductActivatedEvent (productID : string) (occurredAt : Time.t)
  : DomainEvent :=
  ProductActivatedEvent (mkBaseEvent productID occurredAt).

Definition NewProductDeactivatedEvent (productID : string) (occurredAt : Time.t)
  : DomainEvent :=
  ProductDeactivatedEvent (mkBaseEvent productID occurredAt).

Definition NewProductArchivedEvent (productID : string) (occurredAt : Time.t)
  : DomainEvent :=
  ProductArchivedEvent (mkBaseEvent productID occurredAt).

Definition NewDiscountAppliedEvent (productID : string) (percentage : option Rat.t)
    (startDate endDate occurredAt : Time.t) : DomainEvent :=
  DiscountAppliedEvent (mkBaseEvent productID occurredAt)
    percentage startDate endDate.

Definition NewDiscountRemovedEvent (productID : string) (occurredAt : Time.t)
  : DomainEvent :=
  DiscountRemovedEvent (mkBaseEvent productID occurredAt).

(** ** [strings.TrimSpace] on ASCII text

    The aggregate is defined below over any trimming function, so what
    is proved of it holds of Go's [strings.TrimSpace]. For running the
    aggregate on concrete ASCII input, [TrimSpaceASCII] removes the
    leading and trailing bytes that Go's [asciiSpace] table marks:
    tab, line feed, vertical tab, form feed, carriage return, space. *)

Definition asciiSpace (c : ascii) : bool :=
  let n := nat_of_ascii c in
  ((9 <=? n)%nat && (n <=? 13)%nat) || (n =? 32)%nat.

Fixpoint trimLeftASCII (s : list ascii) : list ascii :=
  match s with
  | [] => []
  | c :: r => if asciiSpace c then trimLeftASCII r else s
  end.

Definition TrimSpaceASCII (s : string) : string :=
  string_of_list_ascii
    (rev (trimLeftASCII (rev (trimLeftASCII (list_ascii_of_string s))))).

(** ** Package [domain]: the Product aggregate root *)

Module Product.

Record t : Type := mk {
  id : string;
  name : string;
  description : string;
  category : string;
  basePrice : option Money.t;
  discount : option Discount.t;
  status : ProductStatus;
  createdAt : Time.t;
  updatedAt : Time.t;
  archivedAt : option Time.t;
  changes : option ChangeTracker.t;
  events : list DomainEvent
}.

(** Field assignments [p.f = v]. *)
Definition set_name (v : string) (p : t) : t :=
  mk (id p) v (description p) (category p) (basePrice p) (discount p)
     (status p) (createdAt p) (updatedAt p) (archivedAt p) (changes p) (events p).
Definition set_description (v : string) (p : t) : t :=
  mk (id p) (name p) v (category p) (basePrice p) (discount p)
     (status p) (createdAt p) (updatedAt p) (archivedAt p) (changes p) (events p).
Definition set_category (v : string) (p : t) : t :=
  mk (id p) (name p) (description p) v (basePrice p) (discount p)
     (status p) (createdAt p) (updatedAt p) (archivedAt p) (changes p) (events p).
Definition set_discount (v : option Discount.t) (p : t) : t :=
  mk (id p) (name p) (description p) (category p) (basePrice p) v
     (status p) (createdAt p) (updatedAt p) (archivedAt p) (changes p) (events p).
Definition set_status (v : ProductStatus) (p : t) : t :=
  mk (id p) (name p) (description p) (category p) (basePrice p) (discount p)
     v (createdAt p) (updatedAt p) (archivedAt p) (changes p) (events p).
Definition set_updatedAt (v : Time.t) (p : t) : t :=
  mk (id p) (name p) (description p) (category p) (basePrice p) (discount p)
     (status p) (createdAt p) v (archivedAt p) (changes p) (events p).
Definition set_archivedAt (v : option Time.t) (p : t) : t :=
  mk (id p) (name p) (description p) (category p) (basePrice p) (discount p)
     (status p) (createdAt p) (updatedAt p) v (changes p) (events p).
Definition set_changes (v : option ChangeTracker.t) (p : t) : t :=
  mk (id p) (name p) (description p) (category p) (basePrice p) (discount p)
     (status p) (createdAt p) (updatedAt p) (archivedAt p) v (events p).
Definition set_events (v : list DomainEvent) (p : t) : t :=
  mk (id p) (name p) (description p) (category p) (basePrice p) (discount p)
     (status p) (createdAt p) (updatedAt p) (archivedAt p) (changes p) v.

(** *** The monad of the mutating methods

    A method runs on the aggregate behind its receiver and returns an
    [error]. The aggregate reached is part of the result whether or
    not the method failed: a write made before a [return err] stays
    made. *)
Definition M (A : Type) : Type := t → t * result A.

#[global] Instance M_ret : MRet M := λ A a p, (p, Ok a).

#[global] Instance M_bind : MBind M := λ A B f m p,
  match m p with
  | (p', Ok a) => f a p'
  | (p', Err e) => (p', Err e)
  end.

(** Read the receiver. *)
Definition get : M t := λ p, (p, Ok p).

(** Write a field of the receiver. *)
Definition modify (f : t → t) : M unit := λ p, (f p, Ok tt).

(** [return err]. *)
Definition raise (e : Error) : M unit := λ p, (p, Err e).

(** [if cond { return err }] on a condition over the receiver. *)
Definition guard (cond : t → bool) (e : Error) : M unit :=
  p ← get; if cond p then raise e else mret tt.

(** [p.changes.MarkDirty(field)]. *)
Definition markDirty (field : string) : M unit :=
  modify (λ p, set_changes (ChangeTracker.MarkDirty (changes p) field) p).

(** [p.events = append(p.events, e)] where [e] is built from the
    receiver's current fields. *)
Definition appendEvent (e : t → DomainEvent) : M unit :=
  modify (λ p, set_events (events p ++ [e p]) p).

(** The aggregate a method call leaves, and the error it returns. *)
Definition after {A : Type} (m : M A) (p : t) : t := (m p).1.
Definition returned {A : Type} (m : M A) (p : t) : result A := (m p).2.

(** A computation that, when it returns an error, has written nothing. *)
Definition error_safe {A : Type} (m : M A) : Prop :=
  ∀ p e, returned m p = Err e → after m p = p.

(** A computation that cannot return an error. *)
Definition never_fails {A : Type} (m : M A) : Prop :=
  ∀ p, ∃ a, returned m p = Ok a.

Definition ReconstructProduct (id name description category : string)
    (basePrice : option Money.t) (discount : option Discount.t)
    (status : ProductStatus) (createdAt updatedAt : Time.t)
    (archivedAt : option Time.t) : t :=
  mk id name description category basePrice discount status
     createdAt updatedAt archivedAt ChangeTracker.NewChangeTracker [].

Definition ClearEvents : M unit := modify (set_events []).

Definition EffectivePrice (p : t) (now : Time.t) : outcome (option Money.t) :=
  if negb (isNil (discount p)) && Discount.IsActive (discount p) now
  then Discount.ApplyTo (discount p) (basePrice p)
  else Returns (basePrice p).

Definition HasActiveDiscount (p : t) (now : Time.t) : bool :=
  negb (isNil (discount p)) && Discount.IsActive (discount p) now.

Definition IsActive (p : t) : bool := String.eqb (status p) ProductStatusActive.
Definition IsArchived (p : t) : bool := String.eqb (status p) ProductStatusArchived.

Definition Activate (now : Time.t) : M unit :=
  guard (λ p, String.eqb (status p) ProductStatusArchived) ErrProductArchived;;
  guard (λ p, String.eqb (status p) ProductStatusActive) ErrProductAlreadyActive;;
  guard (λ p, negb (CanActivate (status p))) ErrProductNotActive;;
  modify (set_status ProductStatusActive);;
  modify (set_updatedAt now);;
  markDirty FieldStatus;;
  appendEvent (λ p, NewProductActivatedEvent (id p) now);;
  mret tt.

Definition Deactivate (now : Time.t) : M unit :=
  guard (λ p, String.eqb (status p) ProductStatusArchived) ErrProductArchived;;
  guard (λ p, String.eqb (status p) ProductStatusInactive) ErrProductAlreadyInactive;;
  guard (λ p, negb (CanDeactivate (status p))) ErrProductNotActive;;
  modify (set_status ProductStatusInactive);;
  modify (set_updatedAt now);;
  markDirty FieldStatus;;
  appendEvent (λ p, NewProductDeactivatedEvent (id p) now);;
  mret tt.

Definition Archive (now : Time.t) : M unit :=
  guard (λ p, String.eqb (status p) ProductStatusArchived) ErrProductArchived;;
  modify (set_status ProductStatusArchived);;
  modify (set_archivedAt (Some now));;
  modify (set_updatedAt now);;
  markDirty FieldStatus;;
  appendEvent (λ p, NewProductArchivedEvent (id p) now);;
  mret tt.

(** The guard on [Archived] comes second, as in the source. *)
Definition ApplyDiscount (discount : option Discount.t) (now : Time.t) : M unit :=
  guard (λ p, negb (String.eqb (status p) ProductStatusActive)) ErrProductNotActive;;
  guard (λ p, String.eqb (status p) ProductStatusArchived) ErrProductArchived;;
  guard (λ _, isNil discount) ErrInvalidDiscountPercentage;;
  guard (λ _, Discount.IsExpired discount now) ErrInvalidDiscountPeriod;;
  modify (set_discount discount);;
  modify (set_updatedAt now);;
  markDirty FieldDiscount;;
  appendEvent (λ p, NewDiscountAppliedEvent (id p)
                      (Some (Discount.Percentage discount))
                      (Discount.StartDate discount) (Discount.EndDate discount) now);;
  mret tt.

Definition RemoveDiscount (now : Time.t) : M unit :=
  guard (λ p, String.eqb (status p) ProductStatusArchived) ErrProductArchived;;
  guard (λ p, isNil (discount p)) ErrNoDiscountToRemove;;
  modify (set_discount None);;
  modify (set_updatedAt now);;
  markDirty FieldDiscount;;
  appendEvent (λ p, NewDiscountRemovedEvent (id p) now);;
  mret tt.

Section WithTrimSpace.

(** Go's [strings.TrimSpace], from the standard library. *)
Variable TrimSpace : string → string.

Definition NewProduct (id' name' description' category' : string)
    (basePrice' : option Money.t) (now : Time.t) : result t :=
  if String.eqb (TrimSpace id') "" then Err ErrInvalidID
  else if String.eqb (TrimSpace name') "" then Err ErrInvalidProductName
  else if String.eqb (TrimSpace category') "" then Err ErrInvalidProductCategory
  else if isNil basePrice' || negb (Money.IsPositive basePrice')
  then Err ErrInvalidBasePrice
  else
    let p := mk id' (TrimSpace name') (TrimSpace description')
                (TrimSpace category') basePrice' None ProductStatusDraft
                now now None ChangeTracker.NewChangeTracker [] in
    let p := set_changes
               (ChangeTracker.MarkAllDirty (changes p)
                  [FieldName; FieldDescription; FieldCategory;
                   FieldBasePrice; FieldStatus]) p in
    let p := set_events
               (events p ++
                  [NewProductCreatedEvent id' (name p) (description p)
                     (category p) (basePrice p) now]) p in
    Ok p.

(** [hasChanges] is the local variable of the source, threaded
    through the three comparisons. *)
Definition Update (name' description' category' : string) (now : Time.t)
  : M unit :=
  guard (λ p, String.eqb (status p) ProductStatusArchived) ErrProductArchived;;
  guard (λ _, String.eqb (TrimSpace name') "") ErrInvalidProductName;;
  guard (λ _, String.eqb (TrimSpace category') "") ErrInvalidProductCategory;;
  let hasChanges := false in
  let newName := TrimSpace name' in
  hasChanges ← (p ← get;
                if negb (String.eqb (name p) newName)
                then modify (set_name newName);; markDirty FieldName;; mret true
                else mret hasChanges);
  let newDescription := TrimSpace description' in
  hasChanges ← (p ← get;
                if negb (String.eqb (description p) newDescription)
                then modify (set_description newDescription);;
                     markDirty FieldDescription;; mret true
                else mret hasChanges);
  let newCategory := TrimSpace category' in
  hasChanges ← (p ← get;
                if negb (String.eqb (category p) newCategory)
                then modify (set_category newCategory);;
                     markDirty FieldCategory;; mret true
                else mret hasChanges);
  (if hasChanges : bool
   then modify (set_updatedAt now);;
        appendEvent (λ p, NewProductUpdatedEvent (id p) (name p)
                            (description p) (category p) now)
   else mret tt);;
  mret tt.

(** *** Calls of the six mutating methods *)

Inductive call : Type :=
| CallUpdate (name' description' category' : string) (now : Time.t)
| CallActivate (now : Time.t)
| CallDeactivate (now : Time.t)
| CallArchive (now : Time.t)
| CallApplyDiscount (discount : option Discount.t) (now : Time.t)
| CallRemoveDiscount (now : Time.t).

Definition exec (c : call) : M unit :=
  match c with
  | CallUpdate n d c now => Update n d c now
  | CallActivate now => Activate now
  | CallDeactivate now => Deactivate now
  | CallArchive now => Archive now
  | CallApplyDiscount d now => ApplyDiscount d now
  | CallRemoveDiscount now => RemoveDiscount now
  end.

(** The instant handed to a call, and the type of the event a
    successful call of each method appends. *)
Definition callTime (c : call) : Time.t :=
  match c with
  | CallUpdate _ _ _ now => now
  | CallActivate now => now
  | CallDeactivate now => now
  | CallArchive now => now
  | CallApplyDiscount _ now => now
  | CallRemoveDiscount now => now
  end.

Definition callEventType (c : call) : string :=
  match c with
  | CallUpdate _ _ _ _ => "product.updated"
  | CallActivate _ => "product.activated"
  | CallDeactivate _ => "product.deactivated"
  | CallArchive _ => "product.archived"
  | CallApplyDiscount _ _ => "product.discount_applied"
  | CallRemoveDiscount _ => "product.discount_removed"
  end.

(** The aggregate after a sequence of calls, failed ones included. *)
Definition run (cs : list call) (p : t) : t :=
  fold_left (λ q c, after (exec c) q) cs p.

(** What each call of a sequence returned, in order. *)
Fixpoint results (cs : list call) (p : t) : list (result unit) :=
  match cs with
  | [] => []
  | c :: rest => returned (exec c) p :: results rest (after (exec c) p)
  end.

(** The aggregates a caller can hold: built by [NewProduct], then
    changed only by the six methods and by [ClearEvents]. *)
Inductive reachable : t → Prop :=
| reach_new id' name' description' category' basePrice' now p :
    NewProduct id' name' description' category' basePrice' now = Ok p →
    reachable p
| reach_call c p :
    reachable p → reachable (after (exec c) p)
| reach_clear p :
    reachable p → reachable (after ClearEvents p).

(** The invariants of the aggregate. *)
Definition well_formed (p : t) : Prop :=
  TrimSpace (id p) ≠ ""
  ∧ name p ≠ ""
  ∧ category p ≠ ""
  ∧ Money.IsPositive (basePrice p) = true
  ∧ IsValid (status p) = true
  ∧ changes p ≠ None
  ∧ (status p = ProductStatusDraft → discount p = None)
  ∧ Forall (λ e, AggregateID e = id p) (events p).

End WithTrimSpace.

End Product.

(** ** plan.go: the write plan *)

Module Plan.

Section WithMutation.

(** [spanner.Mutation], opaque to the plan. *)
Variable Mutation : Type.

(** [type Plan struct { mutations []*spanner.Mutation }] *)
Record t : Type := mk { mutations : list (option Mutation) }.

Definition NewPlan : t := mk [].

(** Nil mutations are ignored. *)
Definition Add (mut : option Mutation) (p : t) : t :=
  if negb (isNil mut) then mk (mutations p ++ [mut]) else p.

Definition AddAll (muts : list (option Mutation)) (p : t) : t :=
  fold_left (λ q mut, Add mut q) muts p.

Definition Mutations (p : t) : list (option Mutation) := mutations p.

Definition IsEmpty (p : t) : bool := (length (mutations p) =? 0)%nat.

Definition Count (p : t) : nat := length (mutations p).

Definition Clear (p : t) : t := mk [].

(** *** Sequences of calls on one plan *)

Inductive op : Type :=
| OpAdd (mut : option Mutation)
| OpAddAll (muts : list (option Mutation))
| OpClear.

Definition apply (o : op) (p : t) : t :=
  match o with
  | OpAdd mut => Add mut p
  | OpAddAll muts => AddAll muts p
  | OpClear => Clear p
  end.

Definition run (ops : list op) (p : t) : t :=
  fold_left (λ q o, apply o q) ops p.

(** *** What the specification counts

    The non-nil mutations handed to a call, and the calls made
    since the last [Clear] (all of them when there was none). *)

Definition nonNil (muts : list (option Mutation)) : list (option Mutation) :=
  List.filter (λ m, negb (isNil m)) muts.

Definition handed (o : op) : list (option Mutation) :=
  match o with
  | OpAdd mut => nonNil [mut]
  | OpAddAll muts => nonNil muts
  | OpClear => []
  end.

Definition isClear (o : op) : bool :=
  match o with
  | OpClear => true
  | _ => false
  end.

Fixpoint sinceLastClear (ops : list op) : list op :=
  match ops with
  | [] => []
  | o :: rest =>
      if existsb isClear rest then sinceLastClear rest
      else if isClear o then rest
      else o :: rest
  end.

Definition addedSinceClear (ops : list op) : list (option Mutation) :=
  concat (map handed (sinceLastClear ops)).

End WithMutation.

Arguments NewPlan {Mutation}.
Arguments Add {Mutation} mut p.
Arguments AddAll {Mutation} muts p.
Arguments Mutations {Mutation} p.
Arguments IsEmpty {Mutation} p.
Arguments Count {Mutation} p.
Arguments Clear {Mutation} p.
Arguments OpAdd {Mutation} mut.
Arguments OpAddAll {Mutation} muts.
Arguments OpClear {Mutation}.
Arguments apply {Mutation} o p.
Arguments run {Mutation} ops p.
Arguments nonNil {Mutation} muts.
Arguments handed {Mutation} o.
Arguments isClear {Mutation} o.
Arguments sinceLastClear {Mutation} ops.
Arguments addedSinceClear {Mutation} ops.

End Plan.

(** ** Package [domain]: the pricing calculator *)

Module PricingCalculator.


Definition CalculateDiscountedPrice (basePrice : option Money.t)
    (discountPercent : option Rat.t) : outcome (option Money.t) :=
  if isNil basePrice then Returns Money.Zero
  else if isNil discountPercent then Returns basePrice
  else Money.ApplyDiscount basePrice discountPercent.



End PricingCalculator.

(** ** Go errors as the transport layer sees them

    An [error] reaching a handler is one of the sentinel errors of the
    domain, an error of another origin, or an error that wraps one of
    these (as [fmt.Errorf] with [%w] builds). *)

Inductive GoError : Type :=
| Sentinel (e : Error)
| Opaque (msg : string)
| Wrap (msg : string) (inner : GoError).

(** The texts given to [errors.New]. *)
Definition sentinelText (e : Error) : string :=
  match e with
  | ErrProductNotFound => "product not found"
  | ErrProductNotActive => "product is not active"
  | ErrProductArchived => "product is archived"
  | ErrProductAlreadyActive => "product is already active"
  | ErrProductAlreadyInactive => "product is already inactive"
  | ErrInvalidProductName => "invalid product name"
  | ErrInvalidProductCategory => "invalid product category"
  | ErrInvalidBasePrice => "base price must be positive"
  | ErrInvalidDiscountPercentage => "discount percentage must be between 0 and 100"
  | ErrInvalidDiscountPeriod => "discount end date must be after start date"
  | ErrDiscountNotActive => "discount is not active at the current time"
  | ErrDiscountAlreadyExists => "product already has an active discount"
  | ErrNoDiscountToRemove => "product has no discount to remove"
  | ErrInvalidID => "invalid ID"
  end.

#[global] Instance Error_eq_dec : EqDecision Error.
Proof. solve_decision. Defined.

(** [err.Error()]. *)
Definition ErrorText (err : GoError) : string :=
  match err with
  | Sentinel e => sentinelText e
  | Opaque msg => msg
  | Wrap msg _ => msg
  end.

(** [errors.Is(err, target)] for a sentinel target: the chain of
    wrapped errors is searched for the sentinel itself. *)
Fixpoint Is (err : GoError) (target : Error) : bool :=
  match err with
  | Sentinel e => bool_decide (e = target)
  | Opaque _ => false
  | Wrap _ inner => Is inner target
  end.

(** ** The gRPC handler: mapping errors to status codes *)

Module Handler.

Inductive Code : Type :=
| NotFound
| InvalidArgument
| FailedPrecondition
| Internal.

(** [status.Error(code, message)]. *)
Record Status : Type := mkStatus { code : Code; message : string }.

Definition MapDomainErrorToGRPC (err : option GoError) : option Status :=
  match err with
  | None => None
  | Some err =>
      if Is err ErrProductNotFound then Some (mkStatus NotFound (ErrorText err))
      else if Is err ErrInvalidID then Some (mkStatus InvalidArgument (ErrorText err))
      else if Is err ErrInvalidProductName
      then Some (mkStatus InvalidArgument (ErrorText err))
      else if Is err ErrInvalidProductCategory
      then Some (mkStatus InvalidArgument (ErrorText err))
      else if Is err ErrInvalidBasePrice
      then Some (mkStatus InvalidArgument (ErrorText err))
      else if Is err ErrInvalidDiscountPercentage
      then Some (mkStatus InvalidArgument (ErrorText err))
      else if Is err ErrInvalidDiscountPeriod
      then Some (mkStatus InvalidArgument (ErrorText err))
      else if Is err ErrProductNotActive
      then Some (mkStatus FailedPrecondition (ErrorText err))
      else if Is err ErrProductArchived
      then Some (mkStatus FailedPrecondition (ErrorText err))
      else if Is err ErrProductAlreadyActive
      then Some (mkStatus FailedPrecondition (ErrorText err))
      else if Is err ErrProductAlreadyInactive
      then Some (mkStatus FailedPrecondition (ErrorText err))
      else if Is err ErrDiscountNotActive
      then Some (mkStatus FailedPrecondition (ErrorText err))
      else if Is err ErrDiscountAlreadyExists
      then Some (mkStatus FailedPrecondition (ErrorText err))
      else if Is err ErrNoDiscountToRemove
      then Some (mkStatus FailedPrecondition (ErrorText err))
      else Some (mkStatus Internal "internal server error")
  end.

End Handler.

(** ** Package [usecase]: validation of a create request *)

Module UseCase.

Record CreateProductRequest : Type := mkCreateProductRequest {
  Name : string;
  Description : string;
  Category : string;
  BasePriceNumerator : Z;
  BasePriceDenominator : Z
}.

(** The returned [error], nil when the request is accepted. *)
Definition ValidateCreateProductRequest (req : CreateProductRequest)
  : outcome (option Error) :=
  if String.eqb (Name req) "" then Returns (Some ErrInvalidProductName)
  else if String.eqb (Category req) "" then Returns (Some ErrInvalidProductCategory)
  else if (BasePriceNumerator req <=? 0) || (BasePriceDenominator req <=? 0)
  then Returns (Some ErrInvalidBasePrice)
  else
    match Rat.NewRat (BasePriceNumerator req) (BasePriceDenominator req) with
    | Panics => Panics
    | Returns price =>
        if Rat.Sign price <=? 0 then Returns (Some ErrInvalidBasePrice)
        else Returns None
    end.

End UseCase.

(** ** Package [repository]: the product table and its mutations *)

Module Repository.

Definition ProductsTable : string := "products".
Definition ProductID : string := "product_id".
Definition ProductName : string := "name".
Definition ProductDescription : string := "description".
Definition ProductCategory : string := "category".
Definition ProductBasePriceNum : string := "base_price_numerator".
Definition ProductBasePriceDenom : string := "base_price_denominator".
Definition ProductDiscountPercent : string := "discount_percent".
Definition ProductDiscountStartDate : string := "discount_start_date".
Definition ProductDiscountEndDate : string := "discount_end_date".
Definition ProductStatus : string := "status".
Definition ProductCreatedAt : string := "created_at".
Definition ProductUpdatedAt : string := "updated_at".
Definition ProductArchivedAt : string := "archived_at".

(** [spanner.NullNumeric] and [spanner.NullTime]: a value and whether
    it is present. *)
Record NullNumeric : Type := mkNullNumeric { Numeric : Rat.t; NumericValid : bool }.
Record NullTime : Type := mkNullTime { TimeOf : Time.t; TimeValid : bool }.

(** What a column of the two tables can hold. *)
Inductive Value : Type :=
| VString (s : string)
| VInt64 (z : Z)
| VTime (x : Time.t)
| VNullTime (x : NullTime)
| VNullNumeric (x : NullNumeric).

(** A [spanner.Mutation] as built by [spanner.InsertMap] and
    [spanner.UpdateMap]: the operation, the table, and the value of
    each column named. *)
Inductive MutationOp : Type :=
| OpInsert
| OpUpdate.

Record Mutation : Type := mkMutation {
  op : MutationOp;
  table : string;
  values : gmap string Value
}.

Definition InsertMap (table : string) (m : gmap string Value) : option Mutation :=
  Some (mkMutation OpInsert table m).

Definition UpdateMap (table : string) (m : gmap string Value) : option Mutation :=
  Some (mkMutation OpUpdate table m).

Record ProductData : Type := mkProductData {
  dataProductID : string;
  dataName : string;
  dataDescription : string;
  dataCategory : string;
  dataBasePriceNumerator : Z;
  dataBasePriceDenominator : Z;
  dataDiscountPercent : NullNumeric;
  dataDiscountStartDate : NullTime;
  dataDiscountEndDate : NullTime;
  dataStatus : string;
  dataCreatedAt : Time.t;
  dataUpdatedAt : Time.t;
  dataArchivedAt : NullTime
}.

(** The zero values of the nullable columns. *)
Definition noNumeric : NullNumeric := mkNullNumeric Rat.zero false.
Definition noTime : NullTime := mkNullTime Time.zero false.

Definition InsertMapOf (d : ProductData) : gmap string Value :=
  <[ProductArchivedAt := VNullTime (dataArchivedAt d)]>
  (<[ProductUpdatedAt := VTime (dataUpdatedAt d)]>
  (<[ProductCreatedAt := VTime (dataCreatedAt d)]>
  (<[ProductStatus := VString (dataStatus d)]>
  (<[ProductDiscountEndDate := VNullTime (dataDiscountEndDate d)]>
  (<[ProductDiscountStartDate := VNullTime (dataDiscountStartDate d)]>
  (<[ProductDiscountPercent := VNullNumeric (dataDiscountPercent d)]>
  (<[ProductBasePriceDenom := VInt64 (dataBasePriceDenominator d)]>
  (<[ProductBasePriceNum := VInt64 (dataBasePriceNumerator d)]>
  (<[ProductCategory := VString (dataCategory d)]>
  (<[ProductDescription := VString (dataDescription d)]>
  (<[ProductName := VString (dataName d)]>
  (<[ProductID := VString (dataProductID d)]> ∅)))))))))))).

Definition InsertMutation (d : ProductData) : option Mutation :=
  InsertMap ProductsTable (InsertMapOf d).

(** [ProductModel.InsertMut] and [ProductModel.UpdateMut]. *)
Definition modelInsertMut (d : ProductData) : option Mutation := InsertMutation d.

Definition modelUpdateMut (productID : string) (updates : gmap string Value)
  : option Mutation :=
  if bool_decide (updates = ∅) then None
  else UpdateMap ProductsTable (<[ProductID := VString productID]> updates).

(** Whether one of the six fields [UpdateMut] asks about is dirty. *)
Definition anyTracked (changes : option ChangeTracker.t) : bool :=
  ChangeTracker.Dirty changes FieldName
  || ChangeTracker.Dirty changes FieldDescription
  || ChangeTracker.Dirty changes FieldCategory
  || ChangeTracker.Dirty changes FieldBasePrice
  || ChangeTracker.Dirty changes FieldDiscount
  || ChangeTracker.Dirty changes FieldStatus.

(** What [UpdateMut] collects before it adds the key and the update
    time: no column but the ten named, and the columns of a field
    exactly when the field is dirty, holding the current value. The
    discount columns are null for a product without discount; the
    percentage that is written went through float64 and is left open
    here. archived_at goes with a dirty status, on an archived product
    that has the instant. *)
Definition tracked (p : Product.t) (updates : gmap string Value) : Prop :=
  let dirty := ChangeTracker.Dirty (Product.changes p) in
  (∀ k, is_Some (updates !! k) →
        k ∈ [ProductName; ProductDescription; ProductCategory;
             ProductBasePriceNum; ProductBasePriceDenom; ProductDiscountPercent;
             ProductDiscountStartDate; ProductDiscountEndDate; ProductStatus;
             ProductArchivedAt])
  ∧ updates !! ProductName
    = (if dirty FieldName then Some (VString (Product.name p)) else None)
  ∧ updates !! ProductDescription
    = (if dirty FieldDescription
       then Some (VString (Product.description p)) else None)
  ∧ updates !! ProductCategory
    = (if dirty FieldCategory then Some (VString (Product.category p)) else None)
  ∧ updates !! ProductBasePriceNum
    = (if dirty FieldBasePrice
       then Some (VInt64 (Money.Numerator (Product.basePrice p))) else None)
  ∧ updates !! ProductBasePriceDenom
    = (if dirty FieldBasePrice
       then Some (VInt64 (Money.Denominator (Product.basePrice p))) else None)
  ∧ (if dirty FieldDiscount
     then
       match Product.discount p with
       | Some d =>
           (∃ pct, updates !! ProductDiscountPercent
                   = Some (VNullNumeric (mkNullNumeric pct true)))
           ∧ updates !! ProductDiscountStartDate
             = Some (VNullTime (mkNullTime (Discount.startDate d) true))
           ∧ updates !! ProductDiscountEndDate
             = Some (VNullTime (mkNullTime (Discount.endDate d) true))
       | None =>
           updates !! ProductDiscountPercent = Some (VNullNumeric noNumeric)
           ∧ updates !! ProductDiscountStartDate = Some (VNullTime noTime)
           ∧ updates !! ProductDiscountEndDate = Some (VNullTime noTime)
       end
     else
       updates !! ProductDiscountPercent = None
       ∧ updates !! ProductDiscountStartDate = None
       ∧ updates !! ProductDiscountEndDate = None)
  ∧ updates !! ProductStatus
    = (if dirty FieldStatus then Some (VString (Product.status p)) else None)
  ∧ updates !! ProductArchivedAt
    = (if dirty FieldStatus && Product.IsArchived p
       then (λ x, VNullTime (mkNullTime x true)) <$> Product.archivedAt p
       else None).

Section WithFloat64.

(** Go's [float64], with the three conversions the repository makes:
    [x.Float64()] of a rational, [int64(pct*100)] and [int64(pct)]. *)
Variable float64 : Type.
Variable Float64 : Rat.t → float64.
Variable hundredths : float64 → Z.
Variable truncate : float64 → Z.

(** The three discount columns for a discount that is present. *)
Definition discountColumns (discount : option Discount.t)
  : outcome (NullNumeric * NullTime * NullTime) :=
  let pct := Float64 (Discount.Percentage discount) in
  match Rat.NewRat (hundredths pct) 100 with
  | Panics => Panics
  | Returns r =>
      Returns (mkNullNumeric r true,
               mkNullTime (Discount.StartDate discount) true,
               mkNullTime (Discount.EndDate discount) true)
  end.

Definition UpdateMut (product : Product.t) : outcome (option Mutation) :=
  let changes := Product.changes product in
  if negb (ChangeTracker.HasChanges changes) then Returns None
  else
    let updates : gmap string Value := ∅ in
    let updates :=
      if ChangeTracker.Dirty changes FieldName
      then <[ProductName := VString (Product.name product)]> updates
      else updates in
    let updates :=
      if ChangeTracker.Dirty changes FieldDescription
      then <[ProductDescription := VString (Product.description product)]> updates
      else updates in
    let updates :=
      if ChangeTracker.Dirty changes FieldCategory
      then <[ProductCategory := VString (Product.category product)]> updates
      else updates in
    let updates :=
      if ChangeTracker.Dirty changes FieldBasePrice
      then <[ProductBasePriceDenom :=
               VInt64 (Money.Denominator (Product.basePrice product))]>
           (<[ProductBasePriceNum :=
                VInt64 (Money.Numerator (Product.basePrice product))]> updates)
      else updates in
    let withDiscount : outcome (gmap string Value) :=
      if ChangeTracker.Dirty changes FieldDiscount
      then
        if negb (isNil (Product.discount product))
        then
          match discountColumns (Product.discount product) with
          | Panics => Panics
          | Returns (pct, start, end') =>
              Returns (<[ProductDiscountEndDate := VNullTime end']>
                       (<[ProductDiscountStartDate := VNullTime start]>
                        (<[ProductDiscountPercent := VNullNumeric pct]> updates)))
          end
        else
          Returns (<[ProductDiscountEndDate := VNullTime noTime]>
                   (<[ProductDiscountStartDate := VNullTime noTime]>
                    (<[ProductDiscountPercent := VNullNumeric noNumeric]> updates)))
      else Returns updates in
    match withDiscount with
    | Panics => Panics
    | Returns updates =>
        let updates :=
          if ChangeTracker.Dirty changes FieldStatus
          then
            let updates :=
              <[ProductStatus := VString (Product.status product)]> updates in
            match Product.archivedAt product with
            | Some at' =>
                if Product.IsArchived product
                then <[ProductArchivedAt := VNullTime (mkNullTime at' true)]> updates
                else updates
            | None => updates
            end
          else updates in
        if bool_decide (updates = ∅) then Returns None
        else
          Returns (modelUpdateMut (Product.id product)
                     (<[ProductUpdatedAt := VTime (Product.updatedAt product)]>
                        updates))
    end.

Definition ArchiveMut (product : Product.t) : option Mutation :=
  let updates : gmap string Value :=
    <[ProductUpdatedAt := VTime (Product.updatedAt product)]>
    (<[ProductStatus := VString (Product.status product)]> ∅) in
  let updates :=
    match Product.archivedAt product with
    | Some at' => <[ProductArchivedAt := VNullTime (mkNullTime at' true)]> updates
    | None => updates
    end in
  modelUpdateMut (Product.id product) updates.

Definition productToData (product : Product.t) : outcome ProductData :=
  let data :=
    mkProductData (Product.id product) (Product.name product)
      (Product.description product) (Product.category product)
      (Money.Numerator (Product.basePrice product))
      (Money.Denominator (Product.basePrice product))
      noNumeric noTime noTime
      (Product.status product) (Product.createdAt product)
      (Product.updatedAt product) noTime in
  let withDiscount : outcome ProductData :=
    if negb (isNil (Product.discount product))
    then
      match discountColumns (Product.discount product) with
      | Panics => Panics
      | Returns (pct, start, end') =>
          Returns (mkProductData (dataProductID data) (dataName data)
                     (dataDescription data) (dataCategory data)
                     (dataBasePriceNumerator data) (dataBasePriceDenominator data)
                     pct start end'
                     (dataStatus data) (dataCreatedAt data) (dataUpdatedAt data)
                     (dataArchivedAt data))
      end
    else Returns data in
  match withDiscount with
  | Panics => Panics
  | Returns data =>
      match Product.archivedAt product with
      | Some archivedAt =>
          Returns (mkProductData (dataProductID data) (dataName data)
                     (dataDescription data) (dataCategory data)
                     (dataBasePriceNumerator data) (dataBasePriceDenominator data)
                     (dataDiscountPercent data) (dataDiscountStartDate data)
                     (dataDiscountEndDate data)
                     (dataStatus data) (dataCreatedAt data) (dataUpdatedAt data)
                     (mkNullTime archivedAt true))
      | None => Returns data
      end
  end.

Definition InsertMut (product : Product.t) : outcome (option Mutation) :=
  match productToData product with
  | Panics => Panics
  | Returns data => Returns (modelInsertMut data)
  end.

(** [dataToDomain] never returns an error; an invalid stored discount
    is dropped. *)
Definition dataToDomain (data : ProductData) : outcome Product.t :=
  match Money.NewMoney (dataBasePriceNumerator data)
          (dataBasePriceDenominator data) with
  | Panics => Panics
  | Returns basePrice =>
      let discount : outcome (option Discount.t) :=
        if NumericValid (dataDiscountPercent data)
           && TimeValid (dataDiscountStartDate data)
           && TimeValid (dataDiscountEndDate data)
        then
          let pct := Float64 (Numeric (dataDiscountPercent data)) in
          match Rat.NewRat (truncate pct) 1 with
          | Panics => Panics
          | Returns r =>
              match Discount.NewDiscount (Some r)
                      (TimeOf (dataDiscountStartDate data))
                      (TimeOf (dataDiscountEndDate data)) with
              | Ok d => Returns (Some d)
              | Err _ => Returns None
              end
          end
        else Returns None in
      match discount with
      | Panics => Panics
      | Returns discount =>
          let archivedAt :=
            if TimeValid (dataArchivedAt data)
            then Some (TimeOf (dataArchivedAt data))
            else None in
          Returns (Product.ReconstructProduct (dataProductID data) (dataName data)
                     (dataDescription data) (dataCategory data) basePrice discount
                     (dataStatus data) (dataCreatedAt data) (dataUpdatedAt data)
                     archivedAt)
      end
  end.

End WithFloat64.

End Repository.

(** ** Package [usecase]: the use cases

    A use case loads the aggregate, calls one method of it, collects
    the mutation of the product row and one outbox mutation for each
    pending event in a plan, and applies the plan in one transaction. *)

Module ProductUseCases.

Module UpdateProductRequest.
Record t : Type := mk {
  ProductID : string;
  Name : string;
  Description : string;
  Category : string
}.
End UpdateProductRequest.

Module ActivateProductRequest.
Record t : Type := mk { ProductID : string }.
End ActivateProductRequest.

Module DeactivateProductRequest.
Record t : Type := mk { ProductID : string }.
End DeactivateProductRequest.

Module ArchiveProductRequest.
Record t : Type := mk { ProductID : string }.
End ArchiveProductRequest.

Module ApplyDiscountRequest.
Record t (float64 : Type) : Type := mk {
  ProductID : string;
  DiscountPercentage : float64;
  StartDate : Time.t;
  EndDate : Time.t
}.
Arguments mk {float64} ProductID DiscountPercentage StartDate EndDate.
Arguments ProductID {float64} t.
Arguments DiscountPercentage {float64} t.
Arguments StartDate {float64} t.
Arguments EndDate {float64} t.
End ApplyDiscountRequest.

Module RemoveDiscountRequest.
Record t : Type := mk { ProductID : string }.
End RemoveDiscountRequest.

(** What [FindByID] returns: a product with a nil error, or an error. *)
Inductive loaded : Type :=
| Loaded (product : Product.t)
| NotLoaded (err : GoError).

(** What [CreateProduct] returns: the response with a nil error, or an
    error. *)
Inductive created : Type :=
| Created (ProductID : string)
| NotCreated (err : GoError).

(** The mutations handed to one read-write transaction. *)
Definition Transaction : Type := list (option Repository.Mutation).

Section WithPorts.

Variable TrimSpace : string → string.

(** Go's [float64] and the conversion [int64(x * 100)]. *)
Variable float64 : Type.
Variable hundredths : float64 → Z.

(** [contract.ProductRepository]. The three builders of mutations are
    taken with the panics an implementation may raise. *)
Variable FindByID : string → loaded.
Variable InsertMut : Product.t → outcome (option Repository.Mutation).
Variable UpdateMut : Product.t → outcome (option Repository.Mutation).
Variable ArchiveMut : Product.t → outcome (option Repository.Mutation).

(** [contract.OutboxRepository]. An implementation draws a fresh id
    and reads the clock at each call, so the mutation depends on which
    call of the use case it is: the first argument counts them. *)
Variable InsertDomainEventMut : nat → DomainEvent → option Repository.Mutation.

(** [uc.clock.Now()] and [uuid.New().String()], each read once by a
    use case. *)
Variable Now : Time.t.
Variable NewUUID : string.

(** [client.ReadWriteTransaction] buffering the given mutations: the
    error of the transaction, nil when it committed. *)
Variable ReadWriteTransaction : Transaction → option GoError.

(** [Committer.Apply], with the transactions it ran. *)
Definition Apply (plan : option (Plan.t Repository.Mutation))
  : list Transaction * option GoError :=
  match plan with
  | None => ([], None)
  | Some plan' =>
      if Plan.IsEmpty plan' then ([], None)
      else ([Plan.Mutations plan'], ReadWriteTransaction (Plan.Mutations plan'))
  end.

(** [for _, event := range product.DomainEvents() { ... plan.Add(mut) }],
    the [calls] made to the outbox repository so far being counted. *)
Fixpoint addEvents (calls : nat) (events : list DomainEvent)
    (plan : Plan.t Repository.Mutation) : Plan.t Repository.Mutation :=
  match events with
  | [] => plan
  | event :: rest =>
      let mut := InsertDomainEventMut calls event in
      addEvents (S calls) rest
        (if negb (isNil mut) then Plan.Add mut plan else plan)
  end.

(** The block the six use cases on a loaded product share, from
    [plan := committer.NewPlan()] on; [mut] is what the repository
    returned for the product. *)
Definition commit (mut : outcome (option Repository.Mutation))
    (product : Product.t) : outcome (list Transaction * option GoError) :=
  let plan : Plan.t Repository.Mutation := Plan.NewPlan in
  match mut with
  | Panics => Panics
  | Returns mut =>
      let plan := if negb (isNil mut) then Plan.Add mut plan else plan in
      let plan := addEvents 0 (Product.events product) plan in
      if negb (Plan.IsEmpty plan) then Returns (Apply (Some plan))
      else Returns ([], None)
  end.

Definition CreateProduct (req : UseCase.CreateProductRequest)
  : outcome (list Transaction * created) :=
  let productID := NewUUID in
  match Money.NewMoney (UseCase.BasePriceNumerator req)
          (UseCase.BasePriceDenominator req) with
  | Panics => Panics
  | Returns basePrice =>
      let now := Now in
      match Product.NewProduct TrimSpace productID (UseCase.Name req)
              (UseCase.Description req) (UseCase.Category req) basePrice now with
      | Err err => Returns ([], NotCreated (Sentinel err))
      | Ok product =>
          let plan : Plan.t Repository.Mutation := Plan.NewPlan in
          match InsertMut product with
          | Panics => Panics
          | Returns mut =>
              let plan := if negb (isNil mut) then Plan.Add mut plan else plan in
              let plan := addEvents 0 (Product.events product) plan in
              match Apply (Some plan) with
              | (txns, Some err) => Returns (txns, NotCreated err)
              | (txns, None) => Returns (txns, Created productID)
              end
          end
      end
  end.

Definition UpdateProduct (req : UpdateProductRequest.t)
  : outcome (list Transaction * option GoError) :=
  match FindByID (UpdateProductRequest.ProductID req) with
  | NotLoaded err => Returns ([], Some err)
  | Loaded product =>
      let now := Now in
      match Product.Update TrimSpace (UpdateProductRequest.Name req)
              (UpdateProductRequest.Description req)
              (UpdateProductRequest.Category req) now product with
      | (_, Err err) => Returns ([], Some (Sentinel err))
      | (product, Ok _) => commit (UpdateMut product) product
      end
  end.

Definition ActivateProduct (req : ActivateProductRequest.t)
  : outcome (list Transaction * option GoError) :=
  match FindByID (ActivateProductRequest.ProductID req) with
  | NotLoaded err => Returns ([], Some err)
  | Loaded product =>
      let now := Now in
      match Product.Activate now product with
      | (_, Err err) => Returns ([], Some (Sentinel err))
      | (product, Ok _) => commit (UpdateMut product) product
      end
  end.

Definition DeactivateProduct (req : DeactivateProductRequest.t)
  : outcome (list Transaction * option GoError) :=
  match FindByID (DeactivateProductRequest.ProductID req) with
  | NotLoaded err => Returns ([], Some err)
  | Loaded product =>
      let now := Now in
      match Product.Deactivate now product with
      | (_, Err err) => Returns ([], Some (Sentinel err))
      | (product, Ok _) => commit (UpdateMut product) product
      end
  end.

Definition ArchiveProduct (req : ArchiveProductRequest.t)
  : outcome (list Transaction * option GoError) :=
  match FindByID (ArchiveProductRequest.ProductID req) with
  | NotLoaded err => Returns ([], Some err)
  | Loaded product =>
      let now := Now in
      match Product.Archive now product with
      | (_, Err err) => Returns ([], Some (Sentinel err))
      | (product, Ok _) => commit (ArchiveMut product) product
      end
  end.

Definition ApplyDiscount (req : ApplyDiscountRequest.t float64)
  : outcome (list Transaction * option GoError) :=
  match FindByID (ApplyDiscountRequest.ProductID req) with
  | NotLoaded err => Returns ([], Some err)
  | Loaded product =>
      match Rat.NewRat
              (hundredths (ApplyDiscountRequest.DiscountPercentage req)) 100 with
      | Panics => Panics
      | Returns percentage =>
          match Discount.NewDiscount (Some percentage)
                  (ApplyDiscountRequest.StartDate req)
                  (ApplyDiscountRequest.EndDate req) with
          | Err err => Returns ([], Some (Sentinel err))
          | Ok discount =>
              let now := Now in
              match Product.ApplyDiscount (Some discount) now product with
              | (_, Err err) => Returns ([], Some (Sentinel err))
              | (product, Ok _) => commit (UpdateMut product) product
              end
          end
      end
  end.

Definition RemoveDiscount (req : RemoveDiscountRequest.t)
  : outcome (list Transaction * option GoError) :=
  match FindByID (RemoveDiscountRequest.ProductID req) with
  | NotLoaded err => Returns ([], Some err)
  | Loaded product =>
      let now := Now in
      match Product.RemoveDiscount now product with
      | (_, Err err) => Returns ([], Some (Sentinel err))
      | (product, Ok _) => commit (UpdateMut product) product
      end
  end.

(** *** The six use cases on a loaded product, as one family *)

Inductive request : Type :=
| ReqUpdate (req : UpdateProductRequest.t)
| ReqActivate (req : ActivateProductRequest.t)
| ReqDeactivate (req : DeactivateProductRequest.t)
| ReqArchive (req : ArchiveProductRequest.t)
| ReqApplyDiscount (req : ApplyDiscountRequest.t float64)
| ReqRemoveDiscount (req : RemoveDiscountRequest.t).

Definition handle (r : request) : outcome (list Transaction * option GoError) :=
  match r with
  | ReqUpdate req => UpdateProduct req
  | ReqActivate req => ActivateProduct req
  | ReqDeactivate req => DeactivateProduct req
  | ReqArchive req => ArchiveProduct req
  | ReqApplyDiscount req => ApplyDiscount req
  | ReqRemoveDiscount req => RemoveDiscount req
  end.

Definition productIDOf (r : request) : string :=
  match r with
  | ReqUpdate req => UpdateProductRequest.ProductID req
  | ReqActivate req => ActivateProductRequest.ProductID req
  | ReqDeactivate req => DeactivateProductRequest.ProductID req
  | ReqArchive req => ArchiveProductRequest.ProductID req
  | ReqApplyDiscount req => ApplyDiscountRequest.ProductID req
  | ReqRemoveDiscount req => RemoveDiscountRequest.ProductID req
  end.

(** The call on the aggregate a request stands for at the instant
    [Now]; for a discount, an error when [NewDiscount] refuses the
    request. *)
Definition callOf (r : request) : outcome (result Product.call) :=
  match r with
  | ReqUpdate req =>
      Returns (Ok (Product.CallUpdate (UpdateProductRequest.Name req)
                     (UpdateProductRequest.Description req)
                     (UpdateProductRequest.Category req) Now))
  | ReqActivate _ => Returns (Ok (Product.CallActivate Now))
  | ReqDeactivate _ => Returns (Ok (Product.CallDeactivate Now))
  | ReqArchive _ => Returns (Ok (Product.CallArchive Now))
  | ReqApplyDiscount req =>
      match Rat.NewRat
              (hundredths (ApplyDiscountRequest.DiscountPercentage req)) 100 with
      | Panics => Panics
      | Returns percentage =>
          match Discount.NewDiscount (Some percentage)
                  (ApplyDiscountRequest.StartDate req)
                  (ApplyDiscountRequest.EndDate req) with
          | Err err => Returns (Err err)
          | Ok discount => Returns (Ok (Product.CallApplyDiscount (Some discount) Now))
          end
      end
  | ReqRemoveDiscount _ => Returns (Ok (Product.CallRemoveDiscount Now))
  end.

(** The builder of the product's mutation a request uses. *)
Definition mutationOf (r : request)
  : Product.t → outcome (option Repository.Mutation) :=
  match r with
  | ReqArchive _ => ArchiveMut
  | _ => UpdateMut
  end.

End WithPorts.

End ProductUseCases.

(** ** Sample values, for running the definitions *)

(** The value [NewMoney(1999, 100)] returns. *)
Definition price1999 : option Money.t :=
  Some (Money.mk (Some (Qmake 1999 100))).

(** Twenty percent, valid from instant 0 up to instant 10. *)
Definition twentyPercent : option Discount.t :=
  Some (Discount.mk (Some (Qmake 20 1)) 0 10).

(** A stand-in for float64 that keeps every rational exactly, to run
    the repository: [Float64] is then the identity, and a conversion to
    int64 truncates toward zero, as Go's does. *)
Definition exactFloat64 (x : Rat.t) : Q := x.

Definition exactTruncate (f : Q) : Z := Z.quot (Qnum f) (Z.pos (Qden f)).

Definition exactHundredths (f : Q) : Z := exactTruncate (Qmult f (Qmake 100 1)).

(** Products as a repository would hand them over. *)
Definition draftWidget : Product.t :=
  Product.ReconstructProduct "prod-123" "Widget" "" "X" price1999 None
    ProductStatusDraft 0 0 None.

Definition archivedWidget : Product.t :=
  Product.ReconstructProduct "prod-123" "Widget" "" "X" price1999 None
    ProductStatusArchived 0 5 (Some 5).


(** Ports to run the use cases: the row of [draftWidget] and a store
    that returns it for every id, an outbox that writes one row for an
    event, and a database that commits every transaction. *)
Definition widgetRow : Repository.ProductData :=
  Repository.mkProductData "prod-123" "Widget" "" "X" 1999 100
    Repository.noNumeric Repository.noTime Repository.noTime
    ProductStatusDraft 0 0 Repository.noTime.

Definition findWidget (id : string) : ProductUseCases.loaded :=
  ProductUseCases.Loaded draftWidget.

Definition outboxRow (calls : nat) (event : DomainEvent)
  : option Repository.Mutation :=
  Some (Repository.mkMutation Repository.OpInsert "outbox_events"
          (<["aggregate_id" := Repository.VString (AggregateID event)]>
             (<["event_type" := Repository.VString (EventType event)]> ∅))).

Definition alwaysCommits (txn : ProductUseCases.Transaction) : option GoError :=
  None.

(** * Properties *)

(** ** Money *)

Section MoneyProperties.

Lemma NewRat_value (a b : Z) :
  b ≠ 0 → ∃ r, Rat.NewRat a b = Returns r ∧ (Qnum r * b = a * Z.pos (Qden r))%Z.
Proof.
  intros Hb. unfold Rat.NewRat.
  destruct (Z.eqb_spec b 0) as [|_]; [contradiction|].
  destruct (Z.ltb_spec b 0) as [Hlt|Hge].
  - eexists; split; [reflexivity|].
    pose proof (Qred_correct (Qmake (- a) (Z.to_pos (- b)))) as H.
    unfold Qeq in H. simpl in H. rewrite Z2Pos.id in H by lia. lia.
  - eexists; split; [reflexivity|].
    pose proof (Qred_correct (Qmake a (Z.to_pos b))) as H.
    unfold Qeq in H. simpl in H. rewrite Z2Pos.id in H by lia. lia.
Qed.

Lemma Equals_of_Qeq (r r' : Rat.t) :
  Qeq r r' →
  Money.Equals (Some (Money.mk (Some r))) (Some (Money.mk (Some r'))) = true.
Proof.
  intros H. unfold Money.Equals, Money.Amount, Rat.Set_, Rat.Cmp. simpl.
  apply Qeq_alt in H. rewrite H. reflexivity.
Qed.

(** C7. Scaling numerator and denominator by one nonzero factor gives
    an equal Money: for int64 values n, d, k*n, k*d with d and k not
    zero, NewMoney(n, d) and NewMoney(k*n, k*d) both return, and the
    two values are Equals. *)
Theorem NewMoney_scale_Equals (n d k : Z) :
  int64_range n → int64_range d →
  int64_range (k * n) → int64_range (k * d) →
  d ≠ 0 → k ≠ 0 →
  ∃ m m',
    Money.NewMoney n d = Returns m
    ∧ Money.NewMoney (k * n) (k * d) = Returns m'
    ∧ Money.Equals m m' = true.
Proof.
  intros _ _ _ _ Hd Hk.
  assert (Hkd : k * d ≠ 0) by lia.
  destruct (NewRat_value n d Hd) as (r & Hr & Er).
  destruct (NewRat_value (k * n) (k * d) Hkd) as (r' & Hr' & Er').
  unfold Money.NewMoney.
  destruct (Z.eqb_spec d 0) as [|_]; [contradiction|].
  destruct (Z.eqb_spec (k * d) 0) as [|_]; [contradiction|].
  rewrite Hr, Hr'.
  eexists; eexists; split; [reflexivity|]; split; [reflexivity|].
  apply Equals_of_Qeq. unfold Qeq.
  assert (E2 : Qnum r' * d = n * Z.pos (Qden r')).
  { apply Z.mul_reg_l with k; [assumption|]. lia. }
  apply Z.mul_reg_r with d; [assumption|].
  transitivity (Qnum r * d * Z.pos (Qden r')); [ring|].
  rewrite Er. transitivity (Qnum r' * d * Z.pos (Qden r)); [|ring].
  rewrite E2. ring.
Qed.

(** C8. A zero denominator does not make NewMoney fail: for every
    int64 numerator n, NewMoney(n, 0) returns, and it returns the very
    value NewMoney(n, 1) returns, which Equals it. *)
Theorem NewMoney_zero_denominator (n : Z) :
  int64_range n →
  ∃ m,
    Money.NewMoney n 0 = Returns m
    ∧ Money.NewMoney n 1 = Returns m
    ∧ Money.Equals m m = true
    ∧ Qeq (Money.Amount m) (Qmake n 1).
Proof.
  intros _.
  exists (Some (Money.mk (Some (Qred (Qmake n 1))))).
  split; [reflexivity|]. split; [reflexivity|]. split.
  - apply Equals_of_Qeq. reflexivity.
  - apply Qred_correct.
Qed.

End MoneyProperties.

Lemma NewMoney_scale_Equals_witness :
  ∃ m m',
    Money.NewMoney 1999 100 = Returns m
    ∧ Money.NewMoney (-3 * 1999) (-3 * 100) = Returns m'
    ∧ Money.Equals m m' = true.
Proof.
  apply (NewMoney_scale_Equals 1999 100 (-3));
    unfold int64_range; lia.
Defined.

Lemma NewMoney_zero_denominator_witness :
  ∃ m,
    Money.NewMoney 100 0 = Returns m
    ∧ Money.NewMoney 100 1 = Returns m
    ∧ Money.Equals m m = true
    ∧ Qeq (Money.Amount m) (Qmake 100 1).
Proof.
  apply (NewMoney_zero_denominator 100). unfold int64_range. lia.
Defined.

(** ** Discount *)

Section DiscountProperties.

(** What a successful construction fixes. *)
Lemma NewDiscount_Ok (pct : option Rat.t) (s e : Time.t) (d : Discount.t) :
  Discount.NewDiscount pct s e = Ok d →
  Discount.startDate d = s ∧ Discount.endDate d = e ∧ s < e
  ∧ Discount.percentage d = pct.
Proof.
  unfold Discount.NewDiscount, Time.After.
  destruct pct as [q|]; [|discriminate].
  destruct (Rat.Cmp q Rat.zero <=? 0); [discriminate|].
  destruct (Rat.Cmp q Rat.hundred >? 0); [discriminate|].
  destruct (Z.ltb_spec s e) as [Hlt|Hge]; simpl; [|discriminate].
  intros [= <-]. simpl. auto.
Qed.

Lemma IsValidAt_spec (d : Discount.t) (x : Time.t) :
  Discount.IsValidAt (Some d) x = true
  ↔ Discount.startDate d <= x < Discount.endDate d.
Proof.
  unfold Discount.IsValidAt, Time.Before.
  rewrite andb_true_iff, negb_true_iff, Z.ltb_ge, Z.ltb_lt. reflexivity.
Qed.

(** C6. For a Discount that NewDiscount built over the period from
    start to end, IsValidAt(t) holds exactly when start <= t < end; so
    it is true at start and strictly inside, false at end, and false
    before start and after end. *)
Theorem IsValidAt_half_open (pct : option Rat.t) (s e : Time.t) (d : Discount.t) :
  Discount.NewDiscount pct s e = Ok d →
  (∀ x, Discount.IsValidAt (Some d) x = true ↔ s <= x < e)
  ∧ Discount.IsValidAt (Some d) s = true
  ∧ (∀ x, s < x < e → Discount.IsValidAt (Some d) x = true)
  ∧ Discount.IsValidAt (Some d) e = false
  ∧ (∀ x, x < s → Discount.IsValidAt (Some d) x = false)
  ∧ (∀ x, e < x → Discount.IsValidAt (Some d) x = false).
Proof.
  intros H. destruct (NewDiscount_Ok _ _ _ _ H) as (Hs & He & Hlt & _).
  assert (Hiff : ∀ x, Discount.IsValidAt (Some d) x = true ↔ s <= x < e).
  { intros x. rewrite IsValidAt_spec, Hs, He. reflexivity. }
  assert (Hno : ∀ x, ¬ (s <= x < e) → Discount.IsValidAt (Some d) x = false).
  { intros x Hx. apply not_true_is_false. rewrite Hiff. exact Hx. }
  split; [exact Hiff|].
  split; [apply Hiff; lia|].
  split; [intros x Hx; apply Hiff; lia|].
  split; [apply Hno; lia|].
  split; intros x Hx; apply Hno; lia.
Qed.

End DiscountProperties.

Lemma IsValidAt_half_open_witness :
  let d := Discount.mk (Some (Qmake 15 1)) 10 20 in
  (∀ x, Discount.IsValidAt (Some d) x = true ↔ 10 <= x < 20)
  ∧ Discount.IsValidAt (Some d) 10 = true
  ∧ (∀ x, 10 < x < 20 → Discount.IsValidAt (Some d) x = true)
  ∧ Discount.IsValidAt (Some d) 20 = false
  ∧ (∀ x, x < 10 → Discount.IsValidAt (Some d) x = false)
  ∧ (∀ x, 20 < x → Discount.IsValidAt (Some d) x = false).
Proof.
  apply (IsValidAt_half_open (Some (Qmake 15 1)) 10 20). reflexivity.
Defined.

(** ** The write plan *)

Section PlanProperties.

Context {Mutation : Type}.

Implicit Types (p : Plan.t Mutation) (ops : list (Plan.op Mutation)).

Lemma Add_mutations (mut : option Mutation) p :
  Plan.mutations _ (Plan.Add mut p) = Plan.mutations _ p ++ Plan.nonNil [mut].
Proof.
  unfold Plan.Add, Plan.nonNil. destruct mut; simpl.
  - reflexivity.
  - rewrite app_nil_r. reflexivity.
Qed.

Lemma AddAll_mutations (muts : list (option Mutation)) p :
  Plan.mutations _ (Plan.AddAll muts p) = Plan.mutations _ p ++ Plan.nonNil muts.
Proof.
  unfold Plan.AddAll. revert p.
  induction muts as [|mut muts IH]; intros p; simpl.
  - rewrite app_nil_r. reflexivity.
  - rewrite IH, Add_mutations. unfold Plan.nonNil. simpl.
    destruct mut; simpl.
    + rewrite <- app_assoc. reflexivity.
    + rewrite app_nil_r. reflexivity.
Qed.

Lemma apply_mutations (o : Plan.op Mutation) p :
  Plan.mutations _ (Plan.apply o p)
  = (if Plan.isClear o then [] else Plan.mutations _ p) ++ Plan.handed o.
Proof.
  destruct o; simpl.
  - apply Add_mutations.
  - apply AddAll_mutations.
  - reflexivity.
Qed.

Lemma sinceLastClear_no_clear ops :
  existsb Plan.isClear ops = false → Plan.sinceLastClear ops = ops.
Proof.
  destruct ops as [|o rest]; simpl; [reflexivity|].
  destruct (Plan.isClear o); simpl; [discriminate|].
  intros ->. reflexivity.
Qed.

(** The mutations a plan holds after a run of calls. *)
Lemma run_mutations ops p :
  Plan.mutations _ (Plan.run ops p)
  = (if existsb Plan.isClear ops then [] else Plan.mutations _ p)
      ++ Plan.addedSinceClear ops.
Proof.
  unfold Plan.run, Plan.addedSinceClear. revert p.
  induction ops as [|o rest IH]; intros p; simpl.
  - rewrite app_nil_r. reflexivity.
  - rewrite IH, apply_mutations.
    destruct (existsb Plan.isClear rest) eqn:Hrest.
    + rewrite orb_true_r. reflexivity.
    + rewrite orb_false_r, (sinceLastClear_no_clear rest Hrest).
      destruct (Plan.isClear o) eqn:Ho; simpl.
      * destruct o; try discriminate. reflexivity.
      * rewrite <- app_assoc. reflexivity.
Qed.

(** C9. Add(nil) leaves the plan as it is; after any sequence of Add,
    AddAll and Clear calls on a new plan, the plan holds, in order,
    the non-nil mutations handed to it since the last Clear (or since
    construction), so Count() is their number; and after Clear() the
    plan IsEmpty(), whatever it held. *)
Theorem Plan_Add_nil_Count_Clear :
  (∀ p, Plan.Add None p = p)
  ∧ (∀ ops,
       Plan.Mutations (Plan.run ops Plan.NewPlan) = Plan.addedSinceClear ops
       ∧ Plan.Count (Plan.run ops Plan.NewPlan)
         = length (Plan.addedSinceClear ops))
  ∧ (∀ p, Plan.IsEmpty (Plan.Clear p) = true ∧ Plan.Count (Plan.Clear p) = 0%nat)
  ∧ (∀ ops p, Plan.IsEmpty (Plan.run (ops ++ [Plan.OpClear]) p) = true).
Proof.
  split; [reflexivity|].
  split.
  { intros ops.
    assert (H : Plan.Mutations (Plan.run ops Plan.NewPlan)
                = Plan.addedSinceClear ops).
    { unfold Plan.Mutations. rewrite run_mutations. simpl.
      destruct (existsb Plan.isClear ops); reflexivity. }
    split; [exact H|]. unfold Plan.Count. unfold Plan.Mutations in H.
    rewrite H. reflexivity. }
  split; [intros p; split; reflexivity|].
  intros ops p. unfold Plan.run. rewrite fold_left_app. reflexivity.
Qed.

End PlanProperties.

(** ** The Product aggregate *)

(** Expose the monadic plumbing of a method body. *)
Ltac unfold_method :=
  unfold Product.exec, Product.Update, Product.Activate, Product.Deactivate,
    Product.Archive, Product.ApplyDiscount, Product.RemoveDiscount,
    Product.ClearEvents, Product.guard, Product.raise, Product.modify,
    Product.markDirty, Product.appendEvent, Product.get,
    Product.after, Product.returned, mbind, mret,
    Product.M_bind, Product.M_ret in *.

Section MethodLaws.

Context {A : Type}.

Lemma guard_fires (cond : Product.t → bool) (e : Error) (k : Product.M A) p :
  cond p = true → (Product.guard cond e;; k) p = (p, Err e).
Proof. intros H. unfold_method. rewrite H. reflexivity. Qed.

Lemma guard_passes (cond : Product.t → bool) (e : Error) (k : Product.M A) p :
  cond p = false → (Product.guard cond e;; k) p = k p.
Proof. intros H. unfold_method. rewrite H. reflexivity. Qed.

Lemma guard_error_safe (cond : Product.t → bool) (e : Error) (k : Product.M A) :
  Product.error_safe k → Product.error_safe (Product.guard cond e;; k).
Proof.
  intros Hk p e'. unfold Product.returned, Product.after.
  destruct (cond p) eqn:Hc.
  - rewrite guard_fires by exact Hc. reflexivity.
  - rewrite guard_passes by exact Hc. apply Hk.
Qed.

Lemma never_fails_error_safe (m : Product.M A) :
  Product.never_fails m → Product.error_safe m.
Proof. intros Hm p e He. destruct (Hm p) as [a Ha]. congruence. Qed.

End MethodLaws.



Section ProductProperties.

Variable TrimSpace : string → string.

Implicit Types (p : Product.t) (c : Product.call) (now : Time.t).

Lemma Activate_error_safe now : Product.error_safe (Product.Activate now).
Proof.
  unfold Product.Activate. repeat apply guard_error_safe.
  apply never_fails_error_safe. intros p. eexists. reflexivity.
Qed.

Lemma Deactivate_error_safe now : Product.error_safe (Product.Deactivate now).
Proof.
  unfold Product.Deactivate. repeat apply guard_error_safe.
  apply never_fails_error_safe. intros p. eexists. reflexivity.
Qed.

Lemma Archive_error_safe now : Product.error_safe (Product.Archive now).
Proof.
  unfold Product.Archive. repeat apply guard_error_safe.
  apply never_fails_error_safe. intros p. eexists. reflexivity.
Qed.

Lemma ApplyDiscount_error_safe d now : Product.error_safe (Product.ApplyDiscount d now).
Proof.
  unfold Product.ApplyDiscount. repeat apply guard_error_safe.
  apply never_fails_error_safe. intros p. eexists. reflexivity.
Qed.

Lemma RemoveDiscount_error_safe now : Product.error_safe (Product.RemoveDiscount now).
Proof.
  unfold Product.RemoveDiscount. repeat apply guard_error_safe.
  apply never_fails_error_safe. intros p. eexists. reflexivity.
Qed.

Lemma Update_error_safe n d cat now :
  Product.error_safe (Product.Update TrimSpace n d cat now).
Proof.
  unfold Product.Update. repeat apply guard_error_safe.
  apply never_fails_error_safe. intros p. exists tt.
  unfold_method. simpl.
  destruct (negb (Product.name p =? TrimSpace n)%string); simpl;
    destruct (negb (Product.description p =? TrimSpace d)%string); simpl;
    destruct (negb (Product.category p =? TrimSpace cat)%string); reflexivity.
Qed.

(** C1. A mutating method that returns an error leaves the aggregate
    exactly as it was: the aggregate after the call is the aggregate
    before it, so name, description, category, basePrice, discount,
    status, updatedAt and archivedAt keep their values, the change
    tracker marks no further field, and the event queue is the same. *)
Theorem error_leaves_product_unmodified c p e :
  Product.returned (Product.exec TrimSpace c) p = Err e →
  Product.after (Product.exec TrimSpace c) p = p.
Proof.
  destruct c; simpl.
  - apply Update_error_safe.
  - apply Activate_error_safe.
  - apply Deactivate_error_safe.
  - apply Archive_error_safe.
  - apply ApplyDiscount_error_safe.
  - apply RemoveDiscount_error_safe.
Qed.

(** On an archived product the first guard of every method fires. *)
Lemma archived_call_fails c p :
  Product.status p = ProductStatusArchived →
  ∃ e, Product.exec TrimSpace c p = (p, Err e).
Proof.
  intros H. destruct c; simpl; eexists.
  - unfold Product.Update. apply guard_fires. rewrite H. reflexivity.
  - unfold Product.Activate. apply guard_fires. rewrite H. reflexivity.
  - unfold Product.Deactivate. apply guard_fires. rewrite H. reflexivity.
  - unfold Product.Archive. apply guard_fires. rewrite H. reflexivity.
  - unfold Product.ApplyDiscount. apply guard_fires. rewrite H. reflexivity.
  - unfold Product.RemoveDiscount. apply guard_fires. rewrite H. reflexivity.
Qed.

(** C2. Archived is absorbing: from an archived product, after any
    sequence of calls of the six mutating methods the status is still
    Archived, and every call of the sequence returned an error. *)
Theorem archived_is_absorbing (cs : list Product.call) p :
  Product.status p = ProductStatusArchived →
  Product.status (Product.run TrimSpace cs p) = ProductStatusArchived
  ∧ Forall (λ r, ∃ e, r = Err e) (Product.results TrimSpace cs p).
Proof.
  revert p. induction cs as [|c cs IH]; intros p H.
  - split; [exact H|constructor].
  - destruct (archived_call_fails c p H) as [e He].
    assert (Ha : Product.after (Product.exec TrimSpace c) p = p)
      by (unfold Product.after; rewrite He; reflexivity).
    assert (Hr : Product.returned (Product.exec TrimSpace c) p = Err e)
      by (unfold Product.returned; rewrite He; reflexivity).
    unfold Product.run in *. simpl. rewrite Ha, Hr.
    destruct (IH p H) as [IH1 IH2]. split; [exact IH1|].
    constructor; [exists e; reflexivity|exact IH2].
Qed.

(** C3, as the code has it. On an archived product ApplyDiscount
    returns ErrProductNotActive, where the specification names
    ErrProductArchived: the test for Active comes first, and an
    archived product is not active. *)
Theorem ApplyDiscount_archived_returns_NotActive d now p :
  Product.status p = ProductStatusArchived →
  Product.ApplyDiscount d now p = (p, Err ErrProductNotActive).
Proof.
  intros H. unfold Product.ApplyDiscount. apply guard_fires.
  rewrite H. reflexivity.
Qed.

(** No input makes ApplyDiscount return ErrProductArchived: its second
    guard is never reached with an archived product. *)
Lemma ApplyDiscount_never_returns_Archived d now p :
  Product.returned (Product.ApplyDiscount d now) p ≠ Err ErrProductArchived.
Proof.
  unfold Product.ApplyDiscount, Product.returned.
  destruct (negb (Product.status p =? ProductStatusActive)%string) eqn:H1.
  { rewrite guard_fires by exact H1. discriminate. }
  rewrite guard_passes by exact H1.
  destruct (Product.status p =? ProductStatusArchived)%string eqn:H2.
  { apply String.eqb_eq in H2. rewrite H2 in H1. discriminate. }
  rewrite guard_passes by exact H2.
  destruct (isNil d) eqn:H3.
  { rewrite guard_fires by reflexivity. discriminate. }
  rewrite guard_passes by reflexivity.
  destruct (Discount.IsExpired d now) eqn:H4.
  { rewrite guard_fires by reflexivity. discriminate. }
  rewrite guard_passes by reflexivity. discriminate.
Qed.

(** One case split on the next guard or comparison of a method body. *)
Ltac method_case :=
  match goal with
  | |- context [if ?b then _ else _] => destruct b eqn:?; simpl
  end.

Lemma NewProduct_Ok id' name' description' category' basePrice' now p :
  Product.NewProduct TrimSpace id' name' description' category' basePrice' now
  = Ok p →
  p = Product.mk id' (TrimSpace name') (TrimSpace description')
        (TrimSpace category') basePrice' None ProductStatusDraft now now None
        (ChangeTracker.MarkAllDirty ChangeTracker.NewChangeTracker
           [FieldName; FieldDescription; FieldCategory; FieldBasePrice;
            FieldStatus])
        [NewProductCreatedEvent id' (TrimSpace name') (TrimSpace description')
           (TrimSpace category') basePrice' now].
Proof.
  unfold Product.NewProduct.
  repeat (method_case; try discriminate).
  intros [= <-]. reflexivity.
Qed.

(** Where [archivedAt] stands after a call: only a successful Archive
    writes it. *)
Lemma archivedAt_after_call c p :
  Product.archivedAt (Product.after (Product.exec TrimSpace c) p)
  = match c with
    | Product.CallArchive now =>
        if (Product.status p =? ProductStatusArchived)%string
        then Product.archivedAt p
        else Some now
    | _ => Product.archivedAt p
    end.
Proof.
  destruct c; unfold_method; simpl; repeat method_case; reflexivity.
Qed.

(** Where [status] stands after a call. *)
Lemma status_after_call c p :
  Product.status (Product.after (Product.exec TrimSpace c) p)
  = ProductStatusArchived
  ↔ Product.status p = ProductStatusArchived ∨ ∃ now, c = Product.CallArchive now.
Proof.
  destruct (String.eqb_spec (Product.status p) ProductStatusArchived) as [Ha|Hn].
  { destruct (archived_call_fails c p Ha) as [e He].
    unfold Product.after. rewrite He. simpl. tauto. }
  assert (Hb := proj2 (String.eqb_neq _ _) Hn).
  destruct c; unfold_method; simpl; rewrite ?Hb; simpl;
    repeat method_case;
    (split; [intros H; try contradiction; try discriminate; eauto
            | intros [H|[t H]]; try contradiction; try discriminate; eauto]).
Qed.

(** C10. For a product built by NewProduct and changed only through
    the aggregate's methods, archivedAt is non-nil exactly when the
    status is Archived. It is nil at construction; a call leaves it as
    it was unless the call is an Archive(now) on a product not yet
    archived, which sets it to now; so no call clears it. *)
Theorem archivedAt_iff_Archived :
  (∀ p, Product.reachable TrimSpace p →
     (Product.archivedAt p ≠ None ↔ Product.status p = ProductStatusArchived))
  ∧ (∀ id' name' description' category' basePrice' now p,
       Product.NewProduct TrimSpace id' name' description' category' basePrice' now
       = Ok p →
       Product.archivedAt p = None ∧ Product.status p = ProductStatusDraft)
  ∧ (∀ c p,
       Product.archivedAt (Product.after (Product.exec TrimSpace c) p)
       = match c with
         | Product.CallArchive now =>
             if (Product.status p =? ProductStatusArchived)%string
             then Product.archivedAt p
             else Some now
         | _ => Product.archivedAt p
         end)
  ∧ (∀ p, Product.archivedAt (Product.after Product.ClearEvents p)
          = Product.archivedAt p)
  ∧ (∀ c p, Product.archivedAt p ≠ None →
       Product.archivedAt (Product.after (Product.exec TrimSpace c) p) ≠ None).
Proof.
  assert (Hnew : ∀ id' name' description' category' basePrice' now p,
            Product.NewProduct TrimSpace id' name' description' category'
              basePrice' now = Ok p →
            Product.archivedAt p = None ∧ Product.status p = ProductStatusDraft).
  { intros * H. apply NewProduct_Ok in H. subst p. split; reflexivity. }
  split; [|split; [exact Hnew|split; [exact archivedAt_after_call|split]]].
  - intros p Hp. induction Hp as [id' n d cat bp now p H|c p Hp IH|p Hp IH].
    + destruct (Hnew _ _ _ _ _ _ _ H) as [Ha Hs]. rewrite Ha, Hs.
      split; [intros F; contradiction|discriminate].
    + rewrite archivedAt_after_call, status_after_call.
      destruct c;
        try (rewrite IH; split; [tauto|intros [?|[? ?]]; [assumption|discriminate]]).
      destruct (String.eqb_spec (Product.status p) ProductStatusArchived).
      * rewrite IH. split; eauto.
      * split; [eauto|discriminate].
    + exact IH.
  - reflexivity.
  - intros c p H. rewrite archivedAt_after_call.
    destruct c; try exact H.
    destruct (Product.status p =? ProductStatusArchived)%string;
      [exact H|discriminate].
Qed.

(** NewProduct succeeds exactly on the validated input. *)
Lemma NewProduct_succeeds id' name' description' category' basePrice' now :
  TrimSpace id' ≠ "" → TrimSpace name' ≠ "" → TrimSpace category' ≠ "" →
  Money.IsPositive basePrice' = true →
  ∃ p, Product.NewProduct TrimSpace id' name' description' category' basePrice' now
       = Ok p.
Proof.
  intros Hi Hn Hc Hp. unfold Product.NewProduct.
  rewrite (proj2 (String.eqb_neq _ _) Hi), (proj2 (String.eqb_neq _ _) Hn),
    (proj2 (String.eqb_neq _ _) Hc), Hp.
  destruct basePrice' as [m|]; [|discriminate]. simpl. eexists. reflexivity.
Qed.




End ProductProperties.

(** ** Money: arithmetic, order and sign *)

(** Reason about an amount as a rational number. *)
Ltac as_Q t :=
  let x := fresh "x" in set (x := (t : Q)) in *; clearbody x.

Section MoneyAlgebra.

Implicit Types (m other : option Money.t) (r : Rat.t).

Lemma Equals_Some_iff (a b : Money.t) :
  Money.Equals (Some a) (Some b) = true
  ↔ Qeq (Money.Amount (Some a)) (Money.Amount (Some b)).
Proof.
  unfold Money.Equals, Rat.Cmp. rewrite Qeq_alt.
  destruct (Qcompare _ _); simpl; split; congruence.
Qed.


Lemma Rat_Add_Qeq (x y : Rat.t) : Qeq (Rat.Add x y) (Qplus x y).
Proof. apply Qred_correct. Qed.

Lemma Rat_Sub_Qeq (x y : Rat.t) : Qeq (Rat.Sub x y) (Qminus x y).
Proof. apply Qred_correct. Qed.

Lemma Rat_Mul_Qeq (x y : Rat.t) : Qeq (Rat.Mul x y) (Qmult x y).
Proof. apply Qred_correct. Qed.

Lemma Quo_hundred (p : Rat.t) :
  Rat.Quo p Rat.hundred = Returns (Qred (Qdiv p Rat.hundred)).
Proof. reflexivity. Qed.

(** The sign of a rational survives its reduction to lowest terms. *)
Lemma Sign_Qred (q : Q) : Rat.Sign (Qred q) = Z.sgn (Qnum q).
Proof.
  unfold Rat.Sign. pose proof (Qred_correct q) as H. unfold Qeq in H.
  destruct (Z.sgn_spec (Qnum q)) as [[Hq ->]|[[Hq ->]|[Hq ->]]].
  - apply Z.sgn_pos_iff. nia.
  - rewrite <- Hq in H. simpl in H.
    assert (Qnum (Qred q) = 0) by nia. rewrite H0. reflexivity.
  - apply Z.sgn_neg_iff. nia.
Qed.

(** What [CalculatePercentage] and [ApplyDiscount] compute. *)
Lemma CalculatePercentage_value m (p : Rat.t) :
  ∃ c, Money.CalculatePercentage m (Some p) = Returns (Some c)
       ∧ Qeq (Money.Amount (Some c)) (Money.Amount m * (p / Rat.hundred)).
Proof.
  unfold Money.CalculatePercentage. rewrite Quo_hundred.
  unfold Money.Multiply, Money.NewMoneyFromRat. eexists. split; [reflexivity|].
  unfold Money.Amount at 1. simpl. unfold Rat.Set_.
  rewrite Rat_Mul_Qeq, Qred_correct. reflexivity.
Qed.

Lemma ApplyDiscount_value m (p : Rat.t) :
  ∃ d, Money.ApplyDiscount m (Some p) = Returns (Some d)
       ∧ Qeq (Money.Amount (Some d))
             (Money.Amount m - Money.Amount m * (p / Rat.hundred)).
Proof.
  destruct (CalculatePercentage_value m p) as (c & Hc & Ec).
  unfold Money.ApplyDiscount. rewrite Hc.
  unfold Money.Sub, Money.NewMoneyFromRat. eexists. split; [reflexivity|].
  unfold Money.Amount at 1. simpl. unfold Rat.Set_.
  rewrite Rat_Sub_Qeq, Ec. reflexivity.
Qed.


Lemma IsNegative_Some_iff (a : Money.t) :
  Money.IsNegative (Some a) = true ↔ (Money.Amount (Some a) < 0)%Q.
Proof.
  unfold Money.IsNegative, Money.Amount, Rat.Set_, Rat.Sign, Rat.zero, Qlt.
  destruct (Money.amount a) as [q|]; simpl.
  - rewrite Z.ltb_lt. pose proof (Z.sgn_spec (Qnum q)). lia.
  - split; [discriminate|lia].
Qed.

Lemma IsPositive_Some_iff (a : Money.t) :
  Money.IsPositive (Some a) = true ↔ (0 < Money.Amount (Some a))%Q.
Proof.
  unfold Money.IsPositive, Money.Amount, Rat.Set_, Rat.Sign, Rat.zero, Qlt.
  destruct (Money.amount a) as [q|]; simpl.
  - rewrite Z.gtb_ltb, Z.ltb_lt. pose proof (Z.sgn_spec (Qnum q)). lia.
  - split; [discriminate|lia].
Qed.

Lemma IsZero_Some_iff (a : Money.t) :
  Money.IsZero (Some a) = true ↔ Qeq (Money.Amount (Some a)) 0.
Proof.
  unfold Money.IsZero, Money.Amount, Rat.Set_, Rat.Sign, Rat.zero, Qeq.
  destruct (Money.amount a) as [q|]; simpl.
  - rewrite Z.eqb_eq. pose proof (Z.sgn_spec (Qnum q)). lia.
  - split; reflexivity.
Qed.

Lemma LessThan_Some_iff (a b : Money.t) :
  Money.LessThan (Some a) (Some b) = true
  ↔ (Money.Amount (Some a) < Money.Amount (Some b))%Q.
Proof.
  unfold Money.LessThan, Rat.Cmp. rewrite Qlt_alt.
  destruct (Qcompare _ _); cbv; split; congruence.
Qed.

Lemma GreaterThan_Some_iff (a b : Money.t) :
  Money.GreaterThan (Some a) (Some b) = true
  ↔ (Money.Amount (Some b) < Money.Amount (Some a))%Q.
Proof.
  unfold Money.GreaterThan, Rat.Cmp. rewrite Qgt_alt.
  destruct (Qcompare _ _); cbv; split; congruence.
Qed.

Lemma Add_value m other :
  ∃ x, Money.Add m other = Some x
       ∧ Qeq (Money.Amount (Some x)) (Money.Amount m + Money.Amount other).
Proof.
  unfold Money.Add, Money.NewMoneyFromRat. destruct other as [o|].
  - eexists. split; [reflexivity|]. unfold Money.Amount at 1. simpl.
    unfold Rat.Set_. apply Rat_Add_Qeq.
  - eexists. split; [reflexivity|]. unfold Money.Amount at 1. simpl.
    unfold Rat.Set_. symmetry. apply Qplus_0_r.
Qed.

Lemma Sub_value m other :
  ∃ x, Money.Sub m other = Some x
       ∧ Qeq (Money.Amount (Some x)) (Money.Amount m - Money.Amount other).
Proof.
  unfold Money.Sub, Money.NewMoneyFromRat. destruct other as [o|].
  - eexists. split; [reflexivity|]. unfold Money.Amount at 1. simpl.
    unfold Rat.Set_. apply Rat_Sub_Qeq.
  - eexists. split; [reflexivity|]. unfold Money.Amount at 1. simpl.
    unfold Rat.Set_. symmetry. apply (Qplus_0_r (Money.Amount m)).
Qed.

(** X1. A discounted price and the discount amount add up to the
    price: for a non-nil Money m and a percentage p, ApplyDiscount(p)
    and CalculatePercentage(p) both return, and their sum Equals m. *)
Theorem ApplyDiscount_plus_percentage (a : Money.t) (p : Rat.t) :
  ∃ d c,
    Money.ApplyDiscount (Some a) (Some p) = Returns (Some d)
    ∧ Money.CalculatePercentage (Some a) (Some p) = Returns (Some c)
    ∧ Money.Equals (Money.Add (Some d) (Some c)) (Some a) = true.
Proof.
  destruct (ApplyDiscount_value (Some a) p) as (d & Hd & Ed).
  destruct (CalculatePercentage_value (Some a) p) as (c & Hc & Ec).
  exists d, c. split; [exact Hd|]. split; [exact Hc|].
  destruct (Add_value (Some d) (Some c)) as (x & -> & Ex).
  apply Equals_Some_iff. rewrite Ex, Ed, Ec.
  as_Q (Money.Amount (Some a)). as_Q p. unfold Rat.hundred. field.
Qed.

(** A percentage in (0, 100] takes a positive price to a smaller one
    that is not negative. *)
Lemma ApplyDiscount_bounds (a : Money.t) (p : Rat.t) :
  (Rat.zero < p)%Q → (p <= Rat.hundred)%Q →
  Money.IsPositive (Some a) = true →
  ∃ d,
    Money.ApplyDiscount (Some a) (Some p) = Returns (Some d)
    ∧ Money.LessThan (Some d) (Some a) = true
    ∧ Money.IsNegative (Some d) = false
    ∧ Qeq (Money.Amount (Some d))
          (Money.Amount (Some a) * (Rat.hundred - p) / Rat.hundred).
Proof.
  intros Hp0 Hp100 Ha. apply IsPositive_Some_iff in Ha.
  destruct (ApplyDiscount_value (Some a) p) as (d & Hd & Ed).
  exists d. split; [exact Hd|].
  set (x := (Money.Amount (Some a) : Q)) in *.
  set (y := (Money.Amount (Some d) : Q)) in *.
  unfold Rat.zero, Rat.hundred in *.
  set (q := (p : Q)) in *. clearbody q. clear p.
  assert (Ey : Qeq y (x * ((100 # 1) - q) / (100 # 1))) by (rewrite Ed; field).
  split; [|split; [|exact Ey]].
  - apply LessThan_Some_iff. fold x y. apply Qlt_minus_iff.
    assert (E : Qeq (x + - y) (x * (q / (100 # 1)))) by (rewrite Ed; ring).
    rewrite E. apply Qmult_lt_0_compat; [exact Ha|].
    apply Qlt_shift_div_l; [reflexivity|]. rewrite Qmult_0_l. exact Hp0.
  - apply not_true_is_false. rewrite IsNegative_Some_iff. fold y.
    apply Qle_not_lt. rewrite Ey. apply Qle_shift_div_l; [reflexivity|].
    rewrite Qmult_0_l. apply Qmult_le_0_compat; [apply Qlt_le_weak; exact Ha|].
    apply -> Qle_minus_iff. exact Hp100.
Qed.

(** X2. A percentage in (0, 100] never raises a positive price and
    never makes it negative: ApplyDiscount returns a Money that is
    LessThan the price and not IsNegative, and that IsZero at 100. *)
Theorem ApplyDiscount_lowers_positive_price (a : Money.t) (p : Rat.t) :
  (Rat.zero < p)%Q → (p <= Rat.hundred)%Q →
  Money.IsPositive (Some a) = true →
  ∃ d,
    Money.ApplyDiscount (Some a) (Some p) = Returns (Some d)
    ∧ Money.LessThan (Some d) (Some a) = true
    ∧ Money.IsNegative (Some d) = false
    ∧ (Qeq p Rat.hundred → Money.IsZero (Some d) = true).
Proof.
  intros Hp0 Hp100 Ha.
  destruct (ApplyDiscount_bounds a p Hp0 Hp100 Ha) as (d & Hd & Hlt & Hneg & Ed).
  exists d. split; [exact Hd|]. split; [exact Hlt|]. split; [exact Hneg|].
  intros E. apply IsZero_Some_iff. rewrite Ed.
  as_Q (Money.Amount (Some a)). unfold Rat.hundred in *.
  set (q := (p : Q)) in *. clearbody q. rewrite E. field.
Qed.

End MoneyAlgebra.

Lemma ApplyDiscount_lowers_positive_price_witness :
  ∃ d,
    Money.ApplyDiscount price1999 (Some (Qmake 25 1)) = Returns (Some d)
    ∧ Money.LessThan (Some d) price1999 = true
    ∧ Money.IsNegative (Some d) = false
    ∧ (Qeq (Qmake 25 1) Rat.hundred → Money.IsZero (Some d) = true).
Proof.
  apply (ApplyDiscount_lowers_positive_price
           (Money.mk (Some (Qmake 1999 100))) (Qmake 25 1));
    reflexivity || (vm_compute; congruence).
Defined.

Section MoneyOrder.

(** X3. Two non-nil Money values are in exactly one of the three
    relations Equals, GreaterThan and LessThan; GreaterThan is LessThan
    with the sides exchanged, and Equals does not depend on the order
    of its sides. *)
Theorem Money_comparisons_trichotomy (a b : Money.t) :
  (Money.Equals (Some a) (Some b) = true
   ∧ Money.GreaterThan (Some a) (Some b) = false
   ∧ Money.LessThan (Some a) (Some b) = false
   ∨ Money.Equals (Some a) (Some b) = false
     ∧ Money.GreaterThan (Some a) (Some b) = true
     ∧ Money.LessThan (Some a) (Some b) = false
   ∨ Money.Equals (Some a) (Some b) = false
     ∧ Money.GreaterThan (Some a) (Some b) = false
     ∧ Money.LessThan (Some a) (Some b) = true)
  ∧ Money.GreaterThan (Some a) (Some b) = Money.LessThan (Some b) (Some a)
  ∧ Money.Equals (Some a) (Some b) = Money.Equals (Some b) (Some a).
Proof.
  unfold Money.Equals, Money.GreaterThan, Money.LessThan, Rat.Cmp.
  rewrite <- (Qcompare_antisym (Money.Amount (Some a)) (Money.Amount (Some b))).
  destruct (Qcompare (Money.Amount (Some a)) (Money.Amount (Some b)));
    cbv; tauto.
Qed.

(** X4. Add does not depend on the order of its operands, nil ones
    included, and Sub undoes Add: (m + other) - other Equals m for a
    non-nil m. *)
Theorem Add_commutes_Sub_undoes :
  (∀ m other : option Money.t,
     Money.Equals (Money.Add m other) (Money.Add other m) = true)
  ∧ (∀ (a : Money.t) (other : option Money.t),
       Money.Equals (Money.Sub (Money.Add (Some a) other) other) (Some a) = true).
Proof.
  split.
  - intros m other.
    destruct (Add_value m other) as (x & -> & Ex).
    destruct (Add_value other m) as (y & -> & Ey).
    apply Equals_Some_iff. rewrite Ex, Ey. apply Qplus_comm.
  - intros a other.
    destruct (Add_value (Some a) other) as (x & -> & Ex).
    destruct (Sub_value (Some x) other) as (y & -> & Ey).
    apply Equals_Some_iff. rewrite Ey, Ex.
    as_Q (Money.Amount (Some a)). as_Q (Money.Amount other). ring.
Qed.

(** X5. The sign of a new Money is the sign of numerator times
    denominator, a zero denominator counting as 1: NewMoney(n, d)
    IsPositive exactly when that product is positive, IsNegative when
    it is negative, IsZero when n is 0. *)
Theorem NewMoney_sign (n d : Z) :
  ∃ m,
    Money.NewMoney n d = Returns m
    ∧ Money.IsPositive m = (0 <? n * (if d =? 0 then 1 else d))
    ∧ Money.IsNegative m = (n * (if d =? 0 then 1 else d) <? 0)
    ∧ Money.IsZero m = (n =? 0).
Proof.
  unfold Money.NewMoney. set (d' := if d =? 0 then 1 else d).
  assert (Hd' : d' ≠ 0) by (unfold d'; destruct (Z.eqb_spec d 0); lia).
  unfold Rat.NewRat. destruct (Z.eqb_spec d' 0) as [|_]; [contradiction|].
  destruct (Z.ltb_spec d' 0) as [Hneg|Hpos]; eexists; (split; [reflexivity|]);
    unfold Money.IsPositive, Money.IsNegative, Money.IsZero; simpl;
    rewrite Sign_Qred; simpl; rewrite Z.gtb_ltb;
    pose proof (Z.sgn_spec n); pose proof (Z.sgn_spec (- n));
    repeat split;
    repeat match goal with
      | |- context [?x <? ?y] => destruct (Z.ltb_spec x y)
      | |- context [?x =? ?y] => destruct (Z.eqb_spec x y)
      end; try reflexivity; nia.
Qed.

End MoneyOrder.

Section MoneyAccessors.

(** Reduction to lowest terms makes neither part larger. *)
Lemma Qred_bounds (q : Q) :
  Z.abs (Qnum (Qred q)) <= Z.abs (Qnum q)
  ∧ 0 < Z.pos (Qden (Qred q)) <= Z.pos (Qden q).
Proof.
  destruct q as [a b]. unfold Qred.
  pose proof (Z.ggcd_correct_divisors a (Z.pos b)) as H.
  pose proof (Z.ggcd_gcd a (Z.pos b)) as Hg.
  pose proof (Z.gcd_nonneg a (Z.pos b)) as Hn.
  destruct (Z.ggcd a (Z.pos b)) as [g [aa bb]]. simpl in *.
  destruct H as [Ha Hb]. subst g.
  set (g := Z.gcd a (Z.pos b)) in *.
  clearbody g.
  assert (Hg1 : 1 <= g).
  { destruct (Z.eq_dec g 0) as [E|]; [rewrite E in Hb; lia|lia]. }
  assert (Hbb : 1 <= bb) by nia.
  rewrite Z2Pos.id by lia. split; [nia|]. split; [lia|nia].
Qed.

Lemma Int64_id (x : Z) : - 2 ^ 63 <= x < 2 ^ 63 → Rat.Int64 x = x.
Proof.
  intros H. unfold Rat.Int64.
  rewrite Z.mod_small by lia. lia.
Qed.

(** X6. Numerator and Denominator give back the Money they were read
    from: for n and d strictly between -2^63 and 2^63, NewMoney(n, d)
    returns a Money m, and NewMoney(m.Numerator(), m.Denominator())
    returns m again. *)
Theorem NewMoney_Numerator_Denominator_round_trip (n d : Z) :
  - 2 ^ 63 < n < 2 ^ 63 → - 2 ^ 63 < d < 2 ^ 63 →
  ∃ m,
    Money.NewMoney n d = Returns m
    ∧ Money.NewMoney (Money.Numerator m) (Money.Denominator m) = Returns m.
Proof.
  intros Hn Hd. unfold Money.NewMoney.
  set (d' := if d =? 0 then 1 else d).
  assert (Hd' : d' ≠ 0 ∧ - 2 ^ 63 < d' < 2 ^ 63)
    by (unfold d'; destruct (Z.eqb_spec d 0); lia).
  clearbody d'. destruct Hd' as [Hd0 Hdr].
  assert (Hq : ∃ q : Q, Rat.NewRat n d' = Returns (Qred q)
                        ∧ Z.abs (Qnum q) < 2 ^ 63 ∧ Z.pos (Qden q) < 2 ^ 63).
  { unfold Rat.NewRat. destruct (Z.eqb_spec d' 0) as [|_]; [contradiction|].
    destruct (Z.ltb_spec d' 0).
    - eexists. split; [reflexivity|]. simpl. rewrite Z2Pos.id by lia. lia.
    - eexists. split; [reflexivity|]. simpl. rewrite Z2Pos.id by lia. lia. }
  destruct Hq as (q & -> & Hqn & Hqd).
  eexists. split; [reflexivity|].
  destruct (Qred_bounds q) as [Bn Bd].
  unfold Money.Numerator, Money.Denominator, Rat.Num, Rat.Denom. simpl.
  rewrite !Int64_id by lia.
  destruct (Z.eqb_spec (Z.pos (Qden (Qred q))) 0) as [E|_]; [lia|].
  unfold Rat.NewRat. simpl.
  replace (Qnum (Qred q) # Qden (Qred q)) with (Qred q)
    by (destruct (Qred q); reflexivity).
  rewrite (Qred_complete _ _ (Qred_correct q)). reflexivity.
Qed.

End MoneyAccessors.

Lemma NewMoney_Numerator_Denominator_round_trip_witness :
  ∃ m,
    Money.NewMoney 5000 (-100) = Returns m
    ∧ Money.NewMoney (Money.Numerator m) (Money.Denominator m) = Returns m.
Proof.
  apply (NewMoney_Numerator_Denominator_round_trip 5000 (-100)); lia.
Defined.

(** ** Discount: construction and phases *)

Section DiscountLaws.

Lemma Cmp_le0_iff (x y : Rat.t) : (Rat.Cmp x y <=? 0) = true ↔ (x <= y)%Q.
Proof.
  unfold Rat.Cmp. rewrite Qle_alt.
  destruct (Qcompare x y); cbv; split; congruence.
Qed.

Lemma Cmp_gt0_iff (x y : Rat.t) : (Rat.Cmp x y >? 0) = true ↔ (y < x)%Q.
Proof.
  unfold Rat.Cmp. rewrite Qgt_alt.
  destruct (Qcompare x y); cbv; split; congruence.
Qed.

(** The three outcomes of [NewDiscount], by its arguments. *)
Lemma NewDiscount_cases (pct : option Rat.t) (s e : Time.t) :
  match pct with
  | None => Discount.NewDiscount pct s e = Err ErrInvalidDiscountPercentage
  | Some q =>
      ((q <= Rat.zero)%Q ∨ (Rat.hundred < q)%Q) ∧
      Discount.NewDiscount pct s e = Err ErrInvalidDiscountPercentage
      ∨ (Rat.zero < q)%Q ∧ (q <= Rat.hundred)%Q ∧ e <= s ∧
        Discount.NewDiscount pct s e = Err ErrInvalidDiscountPeriod
      ∨ (Rat.zero < q)%Q ∧ (q <= Rat.hundred)%Q ∧ s < e ∧
        Discount.NewDiscount pct s e = Ok (Discount.mk (Some q) s e)
  end.
Proof.
  destruct pct as [q|]; [|reflexivity].
  unfold Discount.NewDiscount, Time.After, Rat.Set_.
  destruct (Rat.Cmp q Rat.zero <=? 0) eqn:H0.
  { left. apply Cmp_le0_iff in H0. auto. }
  assert (H0' : (Rat.zero < q)%Q).
  { apply Qnot_le_lt. intros C. apply Cmp_le0_iff in C. congruence. }
  destruct (Rat.Cmp q Rat.hundred >? 0) eqn:H1.
  { left. apply Cmp_gt0_iff in H1. auto. }
  assert (H1' : (q <= Rat.hundred)%Q).
  { apply Qnot_lt_le. intros C. apply Cmp_gt0_iff in C. congruence. }
  destruct (Z.ltb_spec s e); simpl; right; [right|left]; auto.
Qed.

(** X7. NewDiscount accepts exactly a non-nil percentage in (0, 100]
    with an end after the start, and then the discount holds the
    three arguments. A bad percentage is reported as
    ErrInvalidDiscountPercentage whatever the period, a bad period as
    ErrInvalidDiscountPeriod only when the percentage is good. *)
Theorem NewDiscount_validation (pct : option Rat.t) (s e : Time.t) :
  (∀ d, Discount.NewDiscount pct s e = Ok d ↔
        ∃ q, pct = Some q ∧ (Rat.zero < q)%Q ∧ (q <= Rat.hundred)%Q ∧ s < e
             ∧ d = Discount.mk (Some q) s e)
  ∧ (Discount.NewDiscount pct s e = Err ErrInvalidDiscountPercentage ↔
       pct = None ∨ ∃ q, pct = Some q ∧ ((q <= Rat.zero)%Q ∨ (Rat.hundred < q)%Q))
  ∧ (Discount.NewDiscount pct s e = Err ErrInvalidDiscountPeriod ↔
       ∃ q, pct = Some q ∧ (Rat.zero < q)%Q ∧ (q <= Rat.hundred)%Q ∧ e <= s)
  ∧ (∀ err, Discount.NewDiscount pct s e = Err err →
            err = ErrInvalidDiscountPercentage ∨ err = ErrInvalidDiscountPeriod).
Proof.
  pose proof (NewDiscount_cases pct s e) as H.
  destruct pct as [q|].
  - assert (Hx : ∀ a b : Q, (a <= b)%Q → (b < a)%Q → False)
      by (intros a b H1 H2; exact (Qlt_not_le _ _ H2 H1)).
    destruct H as [(Hbad & ->)|[(H0 & H1 & He & ->)|(H0 & H1 & He & ->)]].
    + split; [|split; [|split]].
      * intros d. split; [discriminate|]. intros (q' & [= <-] & ? & ? & _).
        destruct Hbad; exfalso; eauto.
      * split; eauto.
      * split; [discriminate|]. intros (q' & [= <-] & ? & ? & _).
        destruct Hbad; exfalso; eauto.
      * intros err [= <-]. auto.
    + split; [|split; [|split]].
      * intros d. split; [discriminate|]. intros (q' & [= <-] & _ & _ & ? & _). lia.
      * split; [discriminate|]. intros [?|(q' & [= <-] & [?|?])];
          [discriminate|exfalso; eauto..].
      * split; eauto 6.
      * intros err [= <-]. auto.
    + split; [|split; [|split]].
      * intros d. split; [intros [= <-]; eauto 8|].
        intros (q' & [= <-] & _ & _ & _ & ->). reflexivity.
      * split; [discriminate|]. intros [?|(q' & [= <-] & [?|?])];
          [discriminate|exfalso; eauto..].
      * split; [discriminate|]. intros (q' & [= <-] & _ & _ & ?). lia.
      * discriminate.
  - rewrite H. split; [|split; [|split]].
    + intros d. split; [discriminate|]. intros (q & ? & _). discriminate.
    + split; auto.
    + split; [discriminate|]. intros (q & ? & _). discriminate.
    + intros err [= <-]. auto.
Qed.

(** X8. At any instant a discount built by NewDiscount is in exactly
    one phase: not yet started (before the start), valid (from the
    start up to the end), or expired (from the end on). For any
    discount, nil included, IsValidAt is HasStarted and not IsExpired. *)
Theorem Discount_phases (pct : option Rat.t) (s e : Time.t) (d : Discount.t)
    (x : Time.t) :
  Discount.NewDiscount pct s e = Ok d →
  (Discount.HasStarted (Some d) x = false
   ∧ Discount.IsValidAt (Some d) x = false
   ∧ Discount.IsExpired (Some d) x = false ∧ x < s
   ∨ Discount.HasStarted (Some d) x = true
     ∧ Discount.IsValidAt (Some d) x = true
     ∧ Discount.IsExpired (Some d) x = false ∧ s <= x < e
   ∨ Discount.HasStarted (Some d) x = true
     ∧ Discount.IsValidAt (Some d) x = false
     ∧ Discount.IsExpired (Some d) x = true ∧ e <= x)
  ∧ (∀ d' : option Discount.t,
       Discount.IsValidAt d' x
       = Discount.HasStarted d' x && negb (Discount.IsExpired d' x)).
Proof.
  intros H. destruct (NewDiscount_Ok _ _ _ _ H) as (Hs & He & Hlt & _).
  split.
  - unfold Discount.HasStarted, Discount.IsValidAt, Discount.IsExpired,
      Time.Before. rewrite Hs, He.
    destruct (Z.ltb_spec x s), (Z.ltb_spec x e); simpl; try lia; auto 10.
  - intros [d'|]; [|reflexivity].
    unfold Discount.HasStarted, Discount.IsValidAt, Discount.IsExpired.
    rewrite negb_involutive. reflexivity.
Qed.

(** X9. A discount built by NewDiscount, applied to a positive price,
    returns a price that is LessThan the original and not negative;
    applied to a nil price it returns nil. *)
Theorem ApplyTo_lowers_positive_price (pct : option Rat.t) (s e : Time.t)
    (d : Discount.t) (a : Money.t) :
  Discount.NewDiscount pct s e = Ok d →
  Money.IsPositive (Some a) = true →
  (∃ r,
     Discount.ApplyTo (Some d) (Some a) = Returns (Some r)
     ∧ Money.LessThan (Some r) (Some a) = true
     ∧ Money.IsNegative (Some r) = false)
  ∧ Discount.ApplyTo (Some d) None = Returns None.
Proof.
  intros H Ha. split; [|reflexivity].
  pose proof (NewDiscount_cases pct s e) as C. rewrite H in C.
  destruct pct as [q|]; [|discriminate].
  destruct C as [(_ & [=])|[(_ & _ & _ & [=])|(H0 & H1 & _ & [= ->])]].
  unfold Discount.ApplyTo. cbn [Discount.percentage].
  destruct (ApplyDiscount_bounds a q H0 H1 Ha) as (r & Hr & Hlt & Hneg & _).
  exists r. auto.
Qed.

End DiscountLaws.

Lemma Discount_phases_witness :
  let d := Discount.mk (Some (Qmake 20 1)) 0 10 in
  (Discount.HasStarted (Some d) 10 = false
   ∧ Discount.IsValidAt (Some d) 10 = false
   ∧ Discount.IsExpired (Some d) 10 = false ∧ 10 < 0
   ∨ Discount.HasStarted (Some d) 10 = true
     ∧ Discount.IsValidAt (Some d) 10 = true
     ∧ Discount.IsExpired (Some d) 10 = false ∧ 0 <= 10 < 10
   ∨ Discount.HasStarted (Some d) 10 = true
     ∧ Discount.IsValidAt (Some d) 10 = false
     ∧ Discount.IsExpired (Some d) 10 = true ∧ 10 <= 10)
  ∧ (∀ d' : option Discount.t,
       Discount.IsValidAt d' 10
       = Discount.HasStarted d' 10 && negb (Discount.IsExpired d' 10)).
Proof.
  apply (Discount_phases (Some (Qmake 20 1)) 0 10). reflexivity.
Defined.

Lemma ApplyTo_lowers_positive_price_witness :
  (∃ r,
     Discount.ApplyTo twentyPercent price1999 = Returns (Some r)
     ∧ Money.LessThan (Some r) price1999 = true
     ∧ Money.IsNegative (Some r) = false)
  ∧ Discount.ApplyTo twentyPercent None = Returns None.
Proof.
  apply (ApplyTo_lowers_positive_price (Some (Qmake 20 1)) 0 10); reflexivity.
Defined.

(** ** ChangeTracker *)

Section ChangeTrackerLaws.

Implicit Types (ct : option ChangeTracker.t) (c : ChangeTracker.t)
  (f g : string) (fields : list string).

Lemma Dirty_MarkDirty c f g :
  ChangeTracker.Dirty (ChangeTracker.MarkDirty (Some c) f) g
  = if decide (f = g) then true else ChangeTracker.Dirty (Some c) g.
Proof.
  unfold ChangeTracker.MarkDirty, ChangeTracker.Dirty. simpl.
  destruct (decide (f = g)) as [->|N].
  - rewrite lookup_insert_eq. reflexivity.
  - rewrite lookup_insert_ne by exact N.
    destruct (ChangeTracker.dirtyFields c); [reflexivity|].
    rewrite lookup_empty. reflexivity.
Qed.

Lemma MarkDirty_Some c f :
  ∃ c', ChangeTracker.MarkDirty (Some c) f = Some c'.
Proof. eexists. reflexivity. Qed.

Lemma MarkAllDirty_Some c fields :
  ∃ c', ChangeTracker.MarkAllDirty (Some c) fields = Some c'
        ∧ ∀ g, ChangeTracker.Dirty (Some c') g = true
               ↔ g ∈ fields ∨ ChangeTracker.Dirty (Some c) g = true.
Proof.
  unfold ChangeTracker.MarkAllDirty. revert c.
  induction fields as [|f fields IH]; intros c; cbn [fold_left].
  - exists c. split; [reflexivity|]. intros g. rewrite elem_of_nil. tauto.
  - destruct (MarkDirty_Some c f) as [c1 H1]. rewrite H1.
    destruct (IH c1) as (c' & -> & Hc'). exists c'. split; [reflexivity|].
    intros g. rewrite Hc', <- H1, Dirty_MarkDirty, elem_of_cons.
    destruct (decide (f = g)) as [->|N]; [tauto|].
    split; [intros [?|?]; auto|intros [[?|?]|?]; auto; congruence].
Qed.

(** The three queries agree on what is dirty. *)
Lemma HasChanges_iff ct :
  ChangeTracker.HasChanges ct = true ↔ ∃ f, ChangeTracker.Dirty ct f = true.
Proof.
  unfold ChangeTracker.HasChanges, ChangeTracker.Dirty.
  destruct ct as [c|]; [|split; [discriminate|intros [? ?]; discriminate]].
  destruct (ChangeTracker.dirtyFields c) as [m|];
    [|split; [discriminate|intros [? ?]; discriminate]].
  rewrite existsb_exists. split.
  - intros ([k v] & Hin & Hv). simpl in Hv. subst v.
    apply list_elem_of_In, elem_of_map_to_list in Hin.
    exists k. rewrite Hin. reflexivity.
  - intros (k & Hk). destruct (m !! k) as [v|] eqn:E; [|discriminate].
    simpl in Hk. subst v. exists (k, true). split; [|reflexivity].
    apply list_elem_of_In, elem_of_map_to_list. exact E.
Qed.

Lemma DirtyFields_iff ct f :
  f ∈ ChangeTracker.DirtyFields ct ↔ ChangeTracker.Dirty ct f = true.
Proof.
  unfold ChangeTracker.DirtyFields, ChangeTracker.Dirty.
  destruct ct as [c|]; [|rewrite elem_of_empty; split; [tauto|discriminate]].
  destruct (ChangeTracker.dirtyFields c) as [m|];
    [|rewrite elem_of_empty; split; [tauto|discriminate]].
  rewrite elem_of_dom. unfold is_Some.
  split.
  - intros (v & Hv). apply map_lookup_filter_Some in Hv as [Hv Ht].
    simpl in Ht. subst v. rewrite Hv. reflexivity.
  - intros H. destruct (m !! f) as [v|] eqn:E; [|discriminate].
    simpl in H. subst v. exists true. apply map_lookup_filter_Some. auto.
Qed.

(** X10. HasChanges, Dirty and DirtyFields agree, on a nil tracker
    too: HasChanges holds exactly when some field is Dirty, and
    DirtyFields lists exactly the fields that are Dirty. A key that
    was never marked reads as not dirty. *)
Theorem ChangeTracker_queries_agree ct :
  (ChangeTracker.HasChanges ct = true ↔ ∃ f, ChangeTracker.Dirty ct f = true)
  ∧ (∀ f, f ∈ ChangeTracker.DirtyFields ct ↔ ChangeTracker.Dirty ct f = true)
  ∧ (ChangeTracker.HasChanges ct = false ↔ ChangeTracker.DirtyFields ct = ∅)
  ∧ (∀ f, ChangeTracker.Dirty ChangeTracker.NewChangeTracker f = false).
Proof.
  split; [apply HasChanges_iff|]. split; [apply DirtyFields_iff|]. split.
  - rewrite <- not_true_iff_false, HasChanges_iff. split.
    + intros H. apply set_eq. intros f. rewrite DirtyFields_iff, elem_of_empty.
      split; [intros; apply H; eauto|tauto].
    + intros H (f & Hf). apply DirtyFields_iff in Hf. rewrite H in Hf.
      apply elem_of_empty in Hf. exact Hf.
  - intros f. unfold ChangeTracker.Dirty. simpl. rewrite lookup_empty. reflexivity.
Qed.

(** X11. After MarkAllDirty(fields...) on a tracker, a field is Dirty
    exactly when it is one of the fields or was dirty before; on a new
    tracker DirtyFields is exactly the set of the fields, and
    HasChanges holds as soon as one field was given. *)
Theorem MarkAllDirty_marks_exactly c fields :
  (∀ g, ChangeTracker.Dirty (ChangeTracker.MarkAllDirty (Some c) fields) g = true
        ↔ g ∈ fields ∨ ChangeTracker.Dirty (Some c) g = true)
  ∧ (fields ≠ [] →
     ChangeTracker.HasChanges (ChangeTracker.MarkAllDirty (Some c) fields) = true)
  ∧ ChangeTracker.DirtyFields
      (ChangeTracker.MarkAllDirty ChangeTracker.NewChangeTracker fields)
    = list_to_set fields.
Proof.
  destruct (MarkAllDirty_Some c fields) as (c' & E & H). rewrite E.
  split; [exact H|]. split.
  - intros Hne. apply HasChanges_iff. destruct fields as [|f fs]; [contradiction|].
    exists f. apply H. left. apply elem_of_cons. auto.
  - destruct (MarkAllDirty_Some (ChangeTracker.mk (Some ∅)) fields)
      as (c0 & E0 & H0).
    unfold ChangeTracker.NewChangeTracker. rewrite E0.
    apply set_eq. intros g. rewrite DirtyFields_iff, H0, elem_of_list_to_set.
    unfold ChangeTracker.Dirty. simpl. rewrite lookup_empty. simpl.
    split; [intros [?|?]; [assumption|discriminate]|auto].
Qed.

(** X12. Reset leaves no field dirty; Clear(field) makes that field
    clean and leaves every other field as it was; MarkDirty(field)
    makes that field dirty and leaves every other field as it was. A
    nil tracker stays nil under all three. *)
Theorem Reset_Clear_MarkDirty ct f :
  (∀ g, ChangeTracker.Dirty (ChangeTracker.Reset ct) g = false)
  ∧ ChangeTracker.HasChanges (ChangeTracker.Reset ct) = false
  ∧ ChangeTracker.Dirty (ChangeTracker.Clear ct f) f = false
  ∧ (∀ g, g ≠ f →
       ChangeTracker.Dirty (ChangeTracker.Clear ct f) g = ChangeTracker.Dirty ct g)
  ∧ (ct ≠ None → ChangeTracker.Dirty (ChangeTracker.MarkDirty ct f) f = true)
  ∧ (∀ g, g ≠ f →
       ChangeTracker.Dirty (ChangeTracker.MarkDirty ct f) g
       = ChangeTracker.Dirty ct g)
  ∧ (ct = None →
     ChangeTracker.Reset ct = None ∧ ChangeTracker.Clear ct f = None
     ∧ ChangeTracker.MarkDirty ct f = None).
Proof.
  assert (HR : ∀ g, ChangeTracker.Dirty (ChangeTracker.Reset ct) g = false).
  { intros g. destruct ct; [|reflexivity].
    unfold ChangeTracker.Dirty. simpl. rewrite lookup_empty. reflexivity. }
  split; [exact HR|]. split.
  { apply not_true_iff_false. rewrite HasChanges_iff. intros (g & Hg).
    rewrite HR in Hg. discriminate. }
  destruct ct as [c|].
  - repeat split.
    + unfold ChangeTracker.Clear, ChangeTracker.Dirty.
      destruct (ChangeTracker.dirtyFields c) eqn:E; simpl; rewrite ?E;
        [rewrite lookup_delete_eq|]; reflexivity.
    + intros g N. unfold ChangeTracker.Clear, ChangeTracker.Dirty.
      destruct (ChangeTracker.dirtyFields c) eqn:E; simpl; rewrite ?E;
        [rewrite lookup_delete_ne by congruence|]; reflexivity.
    + intros _. rewrite Dirty_MarkDirty. destruct (decide (f = f)); congruence.
    + intros g N. rewrite Dirty_MarkDirty.
      destruct (decide (f = g)); congruence.
    + discriminate.
    + discriminate.
    + discriminate.
  - repeat split; try reflexivity. intros C. contradiction.
Qed.

End ChangeTrackerLaws.

(** ** The Product aggregate: the lifecycle *)

(** See the statuses as the strings they are. *)
Ltac unfold_status :=
  unfold ProductStatusArchived, ProductStatusActive, ProductStatusInactive,
    ProductStatusDraft in *.

(** Split on the next guard or comparison of a method body. *)
Ltac split_guard :=
  match goal with
  | |- context [if ?b then _ else _] => destruct b eqn:?; simpl
  end.

Section ProductLifecycle.

Variable TrimSpace : string → string.

Implicit Types (p : Product.t) (c : Product.call) (now : Time.t).

(** The outcome of each method without arguments to validate, by the
    status it finds. *)
Lemma Activate_outcome now p :
  Product.Activate now p
  = if (Product.status p =? ProductStatusArchived)%string
    then (p, Err ErrProductArchived)
    else if (Product.status p =? ProductStatusActive)%string
    then (p, Err ErrProductAlreadyActive)
    else if negb (CanActivate (Product.status p))
    then (p, Err ErrProductNotActive)
    else (Product.set_events
            (Product.events p ++ [NewProductActivatedEvent (Product.id p) now])
            (Product.set_changes
               (ChangeTracker.MarkDirty (Product.changes p) FieldStatus)
               (Product.set_updatedAt now
                  (Product.set_status ProductStatusActive p))), Ok tt).
Proof. unfold_method. simpl. repeat split_guard; reflexivity. Qed.

Lemma Deactivate_outcome now p :
  Product.Deactivate now p
  = if (Product.status p =? ProductStatusArchived)%string
    then (p, Err ErrProductArchived)
    else if (Product.status p =? ProductStatusInactive)%string
    then (p, Err ErrProductAlreadyInactive)
    else if negb (CanDeactivate (Product.status p))
    then (p, Err ErrProductNotActive)
    else (Product.set_events
            (Product.events p ++ [NewProductDeactivatedEvent (Product.id p) now])
            (Product.set_changes
               (ChangeTracker.MarkDirty (Product.changes p) FieldStatus)
               (Product.set_updatedAt now
                  (Product.set_status ProductStatusInactive p))), Ok tt).
Proof. unfold_method. simpl. repeat split_guard; reflexivity. Qed.

Lemma Archive_outcome now p :
  Product.Archive now p
  = if (Product.status p =? ProductStatusArchived)%string
    then (p, Err ErrProductArchived)
    else (Product.set_events
            (Product.events p ++ [NewProductArchivedEvent (Product.id p) now])
            (Product.set_changes
               (ChangeTracker.MarkDirty (Product.changes p) FieldStatus)
               (Product.set_updatedAt now
                  (Product.set_archivedAt (Some now)
                     (Product.set_status ProductStatusArchived p)))), Ok tt).
Proof. unfold_method. simpl. repeat split_guard; reflexivity. Qed.

Lemma ApplyDiscount_outcome d now p :
  Product.ApplyDiscount d now p
  = if negb (Product.status p =? ProductStatusActive)%string
    then (p, Err ErrProductNotActive)
    else if isNil d
    then (p, Err ErrInvalidDiscountPercentage)
    else if Discount.IsExpired d now
    then (p, Err ErrInvalidDiscountPeriod)
    else (Product.set_events
            (Product.events p ++
               [NewDiscountAppliedEvent (Product.id p)
                  (Some (Discount.Percentage d)) (Discount.StartDate d)
                  (Discount.EndDate d) now])
            (Product.set_changes
               (ChangeTracker.MarkDirty (Product.changes p) FieldDiscount)
               (Product.set_updatedAt now (Product.set_discount d p))), Ok tt).
Proof.
  unfold_method. simpl.
  destruct (String.eqb_spec (Product.status p) ProductStatusActive) as [E|N];
    simpl; [|reflexivity].
  rewrite E. simpl. repeat split_guard; reflexivity.
Qed.

Lemma RemoveDiscount_outcome now p :
  Product.RemoveDiscount now p
  = if (Product.status p =? ProductStatusArchived)%string
    then (p, Err ErrProductArchived)
    else if isNil (Product.discount p)
    then (p, Err ErrNoDiscountToRemove)
    else (Product.set_events
            (Product.events p ++ [NewDiscountRemovedEvent (Product.id p) now])
            (Product.set_changes
               (ChangeTracker.MarkDirty (Product.changes p) FieldDiscount)
               (Product.set_updatedAt now (Product.set_discount None p))), Ok tt).
Proof. unfold_method. simpl. repeat split_guard; reflexivity. Qed.

Lemma Update_outcome n d cat now p :
  Product.Update TrimSpace n d cat now p
  = if (Product.status p =? ProductStatusArchived)%string
    then (p, Err ErrProductArchived)
    else if (TrimSpace n =? "")%string
    then (p, Err ErrInvalidProductName)
    else if (TrimSpace cat =? "")%string
    then (p, Err ErrInvalidProductCategory)
    else
      let p1 :=
        if negb (Product.name p =? TrimSpace n)%string
        then Product.set_changes
               (ChangeTracker.MarkDirty (Product.changes p) FieldName)
               (Product.set_name (TrimSpace n) p)
        else p in
      let p2 :=
        if negb (Product.description p =? TrimSpace d)%string
        then Product.set_changes
               (ChangeTracker.MarkDirty (Product.changes p1) FieldDescription)
               (Product.set_description (TrimSpace d) p1)
        else p1 in
      let p3 :=
        if negb (Product.category p =? TrimSpace cat)%string
        then Product.set_changes
               (ChangeTracker.MarkDirty (Product.changes p2) FieldCategory)
               (Product.set_category (TrimSpace cat) p2)
        else p2 in
      if negb (Product.name p =? TrimSpace n)%string
         || negb (Product.description p =? TrimSpace d)%string
         || negb (Product.category p =? TrimSpace cat)%string
      then (Product.set_events
              (Product.events p ++
                 [NewProductUpdatedEvent (Product.id p) (TrimSpace n)
                    (TrimSpace d) (TrimSpace cat) now])
              (Product.set_updatedAt now p3), Ok tt)
      else (p, Ok tt).
Proof.
  unfold Product.Update.
  destruct (Product.status p =? ProductStatusArchived)%string eqn:H1.
  { apply guard_fires. exact H1. }
  rewrite guard_passes by exact H1.
  destruct (TrimSpace n =? "")%string eqn:H2.
  { apply guard_fires. reflexivity. }
  rewrite guard_passes by reflexivity.
  destruct (TrimSpace cat =? "")%string eqn:H3.
  { apply guard_fires. reflexivity. }
  rewrite guard_passes by reflexivity.
  unfold_method. simpl.
  destruct (String.eqb_spec (Product.name p) (TrimSpace n)) as [E1|N1]; simpl;
    destruct (String.eqb_spec (Product.description p) (TrimSpace d)) as [E2|N2];
    simpl;
    destruct (String.eqb_spec (Product.category p) (TrimSpace cat)) as [E3|N3];
    simpl; rewrite ?E1, ?E2, ?E3; try reflexivity;
    destruct p; reflexivity.
Qed.

(** The outcome of any call, ready for a split on its guards. *)
Lemma exec_outcome c p :
  Product.exec TrimSpace c p
  = match c with
    | Product.CallUpdate n d cat now => Product.Update TrimSpace n d cat now p
    | Product.CallActivate now => Product.Activate now p
    | Product.CallDeactivate now => Product.Deactivate now p
    | Product.CallArchive now => Product.Archive now p
    | Product.CallApplyDiscount d now => Product.ApplyDiscount d now p
    | Product.CallRemoveDiscount now => Product.RemoveDiscount now p
    end.
Proof. destruct c; reflexivity. Qed.

End ProductLifecycle.

(** Rewrite a call into its outcome and split on every guard. *)
Ltac by_outcome TrimSpace :=
  rewrite ?exec_outcome;
  rewrite ?(Update_outcome TrimSpace), ?Activate_outcome, ?Deactivate_outcome,
    ?Archive_outcome, ?ApplyDiscount_outcome, ?RemoveDiscount_outcome;
  cbv zeta; repeat split_guard.

Section ProductCalls.

Variable TrimSpace : string → string.

Implicit Types (p : Product.t) (c : Product.call) (now : Time.t).

(** X13. The lifecycle transitions. Activate succeeds exactly from
    Draft and Inactive and leads to Active; Deactivate succeeds exactly
    from Active and leads to Inactive; Archive succeeds exactly from a
    status other than Archived and leads to Archived. Update,
    ApplyDiscount and RemoveDiscount never change the status. *)
Theorem lifecycle_transitions now p :
  (Product.returned (Product.Activate now) p = Ok tt
   ↔ Product.status p = ProductStatusDraft
     ∨ Product.status p = ProductStatusInactive)
  ∧ (Product.returned (Product.Activate now) p = Ok tt →
     Product.status (Product.after (Product.Activate now) p) = ProductStatusActive)
  ∧ (Product.returned (Product.Deactivate now) p = Ok tt
     ↔ Product.status p = ProductStatusActive)
  ∧ (Product.returned (Product.Deactivate now) p = Ok tt →
     Product.status (Product.after (Product.Deactivate now) p)
     = ProductStatusInactive)
  ∧ (Product.returned (Product.Archive now) p = Ok tt
     ↔ Product.status p ≠ ProductStatusArchived)
  ∧ (Product.returned (Product.Archive now) p = Ok tt →
     Product.status (Product.after (Product.Archive now) p)
     = ProductStatusArchived)
  ∧ (∀ n d cat dis,
       Product.status (Product.after (Product.Update TrimSpace n d cat now) p)
       = Product.status p
       ∧ Product.status (Product.after (Product.ApplyDiscount dis now) p)
         = Product.status p
       ∧ Product.status (Product.after (Product.RemoveDiscount now) p)
         = Product.status p).
Proof.
  unfold Product.returned, Product.after.
  split; [|split; [|split; [|split; [|split; [|split]]]]].
  - rewrite Activate_outcome. unfold CanActivate. unfold_status.
    destruct (String.eqb_spec (Product.status p) "archived") as [->|];
      [simpl; split; [discriminate|intros [?|?]; discriminate]|].
    destruct (String.eqb_spec (Product.status p) "active") as [->|];
      [simpl; split; [discriminate|intros [?|?]; discriminate]|].
    destruct (String.eqb_spec (Product.status p) "draft");
      destruct (String.eqb_spec (Product.status p) "inactive");
      simpl; split; auto; try discriminate. tauto.
  - by_outcome TrimSpace; simpl; intros; (reflexivity || discriminate).
  - rewrite Deactivate_outcome. unfold CanDeactivate. unfold_status.
    destruct (String.eqb_spec (Product.status p) "archived") as [->|];
      [simpl; split; discriminate|].
    destruct (String.eqb_spec (Product.status p) "inactive") as [->|];
      [simpl; split; discriminate|].
    destruct (String.eqb_spec (Product.status p) "active");
      simpl; split; auto; try discriminate. contradiction.
  - by_outcome TrimSpace; simpl; intros; (reflexivity || discriminate).
  - rewrite Archive_outcome. unfold_status.
    destruct (String.eqb_spec (Product.status p) "archived");
      simpl; split; auto; try discriminate. contradiction.
  - by_outcome TrimSpace; simpl; intros; (reflexivity || discriminate).
  - intros n d cat dis. repeat split; by_outcome TrimSpace; reflexivity.
Qed.


(** X14. A successful call appends exactly one event, of the type of
    the method, carrying the product's id and the instant of the call,
    and sets updatedAt to that instant; the one exception is an Update
    that changes nothing, which leaves the product as it was. *)
Theorem successful_call_appends_one_event c p :
  Product.returned (Product.exec TrimSpace c) p = Ok tt →
  (Product.after (Product.exec TrimSpace c) p = p
   ∧ ∃ n d cat now, c = Product.CallUpdate n d cat now)
  ∨ ∃ e,
      Product.events (Product.after (Product.exec TrimSpace c) p)
      = Product.events p ++ [e]
      ∧ EventType e = Product.callEventType c
      ∧ AggregateID e = Product.id p
      ∧ OccurredAt e = Product.callTime c
      ∧ Product.updatedAt (Product.after (Product.exec TrimSpace c) p)
        = Product.callTime c.
Proof.
  unfold Product.returned, Product.after.
  destruct c; by_outcome TrimSpace; simpl; intros H; try discriminate;
    first [ left; split; [reflexivity|eauto 6]
          | right; eexists; repeat split ].
Qed.

(** X15. No call changes the product's id, its creation time or its
    base price; the event queue only grows, by at most one event; and
    a field that was dirty stays dirty. *)
Theorem calls_keep_identity_and_history c p :
  Product.id (Product.after (Product.exec TrimSpace c) p) = Product.id p
  ∧ Product.createdAt (Product.after (Product.exec TrimSpace c) p)
    = Product.createdAt p
  ∧ Product.basePrice (Product.after (Product.exec TrimSpace c) p)
    = Product.basePrice p
  ∧ (∃ l, Product.events (Product.after (Product.exec TrimSpace c) p)
          = Product.events p ++ l ∧ (length l <= 1)%nat)
  ∧ (∀ f, ChangeTracker.Dirty (Product.changes p) f = true →
          ChangeTracker.Dirty
            (Product.changes (Product.after (Product.exec TrimSpace c) p)) f
          = true).
Proof.
  unfold Product.after.
  assert (HD : ∀ ct g f, ChangeTracker.Dirty ct f = true →
                 ChangeTracker.Dirty (ChangeTracker.MarkDirty ct g) f = true).
  { intros [c0|] g f H; [|discriminate]. rewrite Dirty_MarkDirty.
    destruct (decide (g = f)); auto. }
  repeat split; destruct c; by_outcome TrimSpace; simpl; try reflexivity;
    try (exists []; rewrite app_nil_r; split; [reflexivity|simpl; lia]);
    try (eexists [_]; split; [reflexivity|simpl; lia]);
    intros; auto.
Qed.

(** X16. Change tracking is sound: after any call on a product that
    has a tracker, a field whose value differs from before is marked
    dirty; a changed archivedAt is covered by the status field; and if
    updatedAt moved, the tracker HasChanges. *)
Theorem changed_fields_are_dirty c p :
  Product.changes p ≠ None →
  let p' := Product.after (Product.exec TrimSpace c) p in
  (Product.name p' ≠ Product.name p →
   ChangeTracker.Dirty (Product.changes p') FieldName = true)
  ∧ (Product.description p' ≠ Product.description p →
     ChangeTracker.Dirty (Product.changes p') FieldDescription = true)
  ∧ (Product.category p' ≠ Product.category p →
     ChangeTracker.Dirty (Product.changes p') FieldCategory = true)
  ∧ (Product.status p' ≠ Product.status p →
     ChangeTracker.Dirty (Product.changes p') FieldStatus = true)
  ∧ (Product.archivedAt p' ≠ Product.archivedAt p →
     ChangeTracker.Dirty (Product.changes p') FieldStatus = true)
  ∧ (Product.discount p' ≠ Product.discount p →
     ChangeTracker.Dirty (Product.changes p') FieldDiscount = true)
  ∧ (Product.updatedAt p' ≠ Product.updatedAt p →
     ChangeTracker.HasChanges (Product.changes p') = true).
Proof.
  intros Hc. destruct (Product.changes p) as [c0|] eqn:E; [clear Hc|contradiction].
  assert (HM : ∀ ct g, ct ≠ None →
                 ChangeTracker.Dirty (ChangeTracker.MarkDirty ct g) g = true).
  { intros [c1|] g H; [|contradiction]. rewrite Dirty_MarkDirty.
    destruct (decide (g = g)); congruence. }
  assert (HK : ∀ ct g f, ChangeTracker.Dirty ct f = true →
                 ChangeTracker.Dirty (ChangeTracker.MarkDirty ct g) f = true).
  { intros [c1|] g f H; [|discriminate]. rewrite Dirty_MarkDirty.
    destruct (decide (g = f)); auto. }
  assert (HS : ∀ ct g, ct ≠ None → ChangeTracker.MarkDirty ct g ≠ None).
  { intros [c1|] g H; [discriminate|contradiction]. }
  assert (HH : ∀ ct g, ct ≠ None →
                 ChangeTracker.HasChanges (ChangeTracker.MarkDirty ct g) = true).
  { intros ct g H. apply HasChanges_iff. exists g. apply HM. exact H. }
  assert (HH' : ∀ ct g, ChangeTracker.HasChanges ct = true →
                  ChangeTracker.HasChanges (ChangeTracker.MarkDirty ct g) = true).
  { intros ct g H. apply HasChanges_iff. apply HasChanges_iff in H as [f Hf].
    exists f. apply HK. exact Hf. }
  assert (E0 : Product.changes p ≠ None) by (rewrite E; discriminate).
  cbv zeta. unfold Product.after.
  repeat split; destruct c; by_outcome TrimSpace; simpl; intros H;
    try contradiction; try discriminate; auto 8.
Qed.

End ProductCalls.

Lemma successful_call_appends_one_event_witness :
  let c := Product.CallActivate 3 in
  (Product.after (Product.exec TrimSpaceASCII c) draftWidget = draftWidget
   ∧ ∃ n d cat now, c = Product.CallUpdate n d cat now)
  ∨ ∃ e,
      Product.events (Product.after (Product.exec TrimSpaceASCII c) draftWidget)
      = Product.events draftWidget ++ [e]
      ∧ EventType e = Product.callEventType c
      ∧ AggregateID e = Product.id draftWidget
      ∧ OccurredAt e = Product.callTime c
      ∧ Product.updatedAt
          (Product.after (Product.exec TrimSpaceASCII c) draftWidget)
        = Product.callTime c.
Proof.
  apply (successful_call_appends_one_event TrimSpaceASCII
           (Product.CallActivate 3) draftWidget).
  reflexivity.
Defined.

Lemma changed_fields_are_dirty_witness :
  let p' := Product.after
              (Product.exec TrimSpaceASCII (Product.CallUpdate "Gadget" "" "X" 3))
              draftWidget in
  (Product.name p' ≠ Product.name draftWidget →
   ChangeTracker.Dirty (Product.changes p') FieldName = true)
  ∧ (Product.description p' ≠ Product.description draftWidget →
     ChangeTracker.Dirty (Product.changes p') FieldDescription = true)
  ∧ (Product.category p' ≠ Product.category draftWidget →
     ChangeTracker.Dirty (Product.changes p') FieldCategory = true)
  ∧ (Product.status p' ≠ Product.status draftWidget →
     ChangeTracker.Dirty (Product.changes p') FieldStatus = true)
  ∧ (Product.archivedAt p' ≠ Product.archivedAt draftWidget →
     ChangeTracker.Dirty (Product.changes p') FieldStatus = true)
  ∧ (Product.discount p' ≠ Product.discount draftWidget →
     ChangeTracker.Dirty (Product.changes p') FieldDiscount = true)
  ∧ (Product.updatedAt p' ≠ Product.updatedAt draftWidget →
     ChangeTracker.HasChanges (Product.changes p') = true).
Proof.
  apply (changed_fields_are_dirty TrimSpaceASCII
           (Product.CallUpdate "Gadget" "" "X" 3) draftWidget).
  discriminate.
Defined.

Section ProductInvariants.

Variable TrimSpace : string → string.

Implicit Types (p : Product.t) (c : Product.call) (now : Time.t).

Lemma well_formed_step c p :
  Product.well_formed TrimSpace p →
  Product.well_formed TrimSpace (Product.after (Product.exec TrimSpace c) p).
Proof.
  intros (Hi & Hn & Hc & Hp & Hv & Ht & Hd & He).
  assert (HS : ∀ ct g, ct ≠ None → ChangeTracker.MarkDirty ct g ≠ None).
  { intros [c1|] g H; [discriminate|contradiction]. }
  assert (HF : ∀ b, Forall (λ e, AggregateID e = Product.id p)
                      (Product.events p ++ [b]) ↔ AggregateID b = Product.id p).
  { intros b. rewrite Forall_app, Forall_singleton. tauto. }
  unfold Product.well_formed, Product.after.
  destruct c; by_outcome TrimSpace; simpl;
    repeat match goal with
      | H : (_ =? _)%string = false |- _ => apply String.eqb_neq in H
      | H : (_ =? _)%string = true |- _ => apply String.eqb_eq in H
      | H : negb _ = false |- _ => apply negb_false_iff in H
      | H : negb _ = true |- _ => apply negb_true_iff in H
      end;
    repeat split; auto; try (apply HF; reflexivity);
    try (intros; unfold_status; congruence).
Qed.

(** X17. Every product built by NewProduct and changed only through
    its methods keeps the invariants of the aggregate: a non-blank id,
    a non-empty name and category, a positive base price, one of the
    four statuses, a change tracker, no discount while it is a draft,
    and only events that carry its own id. *)
Theorem reachable_products_are_well_formed p :
  Product.reachable TrimSpace p →
  TrimSpace (Product.id p) ≠ ""
  ∧ Product.name p ≠ ""
  ∧ Product.category p ≠ ""
  ∧ Money.IsPositive (Product.basePrice p) = true
  ∧ IsValid (Product.status p) = true
  ∧ Product.changes p ≠ None
  ∧ (Product.status p = ProductStatusDraft → Product.discount p = None)
  ∧ Forall (λ e, AggregateID e = Product.id p) (Product.events p).
Proof.
  intros H. change (Product.well_formed TrimSpace p).
  induction H as [id' n d cat bp now p H|c p Hp IH|p Hp IH].
  - unfold Product.NewProduct in H.
    destruct (String.eqb_spec (TrimSpace id') ""); [discriminate|].
    destruct (String.eqb_spec (TrimSpace n) ""); [discriminate|].
    destruct (String.eqb_spec (TrimSpace cat) ""); [discriminate|].
    destruct (isNil bp || negb (Money.IsPositive bp)) eqn:E; [discriminate|].
    apply orb_false_iff in E as [_ E]. apply negb_false_iff in E.
    injection H as <-. unfold Product.well_formed. simpl.
    repeat split; auto; try discriminate.
  - apply well_formed_step. exact IH.
  - destruct IH as (Hi & Hn & Hc & Hp' & Hv & Ht & Hd & He).
    unfold Product.well_formed, Product.after, Product.ClearEvents, Product.modify.
    simpl. repeat split; auto.
Qed.

End ProductInvariants.

Lemma reachable_products_are_well_formed_witness :
  ∃ p0,
    Product.NewProduct TrimSpaceASCII "prod-123" "Widget" "" "X" price1999 0 = Ok p0
    ∧ let p := Product.after (Product.exec TrimSpaceASCII (Product.CallActivate 1))
                 p0 in
      TrimSpaceASCII (Product.id p) ≠ ""
      ∧ Product.name p ≠ ""
      ∧ Product.category p ≠ ""
      ∧ Money.IsPositive (Product.basePrice p) = true
      ∧ IsValid (Product.status p) = true
      ∧ Product.changes p ≠ None
      ∧ (Product.status p = ProductStatusDraft → Product.discount p = None)
      ∧ Forall (λ e, AggregateID e = Product.id p) (Product.events p).
Proof.
  eexists. split; [reflexivity|].
  apply (reachable_products_are_well_formed TrimSpaceASCII).
  apply Product.reach_call.
  apply (Product.reach_new TrimSpaceASCII "prod-123" "Widget" "" "X" price1999 0).
  reflexivity.
Defined.

(** ** The Product aggregate: discounts and the effective price *)

Section ProductDiscounts.

Implicit Types (p : Product.t) (now : Time.t).

Lemma HasActiveDiscount_iff p now :
  Product.HasActiveDiscount p now = true
  ↔ ∃ d', Product.discount p = Some d'
          ∧ Discount.startDate d' <= now < Discount.endDate d'.
Proof.
  unfold Product.HasActiveDiscount, Discount.IsActive.
  destruct (Product.discount p) as [d'|]; cbn [isNil negb andb].
  - rewrite IsValidAt_spec. split; [eauto|]. intros (d0 & [= <-] & H). exact H.
  - split; [discriminate|]. intros (d0 & ? & _). discriminate.
Qed.

(** X18. Applying and removing a discount. ApplyDiscount succeeds
    exactly on an Active product with a non-nil discount that has not
    expired at the instant of the call (it may start later), and then
    the product holds that discount, whatever it held before.
    RemoveDiscount succeeds exactly on a non-archived product that
    holds a discount; afterwards the product holds none, its effective
    price is its base price at every instant, and a second
    RemoveDiscount returns ErrNoDiscountToRemove. *)
Theorem discount_operations (d : option Discount.t) now p :
  (Product.returned (Product.ApplyDiscount d now) p = Ok tt
   ↔ Product.status p = ProductStatusActive ∧ d ≠ None
     ∧ Discount.IsExpired d now = false)
  ∧ (Product.returned (Product.ApplyDiscount d now) p = Ok tt →
     Product.discount (Product.after (Product.ApplyDiscount d now) p) = d)
  ∧ (Product.returned (Product.RemoveDiscount now) p = Ok tt
     ↔ Product.status p ≠ ProductStatusArchived ∧ Product.discount p ≠ None)
  ∧ (Product.returned (Product.RemoveDiscount now) p = Ok tt →
     let p' := Product.after (Product.RemoveDiscount now) p in
     Product.discount p' = None
     ∧ (∀ t, Product.EffectivePrice p' t = Returns (Product.basePrice p))
     ∧ (∀ t, Product.returned (Product.RemoveDiscount t) p'
             = Err ErrNoDiscountToRemove)).
Proof.
  unfold Product.returned, Product.after.
  split; [|split; [|split]].
  - rewrite ApplyDiscount_outcome.
    destruct (String.eqb_spec (Product.status p) ProductStatusActive); simpl;
      [|split; [discriminate|tauto]].
    destruct d as [d'|]; simpl; [|split; [discriminate|tauto]].
    destruct (negb (Time.Before now (Discount.endDate d'))); simpl;
      split; auto; try discriminate. intros (_ & _ & ?). discriminate.
  - rewrite ApplyDiscount_outcome. repeat split_guard;
      intros; (reflexivity || discriminate).
  - rewrite RemoveDiscount_outcome.
    destruct (String.eqb_spec (Product.status p) ProductStatusArchived); simpl;
      [split; [discriminate|tauto]|].
    destruct (Product.discount p); simpl; split; auto; try discriminate.
    tauto.
  - rewrite RemoveDiscount_outcome.
    destruct (String.eqb_spec (Product.status p) ProductStatusArchived) as [|N];
      simpl; [discriminate|].
    destruct (isNil (Product.discount p)); simpl; [discriminate|].
    intros _. split; [reflexivity|]. split; [reflexivity|].
    intros t. rewrite RemoveDiscount_outcome. simpl.
    rewrite (proj2 (String.eqb_neq _ _) N). reflexivity.
Qed.

(** X19. The effective price. EffectivePrice always returns; it is
    the base price itself unless the product holds a discount whose
    period contains the instant (start included, end excluded); and
    with such a discount, built by NewDiscount, on a positive base
    price, it is LessThan the base price and not negative. *)
Theorem EffectivePrice_cases p now :
  (∃ m, Product.EffectivePrice p now = Returns m)
  ∧ (Product.HasActiveDiscount p now = true
     ↔ ∃ d', Product.discount p = Some d'
             ∧ Discount.startDate d' <= now < Discount.endDate d')
  ∧ (Product.HasActiveDiscount p now = false →
     Product.EffectivePrice p now = Returns (Product.basePrice p))
  ∧ (∀ pct s e d' a,
       Discount.NewDiscount pct s e = Ok d' →
       Product.discount p = Some d' → Product.basePrice p = Some a →
       Money.IsPositive (Some a) = true → s <= now < e →
       ∃ r, Product.EffectivePrice p now = Returns (Some r)
            ∧ Money.LessThan (Some r) (Some a) = true
            ∧ Money.IsNegative (Some r) = false).
Proof.
  split; [|split; [apply HasActiveDiscount_iff|split]].
  - unfold Product.EffectivePrice.
    destruct (negb (isNil (Product.discount p))
              && Discount.IsActive (Product.discount p) now); [|eauto].
    unfold Discount.ApplyTo.
    destruct (Product.discount p) as [d'|]; [|eauto].
    destruct (Product.basePrice p) as [a|]; [|eauto].
    destruct (Discount.percentage d') as [q|].
    + destruct (ApplyDiscount_value (Some a) q) as (r & Hr & _). eauto.
    + eauto.
  - unfold Product.EffectivePrice, Product.HasActiveDiscount.
    intros ->. reflexivity.
  - intros pct s e d' a Hd Hp Ha Hpos Hnow.
    destruct (NewDiscount_Ok _ _ _ _ Hd) as (Hs & He & _ & _).
    pose proof (NewDiscount_cases pct s e) as C. rewrite Hd in C.
    destruct pct as [q|]; [|discriminate].
    destruct C as [(_ & [=])|[(_ & _ & _ & [=])|(H0 & H1 & _ & [= E])]].
    unfold Product.EffectivePrice.
    assert (HA : Product.HasActiveDiscount p now = true).
    { apply HasActiveDiscount_iff. exists d'. rewrite Hs, He. auto. }
    unfold Product.HasActiveDiscount in HA. rewrite HA, Hp, Ha.
    unfold Discount.ApplyTo. rewrite E. cbn [Discount.percentage].
    destruct (ApplyDiscount_bounds a q H0 H1 Hpos) as (r & Hr & Hlt & Hneg & _).
    exists r. auto.
Qed.

End ProductDiscounts.

(** ** The pricing calculator *)

Section PricingCalculatorLaws.


End PricingCalculatorLaws.


(** ** Error mapping at the transport boundary *)

Section ErrorMapping.

Lemma Is_Sentinel (e target : Error) :
  Is (Sentinel e) target = bool_decide (e = target).
Proof. reflexivity. Qed.

(** X21. MapDomainErrorToGRPC maps nil to nil and every other error to
    a status. A sentinel error of the domain gets the code of its
    class (NotFound for a missing product, InvalidArgument for the six
    validation errors, FailedPrecondition for the seven state errors)
    with its own text; an error that neither is nor wraps a domain
    error gets Internal with the fixed text, so its own text is not
    passed on. *)
Theorem MapDomainErrorToGRPC_classes :
  Handler.MapDomainErrorToGRPC None = None
  ∧ (∀ e,
       Handler.MapDomainErrorToGRPC (Some (Sentinel e))
       = Some (Handler.mkStatus
                 match e with
                 | ErrProductNotFound => Handler.NotFound
                 | ErrInvalidID | ErrInvalidProductName
                 | ErrInvalidProductCategory | ErrInvalidBasePrice
                 | ErrInvalidDiscountPercentage | ErrInvalidDiscountPeriod =>
                     Handler.InvalidArgument
                 | ErrProductNotActive | ErrProductArchived
                 | ErrProductAlreadyActive | ErrProductAlreadyInactive
                 | ErrDiscountNotActive | ErrDiscountAlreadyExists
                 | ErrNoDiscountToRemove => Handler.FailedPrecondition
                 end
                 (sentinelText e)))
  ∧ (∀ err,
       (∀ e, Is err e = false) →
       Handler.MapDomainErrorToGRPC (Some err)
       = Some (Handler.mkStatus Handler.Internal "internal server error"))
  ∧ (∀ err, ∃ st,
       Handler.MapDomainErrorToGRPC (Some err) = Some st
       ∧ (Handler.code st = Handler.Internal ↔ ∀ e, Is err e = false)
       ∧ (Handler.code st ≠ Handler.Internal →
          Handler.message st = ErrorText err)).
Proof.
  split; [reflexivity|]. split; [intros []; reflexivity|]. split.
  - intros err H. unfold Handler.MapDomainErrorToGRPC. rewrite !H. reflexivity.
  - intros err. unfold Handler.MapDomainErrorToGRPC.
    repeat match goal with
      | |- context [if Is err ?e then _ else _] => destruct (Is err e) eqn:?
      end;
      eexists; (split; [reflexivity|]); simpl; split;
      try (split; [discriminate|];
           intros H;
           match goal with
           | E : Is _ _ = true |- _ => rewrite H in E; discriminate
           end);
      try (intros _; reflexivity).
    + split; [intros _ []; assumption|reflexivity].
    + intros C; contradiction.
Qed.

End ErrorMapping.

Section ErrorMappingOfCalls.

Variable TrimSpace : string → string.

(** The errors the methods of the aggregate can return. *)
Lemma exec_errors c p e :
  Product.returned (Product.exec TrimSpace c) p = Err e →
  In e [ErrProductArchived; ErrInvalidProductName; ErrInvalidProductCategory;
        ErrProductAlreadyActive; ErrProductAlreadyInactive; ErrProductNotActive;
        ErrInvalidDiscountPercentage; ErrInvalidDiscountPeriod;
        ErrNoDiscountToRemove].
Proof.
  unfold Product.returned.
  destruct c; by_outcome TrimSpace; simpl; intros [= <-]; tauto.
Qed.

(** X22. Whatever error a method of the aggregate returns, the
    handler reports it as InvalidArgument or FailedPrecondition, never
    as NotFound or Internal, and with the text of the error. *)
Theorem product_errors_map_to_client_codes c p e :
  Product.returned (Product.exec TrimSpace c) p = Err e →
  ∃ st,
    Handler.MapDomainErrorToGRPC (Some (Sentinel e)) = Some st
    ∧ (Handler.code st = Handler.InvalidArgument
       ∨ Handler.code st = Handler.FailedPrecondition)
    ∧ Handler.message st = sentinelText e.
Proof.
  intros H. apply exec_errors in H. simpl in H.
  repeat destruct H as [<-|H]; try contradiction;
    eexists; (split; [reflexivity|]); simpl; auto.
Qed.

End ErrorMappingOfCalls.

Lemma product_errors_map_to_client_codes_witness :
  ∃ st,
    Handler.MapDomainErrorToGRPC (Some (Sentinel ErrProductNotActive)) = Some st
    ∧ (Handler.code st = Handler.InvalidArgument
       ∨ Handler.code st = Handler.FailedPrecondition)
    ∧ Handler.message st = sentinelText ErrProductNotActive.
Proof.
  apply (product_errors_map_to_client_codes TrimSpaceASCII
           (Product.CallApplyDiscount twentyPercent 1) archivedWidget).
  reflexivity.
Defined.

(** ** Validation of a create request *)

Section CreateValidation.

(** X23. ValidateCreateProductRequest never panics and accepts a
    request exactly when its name and category are not empty and both
    parts of the price are positive. For an accepted request NewMoney
    builds a positive price, so NewProduct then succeeds whenever the
    id, name and category are not blank. *)
Theorem ValidateCreateProductRequest_accepts (req : UseCase.CreateProductRequest) :
  ∃ r,
    UseCase.ValidateCreateProductRequest req = Returns r
    ∧ (r = None ↔
         UseCase.Name req ≠ "" ∧ UseCase.Category req ≠ ""
         ∧ 0 < UseCase.BasePriceNumerator req
         ∧ 0 < UseCase.BasePriceDenominator req)
    ∧ (r = None →
       ∃ m,
         Money.NewMoney (UseCase.BasePriceNumerator req)
           (UseCase.BasePriceDenominator req) = Returns m
         ∧ Money.IsPositive m = true
         ∧ ∀ (TrimSpace : string → string) id' now,
             TrimSpace id' ≠ "" → TrimSpace (UseCase.Name req) ≠ "" →
             TrimSpace (UseCase.Category req) ≠ "" →
             ∃ p, Product.NewProduct TrimSpace id' (UseCase.Name req)
                    (UseCase.Description req) (UseCase.Category req) m now
                  = Ok p).
Proof.
  unfold UseCase.ValidateCreateProductRequest.
  destruct (String.eqb_spec (UseCase.Name req) "") as [En|Nn].
  { eexists. split; [reflexivity|]. split; [split; [discriminate|tauto]|discriminate]. }
  destruct (String.eqb_spec (UseCase.Category req) "") as [Ec|Nc].
  { eexists. split; [reflexivity|]. split; [split; [discriminate|tauto]|discriminate]. }
  destruct (Z.leb_spec (UseCase.BasePriceNumerator req) 0) as [Hn|Hn]; simpl.
  { eexists. split; [reflexivity|].
    split; [split; [discriminate|intros (_ & _ & ? & _); lia]|discriminate]. }
  destruct (Z.leb_spec (UseCase.BasePriceDenominator req) 0) as [Hd|Hd]; simpl.
  { eexists. split; [reflexivity|].
    split; [split; [discriminate|intros (_ & _ & _ & ?); lia]|discriminate]. }
  set (n := UseCase.BasePriceNumerator req) in *.
  set (d := UseCase.BasePriceDenominator req) in *.
  assert (HR : Rat.NewRat n d = Returns (Qred (Qmake n (Z.to_pos d)))).
  { unfold Rat.NewRat. destruct (Z.eqb_spec d 0); [lia|].
    destruct (Z.ltb_spec d 0); [lia|]. reflexivity. }
  rewrite HR, Sign_Qred. simpl.
  replace (Z.sgn n) with 1 by (symmetry; apply Z.sgn_pos; lia). simpl.
  exists None. split; [reflexivity|]. split; [tauto|]. intros _.
  assert (HM : Money.NewMoney n d
               = Returns (Some (Money.mk (Some (Qred (Qmake n (Z.to_pos d))))))).
  { unfold Money.NewMoney. destruct (Z.eqb_spec d 0); [lia|]. rewrite HR.
    reflexivity. }
  assert (HP : Money.IsPositive
                 (Some (Money.mk (Some (Qred (Qmake n (Z.to_pos d)))))) = true).
  { unfold Money.IsPositive. simpl. rewrite Sign_Qred. simpl.
    replace (Z.sgn n) with 1 by (symmetry; apply Z.sgn_pos; lia). reflexivity. }
  eexists. split; [exact HM|]. split; [exact HP|].
  intros TrimSpace id' now Hi Hnm Hcat.
  apply NewProduct_succeeds; assumption.
Qed.

End CreateValidation.


(** ** The repository: partial updates and the round trip of a row *)

Section RepositoryColumns.

Variable float64 : Type.
Variable Float64 : Rat.t → float64.
Variable hundredths : float64 → Z.

Lemma discountColumns_returns (d : option Discount.t) :
  ∃ r, Repository.discountColumns float64 Float64 hundredths d
       = Returns (Repository.mkNullNumeric r true,
                  Repository.mkNullTime (Discount.StartDate d) true,
                  Repository.mkNullTime (Discount.EndDate d) true).
Proof.
  unfold Repository.discountColumns.
  destruct (NewRat_value (hundredths (Float64 (Discount.Percentage d))) 100
              ltac:(lia)) as (r & -> & _).
  eauto.
Qed.

(** Reading a column of a map that was extended under a condition. *)
Lemma lookup_if_insert (b : bool) (k k' : string) (v : Repository.Value)
    (m : gmap string Repository.Value) :
  (if b then <[k' := v]> m else m) !! k
  = if b && bool_decide (k' = k) then Some v else m !! k.
Proof.
  destruct b; simpl; [|reflexivity].
  case_bool_decide as E.
  - subst. apply lookup_insert_eq.
  - apply lookup_insert_ne. exact E.
Qed.

Lemma lookup_if_insert2 (b : bool) (k k1 k2 : string) (v1 v2 : Repository.Value)
    (m : gmap string Repository.Value) :
  (if b then <[k1 := v1]> (<[k2 := v2]> m) else m) !! k
  = if b && bool_decide (k1 = k) then Some v1
    else if b && bool_decide (k2 = k) then Some v2 else m !! k.
Proof.
  destruct b; simpl; [|reflexivity].
  repeat case_bool_decide; subst; simplify_map_eq; reflexivity.
Qed.

Lemma lookup_insert_bool (k k' : string) (v : Repository.Value)
    (m : gmap string Repository.Value) :
  <[k' := v]> m !! k = if bool_decide (k' = k) then Some v else m !! k.
Proof. apply (lookup_if_insert true). Qed.

Ltac read_columns :=
  cbv delta [Repository.ProductID Repository.ProductUpdatedAt
    Repository.ProductCreatedAt Repository.ProductName
    Repository.ProductDescription Repository.ProductCategory
    Repository.ProductBasePriceNum Repository.ProductBasePriceDenom
    Repository.ProductDiscountPercent Repository.ProductDiscountStartDate
    Repository.ProductDiscountEndDate Repository.ProductStatus
    Repository.ProductArchivedAt];
  repeat (rewrite lookup_insert_bool || rewrite lookup_if_insert
          || rewrite lookup_if_insert2 || rewrite lookup_empty);
  repeat match goal with
         | |- context [bool_decide (?a = ?b)] =>
             let v := eval vm_compute in (bool_decide (a = b)) in
             change (bool_decide (a = b)) with v
         end;
  rewrite ?andb_true_r, ?andb_false_r.

Lemma UpdateMut_updates (p : Product.t) :
  ChangeTracker.HasChanges (Product.changes p) = true →
  ∃ updates,
    Repository.tracked p updates
    ∧ Repository.UpdateMut float64 Float64 hundredths p
      = if bool_decide (updates = ∅) then Returns None
        else Returns
               (Repository.modelUpdateMut (Product.id p)
                  (<[Repository.ProductUpdatedAt :=
                       Repository.VTime (Product.updatedAt p)]> updates)).
Proof.
  intros H. unfold Repository.UpdateMut. rewrite H. cbn [negb]. cbv zeta.
  destruct (discountColumns_returns (Product.discount p)) as (r & ->).
  destruct (ChangeTracker.Dirty (Product.changes p) FieldDiscount) eqn:HD;
    [destruct (Product.discount p) as [d|] eqn:Hd; cbn [negb isNil]|];
    (destruct (ChangeTracker.Dirty (Product.changes p) FieldStatus) eqn:HS;
     [destruct (Product.archivedAt p) as [a|] eqn:Ha;
      [destruct (Product.IsArchived p) eqn:HI|]|]);
    (eexists; split; [|reflexivity]);
    unfold Repository.tracked; cbv zeta; rewrite ?HD, ?HS, ?Ha, ?HI, ?Hd;
    cbn [andb fmap option_fmap option_map]; cbv beta iota;
    (split;
     [intros k;
      repeat (rewrite lookup_insert_bool || rewrite lookup_if_insert
              || rewrite lookup_if_insert2 || rewrite lookup_empty);
      repeat match goal with
             | |- context [bool_decide (?a = k)] =>
                 destruct (decide (a = k)) as [<-|E];
                 [intros _; set_solver
                 |rewrite (bool_decide_eq_false_2 _ E); clear E]
             end;
      rewrite ?andb_false_r; intros [? ?]; discriminate|]);
    repeat apply conj; read_columns;
    first [ reflexivity
          | solve [intros; eauto]
          | solve [intros [? ?]; discriminate]
          | discriminate
          | solve [destruct (Product.IsArchived p); reflexivity]
          | solve [eexists; reflexivity] ].
Qed.

End RepositoryColumns.

(** ** The repository: what is written, and what is read back *)

Section RepositoryLaws.

Variable TrimSpace : string → string.
Variable float64 : Type.
Variable Float64 : Rat.t → float64.
Variable hundredths : float64 → Z.
Variable truncate : float64 → Z.

(** The fields a partial update looks at. *)
Lemma tracked_empty (p : Product.t) (updates : gmap string Repository.Value) :
  Repository.tracked p updates →
  (updates = ∅ ↔ Repository.anyTracked (Product.changes p) = false).
Proof.
  unfold Repository.anyTracked.
  intros (Hdom & Hn & Hd & Hc & Hbn & Hbd & Hdis & Hst & Ha). split.
  - intros ->. rewrite lookup_empty in *.
    destruct (ChangeTracker.Dirty (Product.changes p) FieldName);
      [discriminate|].
    destruct (ChangeTracker.Dirty (Product.changes p) FieldDescription);
      [discriminate|].
    destruct (ChangeTracker.Dirty (Product.changes p) FieldCategory);
      [discriminate|].
    destruct (ChangeTracker.Dirty (Product.changes p) FieldBasePrice);
      [discriminate|].
    destruct (ChangeTracker.Dirty (Product.changes p) FieldStatus);
      [discriminate|].
    destruct (ChangeTracker.Dirty (Product.changes p) FieldDiscount);
      [|reflexivity].
    destruct (Product.discount p); destruct Hdis as (_ & Hs & _); discriminate.
  - intros H.
    repeat (apply orb_false_elim in H as [H ?]).
    repeat match goal with
           | Hx : ChangeTracker.Dirty _ _ = false |- _ =>
               rewrite Hx in *; clear Hx
           end.
    destruct Hdis as (Hp & Hs & He). simpl in Ha.
    apply map_empty. intros k.
    destruct (updates !! k) as [v|] eqn:E; [exfalso|reflexivity].
    pose proof (Hdom k (mk_is_Some _ _ E)) as Hk.
    repeat (apply elem_of_cons in Hk as [->|Hk]);
      [..|apply elem_of_nil in Hk; contradiction]; congruence.
Qed.

Lemma UpdateMut_nil (p : Product.t) :
  Repository.anyTracked (Product.changes p) = false →
  Repository.UpdateMut float64 Float64 hundredths p = Returns None.
Proof.
  intros H.
  destruct (ChangeTracker.HasChanges (Product.changes p)) eqn:HC.
  - destruct (UpdateMut_updates float64 Float64 hundredths p HC) as (updates & Ht & ->).
    apply (tracked_empty p updates Ht) in H. subst updates.
    rewrite bool_decide_eq_true_2 by reflexivity. reflexivity.
  - unfold Repository.UpdateMut. rewrite HC. reflexivity.
Qed.

Lemma UpdateMut_some (p : Product.t) :
  Repository.anyTracked (Product.changes p) = true →
  ∃ updates,
    Repository.tracked p updates
    ∧ Repository.UpdateMut float64 Float64 hundredths p
      = Returns (Some (Repository.mkMutation Repository.OpUpdate
                         Repository.ProductsTable
                         (<[Repository.ProductID :=
                              Repository.VString (Product.id p)]>
                            (<[Repository.ProductUpdatedAt :=
                                 Repository.VTime (Product.updatedAt p)]>
                               updates)))).
Proof.
  intros H.
  assert (HC : ChangeTracker.HasChanges (Product.changes p) = true).
  { apply HasChanges_iff. unfold Repository.anyTracked in H.
    repeat (apply orb_true_iff in H as [H|H]); eauto. }
  destruct (UpdateMut_updates float64 Float64 hundredths p HC) as (updates & Ht & ->).
  exists updates. split; [exact Ht|].
  rewrite bool_decide_eq_false_2.
  - unfold Repository.modelUpdateMut.
    rewrite bool_decide_eq_false_2 by apply insert_non_empty. reflexivity.
  - intros E. apply (tracked_empty p updates Ht) in E. congruence.
Qed.

(** X24. UpdateMut never panics. It returns nil when none of name,
    description, category, base_price, discount and status is dirty,
    whatever else the tracker holds. Otherwise it returns an update of
    the products table that carries the product's id and updatedAt,
    and, besides these two, the columns of a field exactly when the
    field is dirty, holding the product's current value: the discount
    columns are null when the product has no discount and carry its
    dates when it has one, and archived_at is written only with a
    dirty status on an archived product. *)
Theorem UpdateMut_writes_the_dirty_columns (p : Product.t) :
  (Repository.anyTracked (Product.changes p) = false
   ∧ Repository.UpdateMut float64 Float64 hundredths p = Returns None)
  ∨ (Repository.anyTracked (Product.changes p) = true
     ∧ ∃ updates,
         Repository.tracked p updates
         ∧ Repository.UpdateMut float64 Float64 hundredths p
           = Returns (Some (Repository.mkMutation Repository.OpUpdate
                              Repository.ProductsTable
                              (<[Repository.ProductID :=
                                   Repository.VString (Product.id p)]>
                                 (<[Repository.ProductUpdatedAt :=
                                      Repository.VTime (Product.updatedAt p)]>
                                    updates))))).
Proof.
  destruct (Repository.anyTracked (Product.changes p)) eqn:H.
  - right. split; [reflexivity|]. apply UpdateMut_some. exact H.
  - left. split; [reflexivity|]. apply UpdateMut_nil. exact H.
Qed.

(** A call that appended an event left a tracked field dirty, and set
    updatedAt; a call that appended none left the tracker alone. *)
Lemma call_marks_tracked (c : Product.call) (p : Product.t) :
  Product.changes p ≠ None →
  let p' := Product.after (Product.exec TrimSpace c) p in
  Product.id p' = Product.id p
  ∧ (Product.events p' ≠ Product.events p →
     Repository.anyTracked (Product.changes p') = true
     ∧ Product.updatedAt p' = Product.callTime c)
  ∧ (Product.events p' = Product.events p →
     Product.changes p' = Product.changes p).
Proof.
  intros Hc. destruct (Product.changes p) as [c0|] eqn:E; [clear Hc|contradiction].
  assert (HN : ∀ l (e : DomainEvent), l ++ [e] ≠ l).
  { intros l e H. apply (f_equal (@List.length _)) in H.
    rewrite length_app in H. simpl in H. lia. }
  cbv zeta. unfold Product.after, Repository.anyTracked.
  assert (HM : ∀ ct g, ct ≠ None →
                 ChangeTracker.Dirty (ChangeTracker.MarkDirty ct g) g = true).
  { intros [c1|] g H; [|contradiction]. rewrite Dirty_MarkDirty.
    destruct (decide (g = g)); congruence. }
  assert (HK : ∀ ct g f, ChangeTracker.Dirty ct f = true →
                 ChangeTracker.Dirty (ChangeTracker.MarkDirty ct g) f = true).
  { intros [c1|] g f H; [|discriminate]. rewrite Dirty_MarkDirty.
    destruct (decide (g = f)); auto. }
  assert (HS : ∀ ct g, ct ≠ None → ChangeTracker.MarkDirty ct g ≠ None).
  { intros [c1|] g H; [discriminate|contradiction]. }
  assert (E0 : Product.changes p ≠ None) by (rewrite E; discriminate).
  split; [|split].
  - destruct c; by_outcome TrimSpace; reflexivity.
  - destruct c; by_outcome TrimSpace; simpl; intros H;
      try contradiction; (split; [|reflexivity]);
      rewrite !orb_true_iff; auto 12.
    exfalso.
    repeat match goal with
           | Hx : negb _ = false |- _ => rewrite Hx in *; clear Hx
           end.
    discriminate.
  - destruct c; by_outcome TrimSpace; simpl; intros H;
      try exact E; try (exfalso; exact (HN _ _ H));
      exfalso;
      repeat match goal with
             | Hx : negb _ = _ |- _ => rewrite Hx in *; clear Hx
             end;
      discriminate.
Qed.

(** X25. What a call did to the aggregate reaches the table. On a
    product that has a tracker, a call that appended an event is
    followed by a non-nil UpdateMut: an update of the products table
    under the product's id, with updated_at the instant of the call and
    a column for each dirty field. A call that appended no event (it
    failed, or was an Update that changed nothing) on a product with no
    tracked field dirty is followed by a nil UpdateMut. *)
Theorem UpdateMut_after_a_call (c : Product.call) (p : Product.t) :
  Product.changes p ≠ None →
  let p' := Product.after (Product.exec TrimSpace c) p in
  (Product.events p' ≠ Product.events p →
   ∃ updates,
     Repository.tracked p' updates
     ∧ Repository.UpdateMut float64 Float64 hundredths p'
       = Returns (Some (Repository.mkMutation Repository.OpUpdate
                          Repository.ProductsTable
                          (<[Repository.ProductID :=
                               Repository.VString (Product.id p)]>
                             (<[Repository.ProductUpdatedAt :=
                                  Repository.VTime (Product.callTime c)]>
                                updates)))))
  ∧ (Product.events p' = Product.events p →
     Repository.anyTracked (Product.changes p) = false →
     Repository.UpdateMut float64 Float64 hundredths p' = Returns None).
Proof.
  intros Hc. cbv zeta.
  destruct (call_marks_tracked c p Hc) as (Hid & Hnew & Hsame). split.
  - intros H. destruct (Hnew H) as [Ha Hu].
    destruct (UpdateMut_some _ Ha) as (updates & Ht & Hm).
    exists updates. split; [exact Ht|].
    rewrite Hm, Hid, Hu. reflexivity.
  - intros H Ha. apply UpdateMut_nil. rewrite (Hsame H). exact Ha.
Qed.

(** A rational built from an integer over 1 is that integer. *)
Lemma NewRat_whole (z : Z) : Rat.NewRat z 1 = Returns (Qmake z 1).
Proof.
  unfold Rat.NewRat. simpl. f_equal.
  pose proof (Qred_bounds (Qmake z 1)) as [_ Hd].
  pose proof (Qred_correct (Qmake z 1)) as Hq. unfold Qeq in Hq.
  destruct (Qred (Qmake z 1)) as [a b]. simpl in *.
  assert (b = 1%positive) by lia. subst b. f_equal. lia.
Qed.


(** The discount [dataToDomain] builds from three valid columns. *)
Lemma stored_discount (f : float64) (s e : Time.t) :
  ∃ r, Rat.NewRat (truncate f) 1 = Returns r
       ∧ (Discount.NewDiscount (Some r) s e
          = Ok (Discount.mk (Some (Qmake (truncate f) 1)) s e)
          ∧ 1 <= truncate f <= 100 ∧ s < e
          ∨ ∃ err, Discount.NewDiscount (Some r) s e = Err err).
Proof.
  exists (Qmake (truncate f) 1). split; [apply NewRat_whole|].
  pose proof (NewDiscount_cases (Some (Qmake (truncate f) 1)) s e) as H.
  cbv beta iota in H.
  destruct H as [[_ H]|[(_ & _ & _ & H)|(H0 & H1 & Hse & H)]]; eauto.
  left. split; [exact H|]. split; [|exact Hse].
  unfold Rat.zero, Rat.hundred, Qlt, Qle in *. simpl in *. lia.
Qed.

(** X26. dataToDomain never fails and never panics, whatever the row
    holds. The product takes its strings, status and instants from the
    row; archivedAt is the stored instant when the column is valid and
    nil otherwise; the discount is nil unless all three discount
    columns are valid, and a discount that is built has the stored
    dates, start before end, and a whole percentage from 1 to 100. *)
Theorem dataToDomain_reads_the_row (data : Repository.ProductData) :
  ∃ basePrice discount,
    Repository.dataToDomain float64 Float64 truncate data
    = Returns (Product.ReconstructProduct
                 (Repository.dataProductID data) (Repository.dataName data)
                 (Repository.dataDescription data)
                 (Repository.dataCategory data) basePrice discount
                 (Repository.dataStatus data) (Repository.dataCreatedAt data)
                 (Repository.dataUpdatedAt data)
                 (if Repository.TimeValid (Repository.dataArchivedAt data)
                  then Some (Repository.TimeOf (Repository.dataArchivedAt data))
                  else None))
    ∧ Money.NewMoney (Repository.dataBasePriceNumerator data)
        (Repository.dataBasePriceDenominator data) = Returns basePrice
    ∧ (Repository.NumericValid (Repository.dataDiscountPercent data)
       && Repository.TimeValid (Repository.dataDiscountStartDate data)
       && Repository.TimeValid (Repository.dataDiscountEndDate data) = false →
       discount = None)
    ∧ (∀ d, discount = Some d →
         ∃ z, 1 <= z <= 100
              ∧ Discount.percentage d = Some (Qmake z 1)
              ∧ Discount.startDate d
                = Repository.TimeOf (Repository.dataDiscountStartDate data)
              ∧ Discount.endDate d
                = Repository.TimeOf (Repository.dataDiscountEndDate data)
              ∧ Discount.startDate d < Discount.endDate d).
Proof.
  unfold Repository.dataToDomain.
  assert (Hm : ∃ m, Money.NewMoney (Repository.dataBasePriceNumerator data)
                      (Repository.dataBasePriceDenominator data) = Returns m).
  { unfold Money.NewMoney.
    destruct (NewRat_value (Repository.dataBasePriceNumerator data)
                (if Repository.dataBasePriceDenominator data =? 0 then 1
                 else Repository.dataBasePriceDenominator data))
      as (r & -> & _); [|eauto].
    destruct (Z.eqb_spec (Repository.dataBasePriceDenominator data) 0); lia. }
  destruct Hm as (m & ->). exists m.
  destruct (Repository.NumericValid (Repository.dataDiscountPercent data)
            && Repository.TimeValid (Repository.dataDiscountStartDate data)
            && Repository.TimeValid (Repository.dataDiscountEndDate data)).
  - destruct (stored_discount
                (Float64 (Repository.Numeric (Repository.dataDiscountPercent data)))
                (Repository.TimeOf (Repository.dataDiscountStartDate data))
                (Repository.TimeOf (Repository.dataDiscountEndDate data)))
      as (r & -> & [(-> & Hz & Hse)|(err & ->)]).
    + eexists. split; [reflexivity|]. split; [reflexivity|].
      split; [discriminate|]. intros d [= <-]. simpl. eauto 6.
    + exists None. split; [reflexivity|]. split; [reflexivity|].
      split; [reflexivity|]. discriminate.
  - exists None. split; [reflexivity|]. split; [reflexivity|].
    split; [reflexivity|]. discriminate.
Qed.


(** X28. Archiving a product that was just loaded. When Archive
    succeeds on a product with a fresh tracker, the partial update
    UpdateMut builds and the mutation of ArchiveMut are the same
    update: status archived, archived_at and updated_at the instant of
    the call, under the product's id, and nothing else. *)
Theorem Archive_UpdateMut_is_ArchiveMut (p : Product.t) (now : Time.t) :
  Product.changes p = ChangeTracker.NewChangeTracker →
  Product.returned (Product.Archive now) p = Ok tt →
  let p' := Product.after (Product.Archive now) p in
  Repository.UpdateMut float64 Float64 hundredths p'
  = Returns (Repository.ArchiveMut p')
  ∧ Repository.ArchiveMut p'
    = Some (Repository.mkMutation Repository.OpUpdate Repository.ProductsTable
              (<[Repository.ProductID := Repository.VString (Product.id p)]>
               (<[Repository.ProductArchivedAt :=
                    Repository.VNullTime (Repository.mkNullTime now true)]>
                (<[Repository.ProductUpdatedAt := Repository.VTime now]>
                 (<[Repository.ProductStatus :=
                      Repository.VString ProductStatusArchived]> ∅))))).
Proof.
  intros Hc. unfold Product.returned, Product.after. rewrite Archive_outcome.
  destruct (Product.status p =? ProductStatusArchived)%string;
    [discriminate|intros _]. cbv zeta. cbn [fst].
  unfold Repository.UpdateMut, Repository.ArchiveMut. rewrite Hc.
  cbn [Product.changes Product.set_events Product.set_changes
       Product.set_updatedAt Product.set_archivedAt Product.set_status
       Product.archivedAt Product.status Product.updatedAt Product.id
       Product.IsArchived].
  set (ct := ChangeTracker.MarkDirty ChangeTracker.NewChangeTracker FieldStatus).
  replace (ChangeTracker.HasChanges ct) with true by (vm_compute; reflexivity).
  replace (ChangeTracker.Dirty ct FieldName) with false
    by (vm_compute; reflexivity).
  replace (ChangeTracker.Dirty ct FieldDescription) with false
    by (vm_compute; reflexivity).
  replace (ChangeTracker.Dirty ct FieldCategory) with false
    by (vm_compute; reflexivity).
  replace (ChangeTracker.Dirty ct FieldBasePrice) with false
    by (vm_compute; reflexivity).
  replace (ChangeTracker.Dirty ct FieldDiscount) with false
    by (vm_compute; reflexivity).
  replace (ChangeTracker.Dirty ct FieldStatus) with true
    by (vm_compute; reflexivity).
  cbn [negb]. unfold Product.IsArchived.
  cbn [Product.status Product.set_events Product.set_changes
       Product.set_updatedAt Product.set_archivedAt Product.set_status].
  replace (ProductStatusArchived =? ProductStatusArchived)%string with true
    by (vm_compute; reflexivity).
  rewrite bool_decide_eq_false_2 by apply insert_non_empty.
  unfold Repository.modelUpdateMut.
  rewrite !bool_decide_eq_false_2 by apply insert_non_empty.
  unfold Repository.UpdateMap.
  rewrite (insert_insert_ne _ Repository.ProductUpdatedAt
             Repository.ProductArchivedAt) by discriminate.
  split; reflexivity.
Qed.

End RepositoryLaws.

Lemma UpdateMut_after_a_call_witness :
  let p' := Product.after (Product.exec TrimSpaceASCII (Product.CallActivate 3))
              draftWidget in
  (Product.events p' ≠ Product.events draftWidget →
   ∃ updates,
     Repository.tracked p' updates
     ∧ Repository.UpdateMut Q exactFloat64 exactHundredths p'
       = Returns (Some (Repository.mkMutation Repository.OpUpdate
                          Repository.ProductsTable
                          (<[Repository.ProductID :=
                               Repository.VString (Product.id draftWidget)]>
                             (<[Repository.ProductUpdatedAt :=
                                  Repository.VTime
                                    (Product.callTime (Product.CallActivate 3))]>
                                updates)))))
  ∧ (Product.events p' = Product.events draftWidget →
     Repository.anyTracked (Product.changes draftWidget) = false →
     Repository.UpdateMut Q exactFloat64 exactHundredths p' = Returns None).
Proof.
  apply (UpdateMut_after_a_call TrimSpaceASCII Q exactFloat64 exactHundredths
           (Product.CallActivate 3) draftWidget).
  discriminate.
Defined.


Lemma Archive_UpdateMut_is_ArchiveMut_witness :
  let p' := Product.after (Product.Archive 5) draftWidget in
  Repository.UpdateMut Q exactFloat64 exactHundredths p'
  = Returns (Repository.ArchiveMut p')
  ∧ Repository.ArchiveMut p'
    = Some (Repository.mkMutation Repository.OpUpdate Repository.ProductsTable
              (<[Repository.ProductID :=
                   Repository.VString (Product.id draftWidget)]>
               (<[Repository.ProductArchivedAt :=
                    Repository.VNullTime (Repository.mkNullTime 5 true)]>
                (<[Repository.ProductUpdatedAt := Repository.VTime 5]>
                 (<[Repository.ProductStatus :=
                      Repository.VString ProductStatusArchived]> ∅))))).
Proof.
  apply (Archive_UpdateMut_is_ArchiveMut Q exactFloat64 exactHundredths
           draftWidget 5).
  - reflexivity.
  - reflexivity.
Defined.

(** ** The use cases: what reaches the database *)

Section UseCasePipeline.

Variable TrimSpace : string → string.
Variable float64 : Type.
Variable hundredths : float64 → Z.
Variable FindByID : string → ProductUseCases.loaded.
Variable InsertMut : Product.t → outcome (option Repository.Mutation).
Variable UpdateMut : Product.t → outcome (option Repository.Mutation).
Variable ArchiveMut : Product.t → outcome (option Repository.Mutation).
Variable InsertDomainEventMut : nat → DomainEvent → option Repository.Mutation.
Variable Now : Time.t.
Variable NewUUID : string.
Variable ReadWriteTransaction : ProductUseCases.Transaction → option GoError.

Local Notation handle :=
  (ProductUseCases.handle TrimSpace float64 hundredths FindByID UpdateMut
     ArchiveMut InsertDomainEventMut Now ReadWriteTransaction).
Local Notation commit :=
  (ProductUseCases.commit InsertDomainEventMut ReadWriteTransaction).
Local Notation addEvents := (ProductUseCases.addEvents InsertDomainEventMut).

(** Each of the six use cases loads, calls, and commits. *)
Lemma handle_pipeline (r : ProductUseCases.request float64) :
  handle r
  = match FindByID (ProductUseCases.productIDOf float64 r) with
    | ProductUseCases.NotLoaded err => Returns ([], Some err)
    | ProductUseCases.Loaded p =>
        match ProductUseCases.callOf float64 hundredths Now r with
        | Panics => Panics
        | Returns (Err e) => Returns ([], Some (Sentinel e))
        | Returns (Ok c) =>
            match Product.exec TrimSpace c p with
            | (_, Err e) => Returns ([], Some (Sentinel e))
            | (p', Ok _) =>
                commit (ProductUseCases.mutationOf float64 UpdateMut ArchiveMut r p')
                  p'
            end
        end
    end.
Proof.
  destruct r;
    cbn [ProductUseCases.handle ProductUseCases.productIDOf
         ProductUseCases.callOf ProductUseCases.mutationOf];
    unfold ProductUseCases.UpdateProduct, ProductUseCases.ActivateProduct,
      ProductUseCases.DeactivateProduct, ProductUseCases.ArchiveProduct,
      ProductUseCases.ApplyDiscount, ProductUseCases.RemoveDiscount;
    destruct (FindByID _); try reflexivity.
  cbn [Product.exec].
  destruct (Rat.NewRat _ 100); [|reflexivity].
  destruct (Discount.NewDiscount _ _ _); reflexivity.
Qed.

Lemma addEvents_Mutations (calls : nat) (events : list DomainEvent)
    (plan : Plan.t Repository.Mutation) :
  Plan.Mutations (addEvents calls events plan)
  = Plan.Mutations plan
    ++ Plan.nonNil (imap (λ i, InsertDomainEventMut (calls + i)) events).
Proof.
  revert calls plan. induction events as [|e rest IH]; intros calls plan.
  - simpl. rewrite app_nil_r. reflexivity.
  - cbn [ProductUseCases.addEvents]. rewrite IH.
    cbn [imap]. unfold Plan.nonNil at 2. cbn [List.filter].
    replace (calls + 0)%nat with calls by lia.
    replace (imap ((λ i, InsertDomainEventMut (calls + i)) ∘ S) rest)
      with (imap (λ i, InsertDomainEventMut (S calls + i)) rest)
      by (apply imap_ext; intros i x _; simpl; f_equal; lia).
    destruct (InsertDomainEventMut calls e) as [m|]; simpl.
    + unfold Plan.Add. simpl. rewrite <- app_assoc. reflexivity.
    + reflexivity.
Qed.

(** What the shared block commits: the product's mutation and the
    outbox mutations of the pending events, in this order, without the
    nil ones, in one transaction; no transaction when there is none. *)
Lemma commit_Returns (mut : option Repository.Mutation) (p : Product.t) :
  commit (Returns mut) p
  = match Plan.nonNil (mut :: imap InsertDomainEventMut (Product.events p)) with
    | [] => Returns ([], None)
    | txn => Returns ([txn], ReadWriteTransaction txn)
    end.
Proof.
  unfold ProductUseCases.commit, ProductUseCases.Apply.
  assert (E : Plan.Mutations
                (addEvents 0 (Product.events p)
                   (if negb (isNil mut) then Plan.Add mut Plan.NewPlan
                    else Plan.NewPlan))
              = Plan.nonNil (mut :: imap InsertDomainEventMut (Product.events p))).
  { rewrite addEvents_Mutations. destruct mut; reflexivity. }
  unfold Plan.IsEmpty, Plan.Mutations in *. rewrite !E.
  destruct (Plan.nonNil _); reflexivity.
Qed.

End UseCasePipeline.

Section UseCaseLaws.

Variable TrimSpace : string → string.
Variable float64 : Type.
Variable Float64 : Rat.t → float64.
Variable hundredths : float64 → Z.
Variable truncate : float64 → Z.
Variable FindByID : string → ProductUseCases.loaded.
Variable InsertDomainEventMut : nat → DomainEvent → option Repository.Mutation.
Variable Now : Time.t.
Variable NewUUID : string.
Variable ReadWriteTransaction : ProductUseCases.Transaction → option GoError.

(** The use cases over the repository of package [repository]. *)
Local Notation UpdateMut := (Repository.UpdateMut float64 Float64 hundredths).
Local Notation ArchiveMut := (λ p, Returns (Repository.ArchiveMut p)).
Local Notation InsertMut := (Repository.InsertMut float64 Float64 hundredths).
Local Notation handle :=
  (ProductUseCases.handle TrimSpace float64 hundredths FindByID UpdateMut
     ArchiveMut InsertDomainEventMut Now ReadWriteTransaction).
Local Notation callOf := (ProductUseCases.callOf float64 hundredths Now).
Local Notation mutationOf :=
  (ProductUseCases.mutationOf float64 UpdateMut ArchiveMut).
Local Notation CreateProduct :=
  (ProductUseCases.CreateProduct TrimSpace InsertMut InsertDomainEventMut Now
     NewUUID ReadWriteTransaction).

(** A product read from a row has a fresh tracker and no events. *)
Lemma dataToDomain_fresh (data : Repository.ProductData) (p : Product.t) :
  Repository.dataToDomain float64 Float64 truncate data = Returns p →
  Product.changes p = ChangeTracker.NewChangeTracker ∧ Product.events p = [].
Proof.
  unfold Repository.dataToDomain.
  destruct (Money.NewMoney _ _); [|discriminate].
  destruct (_ && _).
  - destruct (Rat.NewRat _ 1); [|discriminate].
    destruct (Discount.NewDiscount _ _ _); intros [= <-]; split; reflexivity.
  - intros [= <-]; split; reflexivity.
Qed.

(** A call that succeeded left the product alone, which only Update
    does, or appended the event of its method. *)
Lemma call_event (c : Product.call) (p : Product.t) :
  Product.returned (Product.exec TrimSpace c) p = Ok tt →
  (Product.after (Product.exec TrimSpace c) p = p
   ∧ ∃ n d cat now, c = Product.CallUpdate n d cat now)
  ∨ ∃ e,
      Product.events (Product.after (Product.exec TrimSpace c) p)
      = Product.events p ++ [e]
      ∧ EventType e = Product.callEventType c.
Proof.
  unfold Product.returned, Product.after.
  destruct c; by_outcome TrimSpace; simpl; intros H; try discriminate;
    first [ left; split; [reflexivity|eauto 6]
          | right; eexists; repeat split ].
Qed.

Lemma callOf_cases (r : ProductUseCases.request float64) :
  (∃ e, callOf r = Returns (Err e))
  ∨ ∃ c, callOf r = Returns (Ok c)
         ∧ Product.callTime c = Now
         ∧ ((∃ n d cat now, c = Product.CallUpdate n d cat now) →
            ∃ req, r = ProductUseCases.ReqUpdate float64 req)
         ∧ ((∃ req, r = ProductUseCases.ReqArchive float64 req) →
            c = Product.CallArchive Now).
Proof.
  destruct r; cbn [ProductUseCases.callOf];
    try (right; eexists; split; [reflexivity|]; split; [reflexivity|];
         split; [intros (? & ? & ? & ? & [=]); eauto
                |intros (? & [=]); reflexivity]).
  destruct (NewRat_value
              (hundredths (ProductUseCases.ApplyDiscountRequest.DiscountPercentage req))
              100 ltac:(lia)) as (q & -> & _).
  destruct (Discount.NewDiscount _ _ _); [|eauto].
  right; eexists; split; [reflexivity|]; split; [reflexivity|].
  split; [intros (? & ? & ? & ? & [=])|intros (? & [=])].
Qed.

(** ArchiveMut always builds an update, with the key and updatedAt. *)
Lemma ArchiveMut_some (p : Product.t) :
  ∃ mut, Repository.ArchiveMut p = Some mut
         ∧ Repository.op mut = Repository.OpUpdate
         ∧ Repository.table mut = Repository.ProductsTable
         ∧ Repository.values mut !! Repository.ProductID
           = Some (Repository.VString (Product.id p))
         ∧ Repository.values mut !! Repository.ProductUpdatedAt
           = Some (Repository.VTime (Product.updatedAt p)).
Proof.
  unfold Repository.ArchiveMut, Repository.modelUpdateMut.
  destruct (Product.archivedAt p);
    rewrite bool_decide_eq_false_2 by apply insert_non_empty;
    (eexists; split; [reflexivity|]); cbn [Repository.op Repository.table
      Repository.values]; repeat split;
    unfold Repository.ProductID, Repository.ProductUpdatedAt,
      Repository.ProductArchivedAt, Repository.ProductStatus;
    simplify_map_eq; reflexivity.
Qed.

(** X29. The six use cases that change a stored product. Let FindByID
    return a product read from a row. A request that NewDiscount or the
    aggregate refuses returns that error and runs no transaction. An
    Update that changes nothing returns nil and runs no transaction.
    Every other request runs exactly one transaction, which holds an
    update of the product's row (its id, updated_at the instant read
    from the clock) followed by the outbox mutation of the one event
    the call appended, and returns the error of that transaction. No
    use case panics. *)
Theorem use_case_commits_row_and_event (r : ProductUseCases.request float64)
    (data : Repository.ProductData) (p : Product.t) :
  FindByID (ProductUseCases.productIDOf float64 r) = ProductUseCases.Loaded p →
  Repository.dataToDomain float64 Float64 truncate data = Returns p →
  match callOf r with
  | Panics => False
  | Returns (Err e) => handle r = Returns ([], Some (Sentinel e))
  | Returns (Ok c) =>
      let p' := Product.after (Product.exec TrimSpace c) p in
      match Product.returned (Product.exec TrimSpace c) p with
      | Err e => handle r = Returns ([], Some (Sentinel e))
      | Ok _ =>
          (p' = p ∧ handle r = Returns ([], None))
          ∨ ∃ e mut,
              Product.events p' = [e]
              ∧ EventType e = Product.callEventType c
              ∧ mutationOf r p' = Returns (Some mut)
              ∧ Repository.op mut = Repository.OpUpdate
              ∧ Repository.table mut = Repository.ProductsTable
              ∧ Repository.values mut !! Repository.ProductID
                = Some (Repository.VString (Product.id p))
              ∧ Repository.values mut !! Repository.ProductUpdatedAt
                = Some (Repository.VTime Now)
              ∧ let txn := Some mut :: Plan.nonNil [InsertDomainEventMut 0 e] in
                handle r = Returns ([txn], ReadWriteTransaction txn)
      end
  end.
Proof.
  intros Hf Hd. destruct (dataToDomain_fresh data p Hd) as [Hc He].
  rewrite handle_pipeline, Hf.
  destruct (callOf_cases r) as [(e & ->)|(c & -> & Ht & Hu & Ha)];
    [reflexivity|].
  cbv zeta. unfold Product.returned, Product.after.
  destruct (Product.exec TrimSpace c p) as [p' [[]|e]] eqn:Hx;
    cbn [fst snd]; [|reflexivity].
  assert (Hr : Product.returned (Product.exec TrimSpace c) p = Ok tt)
    by (unfold Product.returned; rewrite Hx; reflexivity).
  assert (Hp' : Product.after (Product.exec TrimSpace c) p = p')
    by (unfold Product.after; rewrite Hx; reflexivity).
  assert (Hcp : Product.changes p ≠ None) by (rewrite Hc; discriminate).
  destruct (call_event c p Hr) as [[Hsame Hupd]|(e & Hev & Hty)];
    rewrite Hp' in *.
  - left. split; [exact Hsame|]. rewrite Hsame.
    destruct (Hu Hupd) as (req & ->). cbn [ProductUseCases.mutationOf].
    rewrite (UpdateMut_nil float64 Float64 hundredths p)
      by (rewrite Hc; vm_compute; reflexivity).
    rewrite commit_Returns, He. reflexivity.
  - right. rewrite He in Hev. cbn [app] in Hev.
    destruct (call_marks_tracked TrimSpace c p Hcp) as (Hid & Hnew & _).
    rewrite Hp' in *.
    destruct Hnew as [Hany Hup]; [rewrite Hev, He; discriminate|].
    assert (Hm : ∃ mut,
               mutationOf r p' = Returns (Some mut)
               ∧ Repository.op mut = Repository.OpUpdate
               ∧ Repository.table mut = Repository.ProductsTable
               ∧ Repository.values mut !! Repository.ProductID
                 = Some (Repository.VString (Product.id p))
               ∧ Repository.values mut !! Repository.ProductUpdatedAt
                 = Some (Repository.VTime Now)).
    { rewrite <- Ht, <- Hup, <- Hid.
      assert (HU : ∃ mut,
                 UpdateMut p' = Returns (Some mut)
                 ∧ Repository.op mut = Repository.OpUpdate
                 ∧ Repository.table mut = Repository.ProductsTable
                 ∧ Repository.values mut !! Repository.ProductID
                   = Some (Repository.VString (Product.id p'))
                 ∧ Repository.values mut !! Repository.ProductUpdatedAt
                   = Some (Repository.VTime (Product.updatedAt p'))).
      { destruct (UpdateMut_some float64 Float64 hundredths p' Hany)
          as (updates & _ & ->).
        eexists. split; [reflexivity|]. cbn [Repository.op Repository.table
          Repository.values]. repeat split.
        - apply lookup_insert_eq.
        - rewrite lookup_insert_ne by discriminate. apply lookup_insert_eq. }
      destruct r; cbn [ProductUseCases.mutationOf]; try exact HU.
      destruct (ArchiveMut_some p') as (mut & -> & H). eauto. }
    destruct Hm as (mut & Hm & Hop & Htab & Hk & Hu').
    exists e, mut. rewrite Hm, commit_Returns, Hev.
    repeat split; try assumption.
Qed.

(** X30. CreateProduct never panics. When NewProduct refuses the
    request, its error is returned and no transaction runs. Otherwise
    exactly one transaction runs: the insert of the new row (the fresh
    id, the trimmed name, status draft, created_at and updated_at the
    instant read from the clock, no discount, not archived) followed by
    the outbox mutation of the product.created event. The fresh id is
    returned only when that transaction committed; its error is
    returned otherwise. *)
Theorem CreateProduct_commits_row_and_event (req : UseCase.CreateProductRequest) :
  ∃ basePrice,
    Money.NewMoney (UseCase.BasePriceNumerator req)
      (UseCase.BasePriceDenominator req) = Returns basePrice
    ∧ match Product.NewProduct TrimSpace NewUUID (UseCase.Name req)
              (UseCase.Description req) (UseCase.Category req) basePrice Now with
      | Err e =>
          CreateProduct req
          = Returns ([], ProductUseCases.NotCreated (Sentinel e))
      | Ok p =>
          ∃ mut,
            InsertMut p = Returns (Some mut)
            ∧ Repository.op mut = Repository.OpInsert
            ∧ Repository.table mut = Repository.ProductsTable
            ∧ Repository.values mut !! Repository.ProductID
              = Some (Repository.VString NewUUID)
            ∧ Repository.values mut !! Repository.ProductName
              = Some (Repository.VString (TrimSpace (UseCase.Name req)))
            ∧ Repository.values mut !! Repository.ProductStatus
              = Some (Repository.VString ProductStatusDraft)
            ∧ Repository.values mut !! Repository.ProductCreatedAt
              = Some (Repository.VTime Now)
            ∧ Repository.values mut !! Repository.ProductUpdatedAt
              = Some (Repository.VTime Now)
            ∧ Repository.values mut !! Repository.ProductDiscountPercent
              = Some (Repository.VNullNumeric Repository.noNumeric)
            ∧ Repository.values mut !! Repository.ProductArchivedAt
              = Some (Repository.VNullTime Repository.noTime)
            ∧ let txn :=
                Some mut
                :: Plan.nonNil
                     [InsertDomainEventMut 0
                        (NewProductCreatedEvent NewUUID
                           (TrimSpace (UseCase.Name req))
                           (TrimSpace (UseCase.Description req))
                           (TrimSpace (UseCase.Category req)) basePrice Now)] in
              CreateProduct req
              = Returns ([txn],
                         match ReadWriteTransaction txn with
                         | Some err => ProductUseCases.NotCreated err
                         | None => ProductUseCases.Created NewUUID
                         end)
      end.
Proof.
  assert (Hm : ∃ m, Money.NewMoney (UseCase.BasePriceNumerator req)
                      (UseCase.BasePriceDenominator req) = Returns m).
  { unfold Money.NewMoney.
    destruct (NewRat_value (UseCase.BasePriceNumerator req)
                (if UseCase.BasePriceDenominator req =? 0 then 1
                 else UseCase.BasePriceDenominator req))
      as (q & -> & _); [|eauto].
    destruct (Z.eqb_spec (UseCase.BasePriceDenominator req) 0); lia. }
  destruct Hm as (basePrice & Hm). exists basePrice. split; [exact Hm|].
  unfold ProductUseCases.CreateProduct. rewrite Hm. cbv zeta.
  destruct (Product.NewProduct TrimSpace NewUUID (UseCase.Name req)
              (UseCase.Description req) (UseCase.Category req) basePrice Now)
    as [p|e] eqn:Hp; [|reflexivity].
  apply NewProduct_Ok in Hp. subst p.
  unfold Repository.InsertMut, Repository.productToData.
  cbn [Product.discount Product.archivedAt Product.events isNil negb].
  unfold Repository.modelInsertMut, Repository.InsertMutation,
    Repository.InsertMap.
  eexists. split; [reflexivity|].
  cbn [Repository.op Repository.table Repository.values isNil negb
       ProductUseCases.addEvents].
  repeat split;
    try (unfold Repository.InsertMapOf, Repository.ProductID,
           Repository.ProductName, Repository.ProductDescription,
           Repository.ProductCategory, Repository.ProductBasePriceNum,
           Repository.ProductBasePriceDenom, Repository.ProductDiscountPercent,
           Repository.ProductDiscountStartDate,
           Repository.ProductDiscountEndDate, Repository.ProductStatus,
           Repository.ProductCreatedAt, Repository.ProductUpdatedAt,
           Repository.ProductArchivedAt;
         simplify_map_eq; reflexivity).
  cbv zeta. unfold ProductUseCases.Apply.
  destruct (InsertDomainEventMut 0 _) as [m|]; cbn;
    destruct (ReadWriteTransaction _); reflexivity.
Qed.

End UseCaseLaws.

Lemma use_case_commits_row_and_event_witness :
  let r := ProductUseCases.ReqActivate Q
             (ProductUseCases.ActivateProductRequest.mk "prod-123") in
  let handle :=
    ProductUseCases.handle TrimSpaceASCII Q exactHundredths findWidget
      (Repository.UpdateMut Q exactFloat64 exactHundredths)
      (λ p, Returns (Repository.ArchiveMut p)) outboxRow 3 alwaysCommits in
  match ProductUseCases.callOf Q exactHundredths 3 r with
  | Panics => False
  | Returns (Err e) => handle r = Returns ([], Some (Sentinel e))
  | Returns (Ok c) =>
      let p' := Product.after (Product.exec TrimSpaceASCII c) draftWidget in
      match Product.returned (Product.exec TrimSpaceASCII c) draftWidget with
      | Err e => handle r = Returns ([], Some (Sentinel e))
      | Ok _ =>
          (p' = draftWidget ∧ handle r = Returns ([], None))
          ∨ ∃ e mut,
              Product.events p' = [e]
              ∧ EventType e = Product.callEventType c
              ∧ ProductUseCases.mutationOf Q
                  (Repository.UpdateMut Q exactFloat64 exactHundredths)
                  (λ p, Returns (Repository.ArchiveMut p)) r p'
                = Returns (Some mut)
              ∧ Repository.op mut = Repository.OpUpdate
              ∧ Repository.table mut = Repository.ProductsTable
              ∧ Repository.values mut !! Repository.ProductID
                = Some (Repository.VString (Product.id draftWidget))
              ∧ Repository.values mut !! Repository.ProductUpdatedAt
                = Some (Repository.VTime 3)
              ∧ let txn := Some mut :: Plan.nonNil [outboxRow 0 e] in
                handle r = Returns ([txn], alwaysCommits txn)
      end
  end.
Proof.
  apply (use_case_commits_row_and_event TrimSpaceASCII Q exactFloat64
           exactHundredths exactTruncate findWidget outboxRow 3 alwaysCommits
           (ProductUseCases.ReqActivate Q
              (ProductUseCases.ActivateProductRequest.mk "prod-123"))
           widgetRow draftWidget).
  - reflexivity.
  - reflexivity.
Defined.

(** ** The properties at concrete inputs *)

Example NewMoney_5000_100 :
  Money.NewMoney 5000 100 = Returns (Some (Money.mk (Some (Qmake 50 1)))).
Proof. reflexivity. Qed.

Example NewMoney_1999_100 : Money.NewMoney 1999 100 = Returns price1999.
Proof. reflexivity. Qed.

Example ApplyDiscount_25_percent :
  Money.ApplyDiscount (Some (Money.mk (Some (Qmake 100 1)))) (Some (Qmake 25 1))
  = Returns (Some (Money.mk (Some (Qmake 75 1)))).
Proof. reflexivity. Qed.

Example TrimSpaceASCII_Widget : TrimSpaceASCII "  Widget " = "Widget".
Proof. reflexivity. Qed.

(** Add, Clear, AddAll with a nil among its arguments, Add(nil): the
    plan holds the two non-nil mutations handed to it after the Clear. *)
Example Plan_run_sample :
  let ops := [Plan.OpAdd (Some 1%nat); Plan.OpClear;
              Plan.OpAddAll [Some 2%nat; None; Some 3%nat]; Plan.OpAdd None] in
  Plan.Mutations (Plan.run ops Plan.NewPlan) = [Some 2%nat; Some 3%nat]
  ∧ Plan.addedSinceClear ops = [Some 2%nat; Some 3%nat]
  ∧ Plan.Count (Plan.run ops Plan.NewPlan) = 2%nat.
Proof. repeat split. Qed.

(** Create, activate, apply 20% over the instants 0 to 10: the
    effective price of 100 is 80 at instant 0 and 100 again at 10. *)
Example lifecycle_effective_price :
  match Product.NewProduct TrimSpaceASCII "prod-1" "Widget" "" "X"
          (Some (Money.mk (Some (Qmake 100 1)))) 0 with
  | Ok p0 =>
      let p := Product.run TrimSpaceASCII
                 [Product.CallActivate 0; Product.CallApplyDiscount twentyPercent 0]
                 p0 in
      Product.status p = ProductStatusActive
      ∧ map EventType (Product.events p)
        = ["product.created"; "product.activated"; "product.discount_applied"]
      ∧ Product.EffectivePrice p 0 = Returns (Some (Money.mk (Some (Qmake 80 1))))
      ∧ Product.EffectivePrice p 10 = Returns (Some (Money.mk (Some (Qmake 100 1))))
  | Err _ => False
  end.
Proof. repeat split. Qed.

Lemma error_leaves_product_unmodified_witness :
  Product.after
    (Product.exec TrimSpaceASCII (Product.CallUpdate "  " "new" "Y" 3)) draftWidget
  = draftWidget.
Proof.
  apply (error_leaves_product_unmodified TrimSpaceASCII
           (Product.CallUpdate "  " "new" "Y" 3) draftWidget ErrInvalidProductName).
  reflexivity.
Defined.

Lemma archived_is_absorbing_witness :
  let cs := [Product.CallActivate 6; Product.CallUpdate "Gadget" "" "Y" 7;
             Product.CallApplyDiscount twentyPercent 8; Product.CallArchive 9] in
  Product.status (Product.run TrimSpaceASCII cs archivedWidget)
  = ProductStatusArchived
  ∧ Forall (λ r, ∃ e, r = Err e) (Product.results TrimSpaceASCII cs archivedWidget).
Proof.
  apply (archived_is_absorbing TrimSpaceASCII). reflexivity.
Defined.

Lemma ApplyDiscount_archived_returns_NotActive_witness :
  Product.ApplyDiscount twentyPercent 1 archivedWidget
  = (archivedWidget, Err ErrProductNotActive).
Proof.
  apply (ApplyDiscount_archived_returns_NotActive twentyPercent 1 archivedWidget).
  reflexivity.
Defined.





Lemma archivedAt_iff_Archived_witness :
  ∃ p0,
    Product.NewProduct TrimSpaceASCII "prod-123" "Widget" "" "X" price1999 0 = Ok p0
    ∧ let p := Product.after (Product.exec TrimSpaceASCII (Product.CallArchive 7))
                 (Product.after
                    (Product.exec TrimSpaceASCII (Product.CallActivate 1)) p0) in
      (Product.archivedAt p ≠ None ↔ Product.status p = ProductStatusArchived)
      ∧ Product.archivedAt p = Some 7.
Proof.
  eexists. split; [reflexivity|]. split.
  - apply (proj1 (archivedAt_iff_Archived TrimSpaceASCII)).
    apply Product.reach_call. apply Product.reach_call.
    apply (Product.reach_new TrimSpaceASCII "prod-123" "Widget" "" "X" price1999 0).
    reflexivity.
  - reflexivity.
Defined.
